(** * terraform-provider-st-digicert: retry policy, Alidns record wrappers
      and DigiCert API wrappers

    A shallow embedding of
    - [digicert/dns/platform/alicloud/dns/client.go]   ([NewClient]),
    - [digicert/dns/platform/alicloud/dns/dnsrr.go]    (the Alidns wrappers),
    - the DigiCert API file                            ([IssueCert], [RevokeCert], ...),
    together with the two helpers those files import from the rest of the
    repository, [backoff_retry.RetryOperator] and
    [alicloud.IsPermanentCommonError].

    Go values are modelled as the code has them: strings are byte strings,
    [*string] is [option string] and dereferencing [nil] panics, an [error]
    interface value is [option error] with [None] for [nil], [time.Duration]
    is an integer number of nanoseconds. *)

From Stdlib Require Import ZArith List String Ascii Bool Lia DecimalString.
Import ListNotations.

Local Open Scope string_scope.
Local Open Scope Z_scope.

(* ================================================================== *)
(** * Go error values *)
(* ================================================================== *)

(** The dynamic types of [error] that occur in the modelled code.
    [errorString] is what [errors.New] and [fmt.Errorf] build (and stands for
    the SDKs' errors, of which only the text is ever inspected),
    [PermanentError] is the wrapper of [backoff.Permanent].  [TimedOutError]
    is the wrapper the retry operator puts around the last error when the
    time budget is used up. *)
Inductive error : Type :=
| errorString (s : string)
| PermanentError (Err : error)
| TimedOutError (Err : error).

(** [err.Error()]: both wrappers forward to the wrapped error. *)
Fixpoint Error (e : error) : string :=
  match e with
  | errorString s => s
  | PermanentError e' => Error e'
  | TimedOutError e' => Error e'
  end.

(** [errors.New(text)]. *)
Definition errors_New (text : string) : error := errorString text.

(** [backoff.Permanent(err)] on a non-nil [err]. *)
Definition backoff_Permanent (err : error) : error := PermanentError err.

(** The type assertion of [err] to a pointer to [backoff.PermanentError]. *)
Definition isPermanentError (e : error) : bool :=
  match e with
  | PermanentError _ => true
  | _ => false
  end.

(** Why a retry sequence ended without success. *)
Inductive TerminalState : Type := PermanentlyFailed | TimedOut.

Definition terminalState (e : error) : option TerminalState :=
  match e with
  | PermanentError _ => Some PermanentlyFailed
  | TimedOutError _ => Some TimedOut
  | errorString _ => None
  end.

(* ================================================================== *)
(** * Strings *)
(* ================================================================== *)

(** [strings.HasPrefix(s, prefix)]. *)
Fixpoint HasPrefix (s prefix : string) : bool :=
  match prefix, s with
  | EmptyString, _ => true
  | String _ _, EmptyString => false
  | String c prefix', String d s' => Ascii.eqb c d && HasPrefix s' prefix'
  end.

(** [strings.Contains(s, substr)]: [substr] occurs in [s] at some offset. *)
Fixpoint Contains (s substr : string) : bool :=
  HasPrefix s substr ||
  match s with
  | EmptyString => false
  | String _ s' => Contains s' substr
  end.

(** The occurrence of [substr] inside [s], as a proposition. *)
Definition Occurs (substr s : string) : Prop :=
  exists before after, s = before ++ substr ++ after.

(** [%d] of an [int]. *)
Definition itoa (n : Z) : string := NilZero.string_of_int (Z.to_int n).

(* ================================================================== *)
(** * The error classifier *)
(* ================================================================== *)

Inductive ErrorClassification : Type := Transient | Permanent.

(** Modelled from the spec: [alicloud.IsPermanentCommonError] lives in a
    package of the repository that is not among the source files.  The spec
    (4.1) gives the contract: the text is [Permanent] when it contains one
    of the provider's known non-retryable error strings, [Transient]
    otherwise.  The list of those strings is the provider's; it is an
    argument here. *)
Definition classify (vocabulary : list string) (errorMessage : string)
  : ErrorClassification :=
  if existsb (Contains errorMessage) vocabulary then Permanent else Transient.

(** The boolean view the call sites use. *)
Definition isPermanent (c : ErrorClassification) : bool :=
  match c with
  | Permanent => true
  | Transient => false
  end.

(* ================================================================== *)
(** * The world the wrappers run in *)
(* ================================================================== *)

(** [time.Duration], in nanoseconds. *)
Definition Duration := Z.

Definition Minute : Duration := 60 * 1000000000.

(** ** Alidns SDK requests and responses

    The SDK's structs hold pointers; a field that is [None] is a [nil]
    pointer.  Only the fields the wrappers set or read are listed, except
    [PageNumber], which is listed because no wrapper sets it. *)

Record DescribeDomainRecordsRequest : Type := {
  describe_DomainName : option string;
  describe_PageNumber : option Z;
  describe_PageSize : option Z
}.

Record AddDomainRecordRequest : Type := {
  add_DomainName : option string;
  add_RR : option string;
  add_Type : option string;
  add_Value : option string
}.

Record UpdateDomainRecordRequest : Type := {
  update_RecordId : option string;
  update_RR : option string;
  update_Type : option string;
  update_Value : option string
}.

Record DeleteDomainRecordRequest : Type := {
  delete_RecordId : option string
}.

(** [alidns.DescribeDomainRecordsResponseBodyDomainRecordsRecord]. *)
Record DomainRecord : Type := {
  DomainName : option string;
  RR : option string;
  RecordId : option string;
  Type_ : option string;
  Value : option string
}.

Record DescribeDomainRecordsResponseBodyDomainRecords : Type := {
  Record_ : list (option DomainRecord)
}.

Record DescribeDomainRecordsResponseBody : Type := {
  DomainRecords : option DescribeDomainRecordsResponseBodyDomainRecords
}.

Record DescribeDomainRecordsResponse : Type := {
  describe_Body : option DescribeDomainRecordsResponseBody
}.

Record AddDomainRecordResponseBody : Type := {
  add_RecordId : option string
}.

Record AddDomainRecordResponse : Type := {
  add_Body : option AddDomainRecordResponseBody
}.

(** One request sent through the SDK client. *)
Inductive Call : Type :=
| CallDescribeDomainRecords (request : DescribeDomainRecordsRequest)
| CallAddDomainRecord (request : AddDomainRecordRequest)
| CallUpdateDomainRecord (request : UpdateDomainRecordRequest)
| CallDeleteDomainRecord (request : DeleteDomainRecordRequest).

(** The state a wrapper runs in: the clock, the requests sent so far (oldest
    first) and the lines written with [tflog.Debug]. *)
Record World : Type := {
  now : Z;
  calls : list Call;
  debugLog : list string
}.

(** [*alidns.Client], by what it answers: each method is a function of the
    world before the request and of the request; [latency] is the time the
    request takes. *)
Record AlidnsClient : Type := {
  DescribeDomainRecords :
    World -> DescribeDomainRecordsRequest ->
    option DescribeDomainRecordsResponse * option error;
  AddDomainRecord :
    World -> AddDomainRecordRequest ->
    option AddDomainRecordResponse * option error;
  UpdateDomainRecord : World -> UpdateDomainRecordRequest -> option error;
  DeleteDomainRecord : World -> DeleteDomainRecordRequest -> option error;
  latency : World -> Call -> N
}.

(** [type Alidns struct { Client *alidns.Client }]. *)
Record Alidns : Type := {
  Client : option AlidnsClient
}.

(** ** Running Go code

    A call either returns a value and the world it leaves, or panics.
    [OutOfFuel] is not a behaviour of the program: it is what a loop of the
    model answers when the bound on its iterations is too small. *)
Inductive outcome (A : Type) : Type :=
| Returned (a : A) (w : World)
| Panicked (reason : string)
| OutOfFuel.

Arguments Returned {A} a w.
Arguments Panicked {A} reason.
Arguments OutOfFuel {A}.

Definition Go (A : Type) : Type := World -> outcome A.

Definition ret {A} (a : A) : Go A := fun w => Returned a w.

Definition bind {A B} (m : Go A) (k : A -> Go B) : Go B :=
  fun w =>
    match m w with
    | Returned a w' => k a w'
    | Panicked reason => Panicked reason
    | OutOfFuel => OutOfFuel
    end.

Declare Scope go_scope.
Delimit Scope go_scope with go.
Notation "x <- m ;; k" := (bind m (fun x => k))
  (at level 61, m at next level, right associativity) : go_scope.
Notation "' pat <- m ;; k" := (bind m (fun x => match x with pat => k end))
  (at level 61, pat pattern, m at next level, right associativity) : go_scope.
Notation "m ;; k" := (bind m (fun _ => k))
  (at level 61, right associativity) : go_scope.
Local Open Scope go_scope.

Definition panic {A} (reason : string) : Go A := fun _ => Panicked reason.

Definition nilDereference : string :=
  "runtime error: invalid memory address or nil pointer dereference".

(** [*p]. *)
Definition deref {A} (p : option A) : Go A :=
  match p with
  | Some a => ret a
  | None => panic nilDereference
  end.

(** [time.Now()]. *)
Definition time_Now : Go Z := fun w => Returned (now w) w.

(** The world after sleeping [d]; a sleep that is not positive returns at
    once. *)
Definition slept (d : Duration) (w : World) : World :=
  {| now := now w + Z.max 0 d;
     calls := calls w;
     debugLog := debugLog w |}.

(** [time.Sleep(d)]. *)
Definition time_Sleep (d : Duration) : Go unit :=
  fun w => Returned tt (slept d w).

(** The world after [msg] was written to the debug log. *)
Definition logged (msg : string) (w : World) : World :=
  {| now := now w;
     calls := calls w;
     debugLog := debugLog w ++ [msg] |}.

(** [context.Context], by what [tflog] reads of it: whether it carries the
    provider's logger.  [context.Background()] carries none. *)
Record Context : Type := {
  providerLogger : bool
}.

Definition context_Background : Context := {| providerLogger := false |}.

(** [tflog.Debug(ctx, msg)] writes [msg] with the provider's logger that
    [ctx] carries; with a context that carries none it returns at once. *)
Definition tflog_Debug (ctx : Context) (msg : string) : Go unit :=
  fun w => Returned tt (if providerLogger ctx then logged msg w else w).

(** The world after [client] has served [call]. *)
Definition served (client : AlidnsClient) (call : Call) (w : World) : World :=
  {| now := now w + Z.of_N (latency client w call);
     calls := calls w ++ [call];
     debugLog := debugLog w |}.

(** A method call on the SDK client [p]: [nil] panics; otherwise the request
    is recorded, time passes, and the client's answer comes back. *)
Definition request {A} (p : option AlidnsClient) (call : Call)
    (answer : AlidnsClient -> World -> A) : Go A :=
  client <- deref p ;;
  fun w => Returned (answer client w) (served client call w).

(* ================================================================== *)
(** * The retry operator *)
(* ================================================================== *)

Section RetryOperator.

(** The delay slept after the failed attempt number [n] (counted from 0):
    the exponential schedule with jitter, which the spec leaves to the
    implementation. *)
Variable nextBackOff : nat -> Duration.

(** The captured variables of the operation closure: Go's
    [func() error] may assign variables of the enclosing function, and
    the caller reads them afterwards. *)
Context {Frame : Type}.

(** Modelled from the spec: [backoff_retry.RetryOperator] lives in a
    package of the repository that is not among the source files.  This
    is the loop of spec 4.2, with its termination conditions in their
    priority order: (1) the attempt succeeds: return success; (2) its
    error is tagged Permanent: return that error, no further attempt;
    (3) the time since the first attempt exceeds [maxElapsed]: return the
    most recent error, wrapped as timed out; otherwise sleep the next
    back-off interval and attempt again.  [fuel] bounds the number of
    attempts of the model. *)
Fixpoint retry (fuel : nat) (operation : Frame -> Go (option error * Frame))
    (maxElapsed : Duration) (start : Z) (attempt : nat) (frame : Frame)
  : Go (option error * Frame) :=
  match fuel with
  | O => fun _ => OutOfFuel
  | S fuel' =>
      '(err, frame') <- operation frame ;;
      match err with
      | None => ret (None, frame')
      | Some e =>
          if isPermanentError e then ret (Some e, frame')
          else
            t <- time_Now ;;
            if maxElapsed <? t - start
            then ret (Some (TimedOutError e), frame')
            else
              time_Sleep (nextBackOff attempt) ;;
              retry fuel' operation maxElapsed start (S attempt) frame'
      end
  end.

Definition RetryOperator (fuel : nat)
    (operation : Frame -> Go (option error * Frame))
    (maxElapsed : Duration) (frame : Frame) : Go (option error * Frame) :=
  start <- time_Now ;;
  retry fuel operation maxElapsed start 0 frame.

(** The state in which attempt number [n] starts, when every earlier
    attempt failed with an error that is not Permanent and within the time
    budget; [None] when the sequence ended before. *)
Fixpoint beforeAttempt (operation : Frame -> Go (option error * Frame))
    (maxElapsed : Duration) (start : Z) (n : nat) (frame : Frame) (w : World)
  : option (Frame * World) :=
  match n with
  | O => Some (frame, w)
  | S n' =>
      match beforeAttempt operation maxElapsed start n' frame w with
      | Some (frame', w') =>
          match operation frame' w' with
          | Returned (Some e, frame'') w'' =>
              if isPermanentError e || (maxElapsed <? now w'' - start)
              then None
              else
                Some (frame'', slept (nextBackOff n') w'')
          | _ => None
          end
      | None => None
      end
  end.

End RetryOperator.

(* ================================================================== *)
(** * dnsrr.go *)
(* ================================================================== *)

Definition MAX_ELAPSED_TIME : Duration := 10 * Minute.

(** [tea.String], [tea.Int64]: a pointer to a copy of the value. *)
Definition tea_String (s : string) : option string := Some s.
Definition tea_Int64 (n : Z) : option Z := Some n.

Section Dnsrr.

(** [alicloud.IsPermanentCommonError]. *)
Variable IsPermanentCommonError : string -> bool.
Variable nextBackOff : nat -> Duration.

Definition GetAllDnsRecords (a : Alidns) (domain : string)
  : Go (list (option DomainRecord) * option error) :=
  let describeDomainRecordsRequest :=
    {| describe_DomainName := tea_String domain;
       describe_PageNumber := None;
       describe_PageSize := tea_Int64 500 |} in
  '(response, err) <-
     request (Client a) (CallDescribeDomainRecords describeDomainRecordsRequest)
       (fun client w => DescribeDomainRecords client w describeDomainRecordsRequest) ;;
  match err with
  | Some e => ret ([], Some e)
  | None =>
      response <- deref response ;;
      body <- deref (describe_Body response) ;;
      domainRecords <- deref (DomainRecords body) ;;
      ret (Record_ domainRecords, err)
  end.

Definition AddDnsRecord (a : Alidns) (domain rrType rr value : string)
  : Go (string * option error) :=
  let addDomainRecordRequest :=
    {| add_DomainName := tea_String domain;
       add_RR := tea_String rr;
       add_Type := tea_String rrType;
       add_Value := tea_String value |} in
  '(response, err) <-
     request (Client a) (CallAddDomainRecord addDomainRecordRequest)
       (fun client w => AddDomainRecord client w addDomainRecordRequest) ;;
  match err with
  | Some e => ret ("", Some e)
  | None =>
      response <- deref response ;;
      body <- deref (add_Body response) ;;
      recordID <- deref (add_RecordId body) ;;
      ret (recordID, None)
  end.

Definition UpdateDnsRecord (a : Alidns) (id rrType subdomain value : string)
  : Go (option error) :=
  let updateDomainRecordRequest :=
    {| update_RecordId := tea_String id;
       update_RR := tea_String subdomain;
       update_Type := tea_String rrType;
       update_Value := tea_String value |} in
  err <- request (Client a) (CallUpdateDomainRecord updateDomainRecordRequest)
           (fun client w => UpdateDomainRecord client w updateDomainRecordRequest) ;;
  match err with
  | Some e => ret (Some e)
  | None => ret None
  end.

(** The closure [deleteDnsRecord] of [DeleteDnsRecord]; it captures
    nothing it assigns. *)
Definition deleteDnsRecord (a : Alidns)
    (deleteDomainRecordRequest : DeleteDomainRecordRequest) (frame : unit)
  : Go (option error * unit) :=
  err <- request (Client a) (CallDeleteDomainRecord deleteDomainRecordRequest)
           (fun client w => DeleteDomainRecord client w deleteDomainRecordRequest) ;;
  match err with
  | Some e =>
      if IsPermanentCommonError (Error e)
      then ret (Some (backoff_Permanent e), frame)
      else ret (Some e, frame)
  | None => ret (None, frame)
  end.

Definition DeleteDnsRecord (fuel : nat) (a : Alidns) (id : string)
  : Go (option error) :=
  let deleteDomainRecordRequest := {| delete_RecordId := tea_String id |} in
  '(err, _) <- RetryOperator nextBackOff fuel
                 (deleteDnsRecord a deleteDomainRecordRequest)
                 MAX_ELAPSED_TIME tt ;;
  match err with
  | Some e =>
      ret (Some (errorString
        ("Alidns delete dns record. Failed to Delete dns record: " ++ Error e)))
  | None => ret None
  end.

(** The condition of the search loop of [CreateAliDNSRecord]; [&&]
    evaluates its right operand only when the left one is true. *)
Definition isVerificationRecord (commonName : string) (dnsRecord : DomainRecord)
  : Go bool :=
  domainName <- deref (DomainName dnsRecord) ;;
  if negb (domainName =? commonName)%string then ret false
  else
    rr <- deref (RR dnsRecord) ;;
    if negb (rr =? "@")%string then ret false
    else
      type <- deref (Type_ dnsRecord) ;;
      ret (type =? "TXT")%string.

(** The search loop: the first record that satisfies the condition. *)
Fixpoint findDnsRecord (commonName : string)
    (dnsRecords : list (option DomainRecord)) : Go (option DomainRecord) :=
  match dnsRecords with
  | [] => ret None
  | p :: rest =>
      dnsRecord <- deref p ;;
      found <- isVerificationRecord commonName dnsRecord ;;
      if found then ret (Some dnsRecord) else findDnsRecord commonName rest
  end.

(** The named results [recordId] and [err] of [CreateAliDNSRecord], which
    the closure [addRecord] assigns at every attempt. *)
Record Results : Type := {
  recordId : string;
  err : option error
}.

(** The closure [addRecord]. *)
Definition addRecord (a : Alidns) (commonName token : string) (frame : Results)
  : Go (option error * Results) :=
  '(recordId', err') <- AddDnsRecord a commonName "TXT" "@" token ;;
  let frame' := {| recordId := recordId'; err := err' |} in
  match err' with
  | Some e =>
      tflog_Debug context_Background ("Alidns Add record Error: " ++ Error e) ;;
      if IsPermanentCommonError (Error e)
      then ret (Some (backoff_Permanent e), frame')
      else ret (Some e, frame')
  | None => ret (None, frame')
  end.

(** The closure [updateRecord]. *)
Definition updateRecord (a : Alidns) (foundDnsRecord : DomainRecord)
    (token : string) (frame : Results) : Go (option error * Results) :=
  id <- deref (RecordId foundDnsRecord) ;;
  rrType <- deref (Type_ foundDnsRecord) ;;
  subdomain <- deref (RR foundDnsRecord) ;;
  err' <- UpdateDnsRecord a id rrType subdomain token ;;
  match err' with
  | Some e =>
      tflog_Debug context_Background ("Alidns update record Error: " ++ Error e) ;;
      if IsPermanentCommonError (Error e)
      then ret (Some (backoff_Permanent e), frame)
      else ret (Some e, frame)
  | None => ret (None, frame)
  end.

Definition CreateAliDNSRecord (fuel : nat) (a : Alidns)
    (commonName token : string) : Go (string * option error) :=
  '(dnsRecords, err0) <- GetAllDnsRecords a commonName ;;
  let frame := {| recordId := ""; err := err0 |} in
  match err0 with
  | Some e => ret ("", Some e)
  | None =>
      if (List.length dnsRecords =? 0)%nat
      then ret ("", Some (errorString "domain name not found in Alidns"))
      else
        foundDnsRecord <- findDnsRecord commonName dnsRecords ;;
        match foundDnsRecord with
        | None =>
            '(err1, frame') <- RetryOperator nextBackOff fuel
                                 (addRecord a commonName token)
                                 MAX_ELAPSED_TIME frame ;;
            match err1 with
            | Some e =>
                ret ("", Some (errorString
                  ("Alidns create dns record. Failed to create verification TXT record: "
                   ++ Error e)))
            | None => ret (recordId frame', None)
            end
        | Some foundDnsRecord =>
            '(err1, _) <- RetryOperator nextBackOff fuel
                            (updateRecord a foundDnsRecord token)
                            MAX_ELAPSED_TIME frame ;;
            match err1 with
            | Some e =>
                ret ("", Some (errorString
                  ("Alidns update dns record. Failed to Update verification TXT record: "
                   ++ Error e)))
            | None =>
                id <- deref (RecordId foundDnsRecord) ;;
                ret (id, None)
            end
        end
  end.

End Dnsrr.

(** ** The provider's paging

    [DescribeDomainRecords] answers one page of the domain's records: page
    [PageNumber] (1 when not given) of [PageSize] records (20 when not given,
    500 at most).  [pagingClient base zones] is [base] with that answer, for
    the records [zones domain] the provider holds. *)
Definition pageOf (zone : list (option DomainRecord))
    (request : DescribeDomainRecordsRequest) : list (option DomainRecord) :=
  let pageSize :=
    Z.max 1 (Z.min 500 (match describe_PageSize request with
                        | Some n => n
                        | None => 20
                        end)) in
  let pageNumber :=
    Z.max 1 (match describe_PageNumber request with
             | Some n => n
             | None => 1
             end) in
  firstn (Z.to_nat pageSize) (skipn (Z.to_nat ((pageNumber - 1) * pageSize)) zone).

Definition pagingClient (base : AlidnsClient)
    (zones : string -> list (option DomainRecord)) : AlidnsClient :=
  {| DescribeDomainRecords := fun _ request =>
       match describe_DomainName request with
       | Some domain =>
           (Some {| describe_Body := Some {| DomainRecords :=
                      Some {| Record_ := pageOf (zones domain) request |} |} |},
            None)
       | None => (None, Some (errorString "MissingDomainName"))
       end;
     AddDomainRecord := AddDomainRecord base;
     UpdateDomainRecord := UpdateDomainRecord base;
     DeleteDomainRecord := DeleteDomainRecord base;
     latency := latency base |}.

(** The records of each domain cut to the first 500. *)
Definition firstPage (zones : string -> list (option DomainRecord))
    (domain : string) : list (option DomainRecord) :=
  firstn 500 (zones domain).

(** An [Alidns] whose client is the paging client. *)
Definition paged (base : AlidnsClient)
    (zones : string -> list (option DomainRecord)) : Alidns :=
  {| Client := Some (pagingClient base zones) |}.

(* ================================================================== *)
(** * client.go *)
(* ================================================================== *)

(** [openapi.Config], by the fields [NewClient] sets. *)
Record Config : Type := {
  AccessKeyId : option string;
  AccessKeySecret : option string;
  Endpoint : option string
}.

Section ClientGo.

(** The SDK's constructor [alidns.NewClient]. *)
Variable alidns_NewClient : Config -> option AlidnsClient * option error.

(** [NewClient], with the list of the configurations handed to the SDK's
    constructor so far threaded through. *)
Definition NewClient (accessKey secretKey : string) (constructed : list Config)
  : (option Alidns * option error) * list Config :=
  if (accessKey =? "")%string
  then (None, Some (errorString "dns.newClient(): missing access_key"), constructed)
  else if (secretKey =? "")%string
  then (None, Some (errorString "dns.newClient(): missing secret_key"), constructed)
  else
    let config := {| AccessKeyId := tea_String accessKey;
                     AccessKeySecret := tea_String secretKey;
                     Endpoint := None |} in
    let config := {| AccessKeyId := AccessKeyId config;
                     AccessKeySecret := AccessKeySecret config;
                     Endpoint := tea_String "alidns.cn-hongkong.aliyuncs.com" |} in
    let '(client, err) := alidns_NewClient config in
    (Some {| Client := client |}, err, (constructed ++ [config])%list).

End ClientGo.

(* ================================================================== *)
(** * Package fmt, for a format without operands *)
(* ================================================================== *)

(** [fmt.Errorf(format)] and [fmt.Sprintf(format)] called with a format
    and no operand run the scanner of [doPrintf] with an empty operand list:
    text is copied, [%%] is a percent sign, and every other directive is
    reported in the output ([%!v(MISSING)], [%!v(BADINDEX)], [%!(BADWIDTH)],
    [%!(BADPREC)], [%!(NOVERB)]). *)
Module fmt.

Definition byte (c : ascii) : N := N_of_ascii c.

Definition between (lo hi : N) (c : ascii) : bool :=
  ((lo <=? byte c) && (byte c <=? hi))%N.

Definition isDigit (c : ascii) : bool := between 48 57 c.

(** The flags [#], [0], [+], [-] and space. *)
Definition isFlag (c : ascii) : bool :=
  ((c =? "#") || (c =? "0") || (c =? "+") || (c =? "-") || (c =? " "))%char.

Fixpoint skipFlags (s : string) : string :=
  match s with
  | String c s' => if isFlag c then skipFlags s' else s
  | EmptyString => s
  end.

Definition tooLarge (x : Z) : bool := (1000000 <? x) || (x <? -1000000).

(** [parsenum]: whether a number was read, and what follows it.  A number
    that grows too large gives up on the rest of the text. *)
Fixpoint parsenumFrom (num : Z) (isnum : bool) (s : string) : bool * string :=
  match s with
  | String c s' =>
      if isDigit c then
        if tooLarge num then (false, "")
        else parsenumFrom (num * 10 + (Z.of_N (byte c) - 48)) true s'
      else (isnum, s)
  | EmptyString => (isnum, s)
  end.

Definition parsenum (s : string) : bool * string := parsenumFrom 0 false s.

(** The text up to the first closing bracket, and the text after it. *)
Fixpoint untilBracket (s : string) : option (string * string) :=
  match s with
  | EmptyString => None
  | String c s' =>
      if (c =? "]")%char then Some ("", s')
      else match untilBracket s' with
           | Some (inner, rest) => Some (String c inner, rest)
           | None => None
           end
  end.

(** [parseArgNumber], on the text after the opening bracket: what follows
    the index, and whether the index is a number. *)
Definition parseArgNumber (after : string) : string * bool :=
  if (String.length after <? 2)%nat then (after, false)
  else match untilBracket after with
       | Some (inner, rest) =>
           let '(isnum, remaining) := parsenum inner in
           (rest, isnum && (remaining =? "")%string)
       | None => (after, false)
       end.

(** [argNumber] with no operand: an index is always out of range, so
    [goodArgNum] falls; the result is the text after the index, whether
    an index was found, and [goodArgNum]. *)
Definition argNumber (s : string) (goodArgNum : bool) : string * bool * bool :=
  match s with
  | String c after =>
      if (c =? "[")%char
      then let '(rest, ok) := parseArgNumber after in (rest, ok, false)
      else (s, false, goodArgNum)
  | EmptyString => (s, false, goodArgNum)
  end.

(** [utf8.DecodeRuneInString] followed by [writeRune]: the bytes written
    for the verb and the text after it.  A byte that does not start a
    well-formed sequence is written as U+FFFD. *)
Definition runeError : string :=
  String (ascii_of_N 239) (String (ascii_of_N 191) (String (ascii_of_N 189) "")).

Definition continuation (c : ascii) : bool := between 128 191 c.

Definition decodeVerb (c : ascii) (rest : string) : string * string :=
  if (byte c <? 128)%N then (String c "", rest)
  else
    let '(size, lo, hi) :=
      if between 194 223 c then (2%nat, 128%N, 191%N)
      else if between 224 224 c then (3%nat, 160%N, 191%N)
      else if between 225 236 c then (3%nat, 128%N, 191%N)
      else if between 237 237 c then (3%nat, 128%N, 159%N)
      else if between 238 239 c then (3%nat, 128%N, 191%N)
      else if between 240 240 c then (4%nat, 144%N, 191%N)
      else if between 241 243 c then (4%nat, 128%N, 191%N)
      else if between 244 244 c then (4%nat, 128%N, 143%N)
      else (0%nat, 0%N, 0%N) in
    if (size =? 0)%nat then (runeError, rest)
    else if (S (String.length rest) <? size)%nat then (runeError, rest)
    else
      match rest with
      | String c1 rest1 =>
          if negb (between lo hi c1) then (runeError, rest)
          else if (size <=? 2)%nat then (String c (String c1 ""), rest1)
          else
            match rest1 with
            | String c2 rest2 =>
                if negb (continuation c2) then (runeError, rest)
                else if (size <=? 3)%nat
                then (String c (String c1 (String c2 "")), rest2)
                else
                  match rest2 with
                  | String c3 rest3 =>
                      if negb (continuation c3) then (runeError, rest)
                      else (String c (String c1 (String c2 (String c3 ""))), rest3)
                  | EmptyString => (runeError, rest)
                  end
            | EmptyString => (runeError, rest)
            end
      | EmptyString => (runeError, rest)
      end.

(** The width of a directive: what is written when it is a star (there is
    no operand to take it from), the text after it, [afterIndex] and
    [goodArgNum]. *)
Definition width (s : string) (afterIndex goodArgNum : bool)
  : string * string * bool * bool :=
  let number :=
    let '(widPresent, s') := parsenum s in
    ("", s', afterIndex, if afterIndex && widPresent then false else goodArgNum) in
  match s with
  | String c s' =>
      if (c =? "*")%char then ("%!(BADWIDTH)", s', false, goodArgNum) else number
  | EmptyString => number
  end.

(** The precision of a directive, likewise; a dot that ends the format is
    not a precision. *)
Definition precision (s : string) (afterIndex goodArgNum : bool)
  : string * string * bool * bool :=
  match s with
  | String c (String _ _ as s') =>
      if (c =? ".")%char then
        let goodArgNum := if afterIndex then false else goodArgNum in
        let '(s', afterIndex, goodArgNum) := argNumber s' goodArgNum in
        let number :=
          let '(_, s'') := parsenum s' in ("", s'', afterIndex, goodArgNum) in
        match s' with
        | String c' s'' =>
            if (c' =? "*")%char then ("%!(BADPREC)", s'', false, goodArgNum)
            else number
        | EmptyString => number
        end
      else ("", s, afterIndex, goodArgNum)
  | _ => ("", s, afterIndex, goodArgNum)
  end.

(** One directive, on the text after its percent sign: what is written,
    and the text the scanner goes on with ([None] when it stops). *)
Definition directive (s : string) : string * option string :=
  let s := skipFlags s in
  let '(s, afterIndex, goodArgNum) := argNumber s true in
  let '(badWidth, s, afterIndex, goodArgNum) := width s afterIndex goodArgNum in
  let '(badPrec, s, afterIndex, goodArgNum) := precision s afterIndex goodArgNum in
  let '(s, afterIndex, goodArgNum) :=
    if afterIndex then (s, afterIndex, goodArgNum) else argNumber s goodArgNum in
  match s with
  | EmptyString => (badWidth ++ badPrec ++ "%!(NOVERB)", None)
  | String c rest =>
      let '(verb, rest) := decodeVerb c rest in
      (badWidth ++ badPrec ++
         (if (verb =? "%")%string then "%"
          else if negb goodArgNum then "%!" ++ verb ++ "(BADINDEX)"
          else "%!" ++ verb ++ "(MISSING)"),
       Some rest)
  end.

(** The scanner; every round takes at least one byte of the format, so
    [fuel] above the length of the format is never used up. *)
Fixpoint doPrintf (fuel : nat) (format : string) : string :=
  match fuel with
  | O => ""
  | S fuel' =>
      match format with
      | EmptyString => ""
      | String c rest =>
          if (c =? "%")%char then
            let '(out, next) := directive rest in
            match next with
            | Some rest' => out ++ doPrintf fuel' rest'
            | None => out
            end
          else String c (doPrintf fuel' rest)
      end
  end.

(** [fmt.Sprintf(format)]. *)
Definition Sprintf (format : string) : string :=
  doPrintf (S (String.length format)) format.

(** [fmt.Errorf(format)]. *)
Definition Errorf (format : string) : error := errorString (Sprintf format).

End fmt.

(* ================================================================== *)
(** * The DigiCert API file *)
(* ================================================================== *)

Definition ORDER_ENDPOINT : string :=
  "https://www.digicert.com/services/v2/order/certificate".
Definition CERT_ENDPOINT : string :=
  "https://www.digicert.com/services/v2/certificate".

Definition http_MethodGet : string := "GET".
Definition http_MethodPost : string := "POST".
Definition http_MethodPut : string := "PUT".

Record ErrorMsg : Type := {
  Code : string;
  Message : string
}.

Record ErrorMsgList : Type := {
  errors : list ErrorMsg
}.

Record Organization : Type := {
  organization_ID : Z
}.

Record CertificateChain : Type := {
  SubjectCommonName : string;
  Pem : string
}.

Record OrderValidityPayload : Type := {
  Days : Z
}.

Record CertificatePayload : Type := {
  payload_ID : Z;
  payload_Organization : Organization;
  payload_CommonName : string;
  DNSNames : list string;
  payload_CSR : string;
  SignatureHash : string;
  CACertID : string;
  payload_CertificateChain : list CertificateChain;
  payload_Error : list ErrorMsg;
  payload_PrivateKey : string
}.

Record OrderPayload : Type := {
  order_Certificate : CertificatePayload;
  order_Organization : Organization;
  OrderValidity : OrderValidityPayload;
  PaymentMethod : string;
  RenewalOfOrderID : Z;
  DcvMethod : string
}.

Record DcvToken : Type := {
  Token : string;
  token_Status : string
}.

Record DomainRespBody : Type := {
  domain_ID : Z;
  domain_Name : string;
  domain_DcvToken : DcvToken
}.

Record IssueCertRespBody : Type := {
  OrderID : Z;
  CertificateID : Z;
  issue_CertificateChain : list CertificateChain;
  Domains : list DomainRespBody;
  issue_SubjectCommonName : string;
  issue_OrderValidTill : string;
  DcvRandomValue : string;
  issue_PrivateKey : string;
  CertificateValidTill : string;
  OrderValidTillDay : Z;
  issue_ErrorMsg : list ErrorMsg
}.

Record Certificate : Type := {
  certificate_ID : Z;
  certificate_Status : string;
  CommonName : string;
  ValidTill : string;
  certificate_CertificateChain : list CertificateChain;
  certificate_Organization : Organization;
  CSR : string;
  PrivateKey : string;
  CertificatePem : string;
  IssuerPem : string;
  RootPem : string
}.

Record OrderRespBody : Type := {
  order_ID : Z;
  order_Cert : Certificate;
  order_Status : string;
  OrderValidTill : string;
  IsRenewed : bool;
  order_ErrorMsg : list ErrorMsg
}.

Record OrderListRespBody : Type := {
  Orders : list OrderRespBody;
  list_ErrorMsg : list ErrorMsg
}.

(** The zero values of the response structs. *)
Definition zeroErrorMsgList : ErrorMsgList := {| errors := [] |}.

Definition zeroIssueCertRespBody : IssueCertRespBody :=
  {| OrderID := 0; CertificateID := 0; issue_CertificateChain := [];
     Domains := []; issue_SubjectCommonName := ""; issue_OrderValidTill := "";
     DcvRandomValue := ""; issue_PrivateKey := ""; CertificateValidTill := "";
     OrderValidTillDay := 0; issue_ErrorMsg := [] |}.

Definition zeroCertificate : Certificate :=
  {| certificate_ID := 0; certificate_Status := ""; CommonName := "";
     ValidTill := ""; certificate_CertificateChain := [];
     certificate_Organization := {| organization_ID := 0 |}; CSR := "";
     PrivateKey := ""; CertificatePem := ""; IssuerPem := ""; RootPem := "" |}.

Definition zeroOrderRespBody : OrderRespBody :=
  {| order_ID := 0; order_Cert := zeroCertificate; order_Status := "";
     OrderValidTill := ""; IsRenewed := false; order_ErrorMsg := [] |}.

Definition zeroOrderListRespBody : OrderListRespBody :=
  {| Orders := []; list_ErrorMsg := [] |}.

(** [json.Unmarshal(data, &v)] for the type of [v]: the value [v] holds
    afterwards, and the error. *)
Class Unmarshaler (T : Type) : Type :=
  json_Unmarshal : string -> T -> T * option error.

(** The request bodies, written in the source as raw string literals. *)
Definition quote : string := String (ascii_of_N 34) "".
Definition newline : string := String (ascii_of_N 10) "".
Definition tab : string := String (ascii_of_N 9) "".

Definition skipApproval (closing : string) : string :=
  "{" ++ newline ++ tab ++ tab ++ quote ++ "skip_approval" ++ quote ++ ": true"
      ++ newline ++ closing ++ "}".

Definition canceledStatus : string :=
  "{" ++ newline
      ++ tab ++ tab ++ quote ++ "status" ++ quote ++ ": "
      ++ quote ++ "canceled" ++ quote ++ "," ++ newline
      ++ tab ++ tab ++ quote ++ "note" ++ quote ++ ": "
      ++ quote ++ "Fail validate domain." ++ quote ++ newline
      ++ tab ++ "}".

(** [true] or [false], as [log.Println] prints a [bool]. *)
Definition showBool (b : bool) : string := if b then "true" else "false".

Section DigiCertAPI.

(** [(c *Client).httpResponse(method, url, payload)], which is defined in
    another file of the package: the body of the response and the error.
    A [nil] payload is the empty payload. *)
Variable httpResponse : string -> string -> string -> string * option error.

(** [json.Marshal] of an [OrderPayload]. *)
Variable json_Marshal : OrderPayload -> string * option error.

Context {unmarshalIssueCert : Unmarshaler IssueCertRespBody}
        {unmarshalErrorMsgList : Unmarshaler ErrorMsgList}
        {unmarshalOrderList : Unmarshaler OrderListRespBody}
        {unmarshalOrder : Unmarshaler OrderRespBody}.

(** [errMsgList[0]], which the code reads only from a list that is not
    empty. *)
Definition first (errMsgList : list ErrorMsg) : ErrorMsg :=
  hd {| Code := ""; Message := "" |} errMsgList.

Definition IssueCert (orderPayLoad : OrderPayload)
  : IssueCertRespBody * option error :=
  let issueCert := zeroIssueCertRespBody in
  let url := ORDER_ENDPOINT ++ "/" ++ CACertID (order_Certificate orderPayLoad) in
  let '(jsonPayload, err) := json_Marshal orderPayLoad in
  match err with
  | Some e => (issueCert, Some e)
  | None =>
      let '(resp, err) := httpResponse http_MethodPost url jsonPayload in
      match err with
      | Some e => (issueCert, Some e)
      | None =>
          let '(issueCert, err) := json_Unmarshal resp issueCert in
          match err with
          | Some e => (issueCert, Some e)
          | None =>
              if negb (List.length (issue_ErrorMsg issueCert) =? 0)%nat
              then (issueCert,
                    Some (errorString
                      ("error issue certificate, error: "
                       ++ (Code (first (issue_ErrorMsg issueCert)) ++ ". "
                           ++ Message (first (issue_ErrorMsg issueCert))))))
              else (issueCert, None)
          end
      end
  end.

Definition ReissueCert (orderPayload : OrderPayload) (orderID : Z)
  : IssueCertRespBody * option error :=
  let issueCert := zeroIssueCertRespBody in
  let url := ORDER_ENDPOINT ++ "/" ++ itoa orderID ++ "/reissue" in
  let '(jsonPayload, err) := json_Marshal orderPayload in
  match err with
  | Some e => (issueCert, Some e)
  | None =>
      let '(resp, err) := httpResponse http_MethodPost url jsonPayload in
      match err with
      | Some e => (issueCert, Some e)
      | None =>
          let '(issueCert, err) := json_Unmarshal resp issueCert in
          match err with
          | Some e => (issueCert, Some e)
          | None =>
              if negb (List.length (issue_ErrorMsg issueCert) =? 0)%nat
              then (issueCert,
                    Some (errorString
                      ("error reissue certificate, error: "
                       ++ (Code (first (issue_ErrorMsg issueCert)) ++ ". "
                           ++ Message (first (issue_ErrorMsg issueCert))))))
              else (issueCert, None)
          end
      end
  end.

Definition RevokeCert (certId : Z) : option error :=
  let url := CERT_ENDPOINT ++ "/" ++ itoa certId ++ "/revoke" in
  let payloadJson := skipApproval tab in
  let '(resp, err) := httpResponse http_MethodPut url payloadJson in
  match err with
  | Some e => Some e
  | None =>
      (* resp length == 0, mean revoke certificate successfully *)
      if negb (String.length resp =? 0)%nat then
        let '(errMsgList, err) := json_Unmarshal resp zeroErrorMsgList in
        match err with
        | Some e => Some e
        | None =>
            if negb (List.length (errors errMsgList) =? 0)%nat
            then Some (fmt.Errorf (Message (first (errors errMsgList))))
            else None
        end
      else None
  end.

Definition RevokeAllCert (orderId : Z) : option error :=
  let url := ORDER_ENDPOINT ++ "/" ++ itoa orderId ++ "/revoke" in
  let jsonPayload := skipApproval (tab ++ tab) in
  let '(resp, err) := httpResponse http_MethodPut url jsonPayload in
  match err with
  | Some e => Some e
  | None =>
      (* resp length == 0, mean revoke certificate successfully *)
      if negb (String.length resp =? 0)%nat then
        let '(errMsgList, err) := json_Unmarshal resp zeroErrorMsgList in
        match err with
        | Some e => Some e
        | None =>
            if negb (List.length (errors errMsgList) =? 0)%nat
            then Some (fmt.Errorf (Message (first (errors errMsgList))))
            else None
        end
      else None
  end.

Definition GetOrders (commonName : string) : OrderListRespBody * option error :=
  let orders := zeroOrderListRespBody in
  let url := ORDER_ENDPOINT
             ++ "?filters[status]=issued&sort=-date_created&filters[common_name]="
             ++ commonName in
  let '(resp, err) := httpResponse http_MethodGet url "" in
  match err with
  | Some e => (orders, Some e)
  | None =>
      let '(orderList, err) := json_Unmarshal resp zeroOrderListRespBody in
      match err with
      | Some e => (orders, Some e)
      | None =>
          (* Check if any error msg return from API *)
          match list_ErrorMsg orderList with
          | errormsg :: _ => (orders, Some (errors_New (Message errormsg)))
          | [] => (orderList, None)
          end
      end
  end.

(** [GetOrdersList]; the third component is what it prints with
    [log.Println]. *)
Definition GetOrdersList : OrderListRespBody * option error * list string :=
  let orders := zeroOrderListRespBody in
  let url := ORDER_ENDPOINT ++ "?filters[status]=issued" in
  let '(resp, err) := httpResponse http_MethodGet url "" in
  match err with
  | Some e => (orders, Some e, [])
  | None =>
      let '(orders, err) := json_Unmarshal resp orders in
      match err with
      | Some e => (orders, Some e, [])
      | None =>
          (orders, None,
           map (fun errormsg =>
                  showBool (Contains (Code errormsg) "Missing authentication"))
               (list_ErrorMsg orders))
      end
  end.

Definition GetOrderInfo (orderId : Z) : OrderRespBody * option error :=
  let order := zeroOrderRespBody in
  let url := ORDER_ENDPOINT ++ "/" ++ itoa orderId in
  let '(resp, err) := httpResponse http_MethodGet url "" in
  match err with
  | Some e => (order, Some e)
  | None =>
      let '(order, err') := json_Unmarshal resp order in
      match err' with
      | Some e => (order, Some e)
      | None => (order, err)
      end
  end.

Definition CancelOrderRequest (orderId : Z) : option error :=
  let url := ORDER_ENDPOINT ++ "/" ++ itoa orderId ++ "/status" in
  let payloadJson := canceledStatus in
  let '(ordStatusResp, err) := httpResponse http_MethodPut url payloadJson in
  match err with
  | Some e => Some e
  | None =>
      (* Success will not return any response *)
      if negb (String.length ordStatusResp =? 0)%nat
      then err
      else None
  end.

End DigiCertAPI.

(** ** The look-ups of the DigiCert API file *)

Definition PRODUCT_ENDPOINT : string :=
  "https://www.digicert.com/services/v2/product".
Definition INTERMEDIATE_ENDPOINT : string :=
  "https://www.digicert.com/services/v2/certificate/intermediates".
Definition DOMAIN_ENDPOINT : string :=
  "https://www.digicert.com/services/v2/domain".

Record Product : Type := {
  NameID : string;
  product_Name : string
}.

Record ProductListRespBody : Type := {
  Products : list Product
}.

Record Intermediates : Type := {
  intermediate_SubjectCommonName : string;
  IssuerCommonName : string
}.

Record IntermediateListRespBody : Type := {
  intermediates : list Intermediates
}.

Record Domain : Type := {
  ID : Z;
  Name : string;
  IsPendingValidation : bool;
  dcvToken : DcvToken
}.

Record DomainListRespBody : Type := {
  domains : list Domain;
  domains_ErrorMsg : list ErrorMsg
}.

Record CertificateChainList : Type := {
  certificateChain : list CertificateChain
}.

Definition zeroProductListRespBody : ProductListRespBody := {| Products := [] |}.

Definition zeroIntermediateListRespBody : IntermediateListRespBody :=
  {| intermediates := [] |}.

Definition zeroDomain : Domain :=
  {| ID := 0; Name := ""; IsPendingValidation := false;
     dcvToken := {| Token := ""; token_Status := "" |} |}.

Definition zeroDomainListRespBody : DomainListRespBody :=
  {| domains := []; domains_ErrorMsg := [] |}.

Definition zeroCertificateChainList : CertificateChainList :=
  {| certificateChain := [] |}.

Section DigiCertLookups.

Variable httpResponse : string -> string -> string -> string * option error.

(** [fmt.Errorf(format, a...)] with string operands [a]. *)
Variable fmt_Errorf : string -> list string -> error.

Context {unmarshalProductList : Unmarshaler ProductListRespBody}
        {unmarshalIntermediateList : Unmarshaler IntermediateListRespBody}
        {unmarshalDomainList : Unmarshaler DomainListRespBody}
        {unmarshalDomain : Unmarshaler Domain}
        {unmarshalErrorMsgList : Unmarshaler ErrorMsgList}
        {unmarshalCertificateChainList : Unmarshaler CertificateChainList}.

Definition GetProductList : ProductListRespBody * option error :=
  let productList := zeroProductListRespBody in
  let '(resp, err) := httpResponse http_MethodGet PRODUCT_ENDPOINT "" in
  match err with
  | Some e => (productList, Some e)
  | None =>
      let '(productList, err) := json_Unmarshal resp productList in
      match err with
      | Some e => (productList, Some e)
      | None => (productList, None)
      end
  end.

Definition GetIntermediateList : IntermediateListRespBody * option error :=
  let intermediateList := zeroIntermediateListRespBody in
  let '(resp, err) := httpResponse http_MethodGet INTERMEDIATE_ENDPOINT "" in
  match err with
  | Some e => (intermediateList, Some e)
  | None =>
      let '(intermediateList, err) := json_Unmarshal resp intermediateList in
      match err with
      | Some e => (intermediateList, Some e)
      | None => (intermediateList, None)
      end
  end.

Definition GetDomainsList : list Domain * option error :=
  let domains_ : list Domain := [] in
  let '(resp, err) := httpResponse http_MethodGet DOMAIN_ENDPOINT "" in
  match err with
  | Some e => (domains_, Some e)
  | None =>
      let '(domainList, err) := json_Unmarshal resp zeroDomainListRespBody in
      match err with
      | Some e => (domains_, Some e)
      | None =>
          if (List.length (domains domainList) =? 0)%nat
          then (domains_, Some (errorString "digicert's domain list is empty"))
          else (domains domainList, None)
      end
  end.

Definition GetDomainInfo (domainID : Z) : Domain * option error :=
  let domain := zeroDomain in
  let url := DOMAIN_ENDPOINT ++ "/" ++ itoa domainID
             ++ "?include_dcv=true&include_validation=true" in
  let '(resp, err) := httpResponse http_MethodGet url "" in
  match err with
  | Some e => (domain, Some e)
  | None =>
      let '(domain, err) := json_Unmarshal resp domain in
      match err with
      | Some e => (domain, Some e)
      | None => (domain, None)
      end
  end.

Definition CheckDomainDCV (domainID : Z) : option error :=
  let url := DOMAIN_ENDPOINT ++ "/" ++ itoa domainID ++ "/dcv/validate-token" in
  let '(activateDomainresp, err) := httpResponse http_MethodPut url "" in
  match err with
  | Some e => Some e
  | None =>
      let '(errMsgList, err) := json_Unmarshal activateDomainresp zeroErrorMsgList in
      match err with
      | Some e => Some e
      | None =>
          if negb (List.length (errors errMsgList) =? 0)%nat
          then
            (* DNS LOOKUP *)
            Some (fmt_Errorf (Code (first (errors errMsgList)))
                    [". "; Message (first (errors errMsgList))])
          else None
      end
  end.

Definition GetCertificateChain (certID : Z) : list CertificateChain * option error :=
  let certificateChains : list CertificateChain := [] in
  let url := CERT_ENDPOINT ++ "/" ++ itoa certID ++ "/chain" in
  let '(resp, err) := httpResponse http_MethodGet url "" in
  match err with
  | Some e => (certificateChains, Some e)
  | None =>
      let '(certificateChainList, err) :=
        json_Unmarshal resp zeroCertificateChainList in
      match err with
      | Some e => (certificateChains, Some e)
      | None => (certificateChain certificateChainList, None)
      end
  end.

End DigiCertLookups.


(* ================================================================== *)
(** * Scenarios *)
(* ================================================================== *)

Definition Millisecond : Duration := 1000000.

(** A schedule that doubles from half a second up to one minute. *)
Definition doubling (n : nat) : Duration :=
  Z.min (60000 * Millisecond) (500 * Millisecond * 2 ^ Z.of_nat n).

(** A client that lists [records], and refuses every other request with
    [message] as long as fewer than [failUntil] requests were sent before;
    after that it accepts, and a record it adds gets the id [newId].  Each
    request takes 50 ms. *)
Definition scriptedClient (records : list (option DomainRecord))
    (failUntil : nat) (message newId : string) : AlidnsClient :=
  let refused (w : World) := (List.length (calls w) <? failUntil)%nat in
  {| DescribeDomainRecords := fun _ _ =>
       (Some {| describe_Body :=
                  Some {| DomainRecords := Some {| Record_ := records |} |} |},
        None);
     AddDomainRecord := fun w _ =>
       if refused w then (None, Some (errorString message))
       else (Some {| add_Body := Some {| add_RecordId := Some newId |} |}, None);
     UpdateDomainRecord := fun w _ =>
       if refused w then Some (errorString message) else None;
     DeleteDomainRecord := fun w _ =>
       if refused w then Some (errorString message) else None;
     latency := fun _ _ => 50000000%N |}.

Definition scripted (records : list (option DomainRecord))
    (failUntil : nat) (message newId : string) : Alidns :=
  {| Client := Some (scriptedClient records failUntil message newId) |}.

(** The world at the start of a run. *)
Definition boot : World := {| now := 0; calls := []; debugLog := [] |}.

Definition txtRecord (domain id value : string) : DomainRecord :=
  {| DomainName := Some domain; RR := Some "@"; RecordId := Some id;
     Type_ := Some "TXT"; Value := Some value |}.

(** The requests of [CreateAliDNSRecord] and [GetAllDnsRecords]. *)
Definition describeRequest (domain : string) : DescribeDomainRecordsRequest :=
  {| describe_DomainName := Some domain;
     describe_PageNumber := None;
     describe_PageSize := Some 500 |}.

Definition addRequest (commonName token : string) : AddDomainRecordRequest :=
  {| add_DomainName := Some commonName; add_RR := Some "@";
     add_Type := Some "TXT"; add_Value := Some token |}.

Definition updateRequest (id token : string) : UpdateDomainRecordRequest :=
  {| update_RecordId := Some id; update_RR := Some "@";
     update_Type := Some "TXT"; update_Value := Some token |}.

(** A successful answer of [DescribeDomainRecords] and of
    [AddDomainRecord]. *)
Definition described (records : list (option DomainRecord))
  : option DescribeDomainRecordsResponse * option error :=
  (Some {| describe_Body :=
             Some {| DomainRecords := Some {| Record_ := records |} |} |},
   None).

Definition added (id : string) : option AddDomainRecordResponse * option error :=
  (Some {| add_Body := Some {| add_RecordId := Some id |} |}, None).

(** Every pointer of the record is set, as in a record the provider
    lists. *)
Definition populated (p : option DomainRecord) : Prop :=
  match p with
  | Some r =>
      DomainName r <> None /\ RR r <> None /\ Type_ r <> None /\ RecordId r <> None
  | None => False
  end.

Definition holds (field : option string) (value : string) : bool :=
  match field with
  | Some s => (s =? value)%string
  | None => false
  end.

(** The record is the root TXT record of [commonName]. *)
Definition verification (commonName : string) (p : option DomainRecord) : bool :=
  match p with
  | Some r =>
      holds (DomainName r) commonName && holds (RR r) "@" && holds (Type_ r) "TXT"
  | None => false
  end.


Definition wwwRecord (domain id : string) : DomainRecord :=
  {| DomainName := Some domain; RR := Some "www"; RecordId := Some id;
     Type_ := Some "A"; Value := Some "192.0.2.1" |}.

(** A zone whose first 500 records are address records and whose 501st is
    the root TXT record of example.com. *)
Definition crowdedZone : list (option DomainRecord) :=
  (repeat (Some (wwwRecord "example.com" "1")) 500
   ++ [Some (txtRecord "example.com" "77" "old-token")])%list.

(** A decoder that answers [v] whatever the text, and a server that answers
    [body] to every request. *)
Definition decodesTo {T} (v : T) : Unmarshaler T := fun _ _ => (v, None).

Definition answering (body : string) : string -> string -> string -> string * option error :=
  fun _ _ _ => (body, None).

(** The body [{"errors":[{"code":code,"message":message}]}]. *)
Definition errorsBody (code message : string) : string :=
  "{" ++ quote ++ "errors" ++ quote ++ ":[{"
      ++ quote ++ "code" ++ quote ++ ":" ++ quote ++ code ++ quote ++ ","
      ++ quote ++ "message" ++ quote ++ ":" ++ quote ++ message ++ quote
      ++ "}]}".

(** The text has no percent sign. *)
Fixpoint noPercent (s : string) : bool :=
  match s with
  | EmptyString => true
  | String c s' => negb (c =? "%")%char && noPercent s'
  end.

(** A classifier over a two-word vocabulary. *)
Definition twoWords (errorMessage : string) : bool :=
  isPermanent (classify ["InvalidParameter"; "missing authentication"] errorMessage).

(** The request that deletes record 77, and the closure of
    [DeleteDnsRecord] for it against a client that refuses the first
    [failUntil] requests with [message]. *)
Definition delete77 : DeleteDomainRecordRequest := {| delete_RecordId := Some "77" |}.

Definition deleting (failUntil : nat) (message : string)
  : unit -> Go (option error * unit) :=
  deleteDnsRecord twoWords (scripted [] failUntil message "") delete77.

(** The world after the client of [deleting] served the deletion. *)
Definition deleted (failUntil : nat) (message : string) (w : World) : World :=
  served (scriptedClient [] failUntil message "") (CallDeleteDomainRecord delete77) w.

(** The records of example.com: an address record and the root TXT
    record 77. *)
Definition exampleZone : list (option DomainRecord) :=
  [Some (wwwRecord "example.com" "12");
   Some (txtRecord "example.com" "77" "old-token")].

(** An order list and an errors list as the API sends them with an
    error. *)
Definition accessDenied : ErrorMsg :=
  {| Code := "access_denied"; Message := "You do not have permission" |}.

Definition quotaUsed : ErrorMsg :=
  {| Code := "quota"; Message := "quota 100%used" |}.

(** ** What the search loop reads

    The pointers the condition of the search loop dereferences in a record
    of the list: the record itself and its [DomainName]; its [RR] when the
    domain name is [commonName]; its [Type] when the host record is the
    root as well. *)
Definition readable (commonName : string) (p : option DomainRecord) : Prop :=
  match p with
  | Some r =>
      match DomainName r with
      | Some domainName =>
          if (domainName =? commonName)%string then
            match RR r with
            | Some rr => if (rr =? "@")%string then Type_ r <> None else True
            | None => False
            end
          else True
      | None => False
      end
  | None => False
  end.

(** ** A provider that keeps its records

    The records the provider holds after a request: an addition appends a
    record with a new id, an update rewrites the host record, type and
    value of the records with the given id, a deletion drops them, a
    listing changes nothing. *)
Definition sameId (x y : option string) : bool :=
  match x, y with
  | Some a, Some b => (a =? b)%string
  | _, _ => false
  end.

Section Keeper.

(** The id the provider gives to a record added to [zone]. *)
Variable newId : list DomainRecord -> string.

Definition rewritten (request : UpdateDomainRecordRequest) (r : DomainRecord)
  : DomainRecord :=
  if sameId (RecordId r) (update_RecordId request)
  then {| DomainName := DomainName r;
          RR := update_RR request;
          RecordId := RecordId r;
          Type_ := update_Type request;
          Value := update_Value request |}
  else r.

Definition kept (zone : list DomainRecord) (call : Call) : list DomainRecord :=
  match call with
  | CallDescribeDomainRecords _ => zone
  | CallAddDomainRecord request =>
      (zone ++ [{| DomainName := add_DomainName request;
                   RR := add_RR request;
                   RecordId := Some (newId zone);
                   Type_ := add_Type request;
                   Value := add_Value request |}])%list
  | CallUpdateDomainRecord request => map (rewritten request) zone
  | CallDeleteDomainRecord request =>
      filter (fun r => negb (sameId (RecordId r) (delete_RecordId request))) zone
  end.

(** The records held after the requests [sent], starting from [zone]. *)
Definition zoneAfter (zone : list DomainRecord) (sent : list Call)
  : list DomainRecord :=
  fold_left kept sent zone.

(** The records held in the world [w], by a provider that began with
    [zone]. *)
Definition held (zone : list DomainRecord) (w : World) : list DomainRecord :=
  zoneAfter zone (calls w).

(** The records of [domain]. *)
Definition recordsOf (domain : string) (zone : list DomainRecord)
  : list DomainRecord :=
  filter (fun r => holds (DomainName r) domain) zone.

(** The client of that provider: it accepts every request, lists the
    records of the domain page by page, and takes [delay] for a request. *)
Definition keeper (zone : list DomainRecord) (delay : N) : AlidnsClient :=
  {| DescribeDomainRecords := fun w request =>
       match describe_DomainName request with
       | Some domain =>
           described
             (pageOf (map Some (recordsOf domain (zoneAfter zone (calls w)))) request)
       | None => (None, Some (errorString "MissingDomainName"))
       end;
     AddDomainRecord := fun w _ => added (newId (zoneAfter zone (calls w)));
     UpdateDomainRecord := fun _ _ => None;
     DeleteDomainRecord := fun _ _ => None;
     latency := fun _ _ => delay |}.

Definition keeping (zone : list DomainRecord) (delay : N) : Alidns :=
  {| Client := Some (keeper zone delay) |}.

End Keeper.

(** The record is a root TXT record of [commonName]. *)
Definition isRootTXT (commonName : string) (r : DomainRecord) : bool :=
  verification commonName (Some r).

(** What [CreateAliDNSRecord] reads of a record listed for [commonName]:
    what the search loop reads of it, and its id when it is a root TXT
    record. *)
Definition usable (commonName : string) (r : DomainRecord) : Prop :=
  readable commonName (Some r)
  /\ (isRootTXT commonName r = true -> RecordId r <> None).

(** A client that refuses every request with [message]. *)
Definition refusing (message : string) : AlidnsClient :=
  {| DescribeDomainRecords := fun _ _ => (None, Some (errorString message));
     AddDomainRecord := fun _ _ => (None, Some (errorString message));
     UpdateDomainRecord := fun _ _ => Some (errorString message);
     DeleteDomainRecord := fun _ _ => Some (errorString message);
     latency := fun _ _ => 50000000%N |}.

(** The records of example.com, and a provider that keeps them and names
    every new record 9001. *)
Definition exampleRecords : list DomainRecord :=
  [wwwRecord "example.com" "12"; txtRecord "example.com" "77" "old-token"].

Definition ninetyOhOne (zone : list DomainRecord) : string := "9001".

Definition exampleKeeper : AlidnsClient :=
  keeper ninetyOhOne exampleRecords 50000000.

Definition exampleKeeping : Alidns :=
  keeping ninetyOhOne exampleRecords 50000000.

(** The world after the listing of example.com. *)
Definition listedBy (client : AlidnsClient) (w : World) : World :=
  served client (CallDescribeDomainRecords (describeRequest "example.com")) w.

(** A decoder that rejects every text, as [encoding/json] rejects the
    empty one. *)
Definition rejecting {T} : Unmarshaler T :=
  fun _ v => (v, Some (errorString "unexpected end of JSON input")).

(** A list with a [nil] entry before the root TXT record. *)
Definition holedZone : list (option DomainRecord) :=
  [Some (wwwRecord "example.com" "12"); None;
   Some (txtRecord "example.com" "77" "old-token")].

(** A domain whose first 500 records are address records and whose 501st
    is the root TXT record, kept by a provider. *)
Definition crowdedRecords : list DomainRecord :=
  (repeat (wwwRecord "example.com" "1") 500
   ++ [txtRecord "example.com" "77" "old-token"])%list.

(* ################################################################## *)
(** * Properties *)
(* ################################################################## *)

(* ------------------------------------------------------------------ *)
(** ** Properties of the string functions *)

Lemma HasPrefix_iff (s prefix : string) :
  HasPrefix s prefix = true <-> exists rest, s = prefix ++ rest.
Proof.
  revert s; induction prefix as [|c p IH]; intros s; cbn [HasPrefix append].
  - destruct s; split; eauto.
  - destruct s as [|d s']; cbn [HasPrefix].
    + split; [discriminate | intros [r H]; discriminate].
    + rewrite andb_true_iff, Ascii.eqb_eq, IH. split.
      * intros [-> [r ->]]. now exists r.
      * intros [r H]. injection H as -> ->. eauto.
Qed.

Lemma Contains_iff (s substr : string) :
  Contains s substr = true <-> Occurs substr s.
Proof.
  unfold Occurs. induction s as [|d s' IH]; cbn [Contains].
  - rewrite orb_false_r, HasPrefix_iff. split.
    + intros [r H]. exists "", r. exact H.
    + intros [b [a H]]. destruct b; [now exists a|discriminate].
  - rewrite orb_true_iff, IH, HasPrefix_iff. split.
    + intros [[r H] | [b [a H]]].
      * exists "", r. exact H.
      * exists (String d b), a. simpl. now rewrite H.
    + intros [b [a H]]. destruct b as [|c b].
      * left. now exists a.
      * right. simpl in H. injection H as _ H. eauto.
Qed.

Lemma classify_Permanent_iff (vocabulary : list string) (s : string) :
  classify vocabulary s = Permanent <->
  exists entry, In entry vocabulary /\ Occurs entry s.
Proof.
  unfold classify. destruct (existsb (Contains s) vocabulary) eqn:E.
  - apply existsb_exists in E as [v [Hin Hc]]. apply Contains_iff in Hc.
    split; eauto.
  - split; [discriminate|]. intros [v [Hin Hc]].
    apply Contains_iff in Hc.
    assert (existsb (Contains s) vocabulary = true)
      by (apply existsb_exists; eauto).
    congruence.
Qed.

Lemma classify_total (vocabulary : list string) (s : string) :
  classify vocabulary s = Permanent \/ classify vocabulary s = Transient.
Proof. destruct (classify vocabulary s); auto. Qed.

Lemma classify_Transient_iff (vocabulary : list string) (s : string) :
  classify vocabulary s = Transient <->
  ~ exists entry, In entry vocabulary /\ Occurs entry s.
Proof.
  rewrite <- classify_Permanent_iff.
  destruct (classify vocabulary s); split; congruence.
Qed.

(** The match is case-sensitive. *)
Example classify_case_sensitive :
  classify ["missing authentication"] "Missing authentication credentials"
  = Transient.
Proof. reflexivity. Qed.

(* ================================================================== *)
(** ** The retry operator *)

Section RetryFacts.

Variable nextBackOff : nat -> Duration.
Context {Frame : Type}.

Implicit Types (operation : Frame -> Go (option error * Frame))
               (maxElapsed : Duration) (frame : Frame) (w : World).

(** One round of the loop. *)
Lemma retry_step fuel operation maxElapsed start attempt frame w :
  retry nextBackOff (S fuel) operation maxElapsed start attempt frame w =
  match operation frame w with
  | Returned (None, frame') w' => Returned (None, frame') w'
  | Returned (Some e, frame') w' =>
      if isPermanentError e then Returned (Some e, frame') w'
      else if maxElapsed <? now w' - start
           then Returned (Some (TimedOutError e), frame') w'
           else retry nextBackOff fuel operation maxElapsed start (S attempt)
                      frame' (slept (nextBackOff attempt) w')
  | Panicked reason => Panicked reason
  | OutOfFuel => OutOfFuel
  end.
Proof.
  cbn [retry]. unfold bind.
  destruct (operation frame w) as [[[e|] frame'] w'| |]; try reflexivity.
  destruct (isPermanentError e); [reflexivity|].
  unfold time_Now. destruct (maxElapsed <? now w' - start); reflexivity.
Qed.

Lemma RetryOperator_retry fuel operation maxElapsed frame w :
  RetryOperator nextBackOff fuel operation maxElapsed frame w =
  retry nextBackOff fuel operation maxElapsed (now w) 0 frame w.
Proof. reflexivity. Qed.

(** Reaching attempt [n] uses up [n] rounds. *)
Lemma retry_beforeAttempt n : forall k operation maxElapsed start frame w frame_n w_n,
  beforeAttempt nextBackOff operation maxElapsed start n frame w
    = Some (frame_n, w_n) ->
  retry nextBackOff (n + k) operation maxElapsed start 0 frame w =
  retry nextBackOff k operation maxElapsed start n frame_n w_n.
Proof.
  induction n as [|n IH]; intros k operation maxElapsed start frame w frame_n w_n H.
  - cbn in H. now injection H as -> ->.
  - cbn [beforeAttempt] in H.
    destruct (beforeAttempt nextBackOff operation maxElapsed start n frame w)
      as [[frame' w']|] eqn:Hn; [|discriminate].
    replace (S n + k)%nat with (n + S k)%nat by lia.
    rewrite (IH (S k) _ _ _ _ _ _ _ Hn), retry_step.
    destruct (operation frame' w') as [[[e|] frame''] w''| |]; try discriminate.
    destruct (isPermanentError e); [discriminate|].
    destruct (maxElapsed <? now w'' - start); [discriminate|].
    cbn in H. now injection H as -> ->.
Qed.

(** With back-off intervals of at least one tick and an operation that
    does not turn the clock back, the loop ends within the time budget:
    [maxElapsed + 2] rounds are enough. *)
Lemma retry_enough_fuel operation maxElapsed start :
  (forall n, 1 <= nextBackOff n) ->
  (forall frame w a w', operation frame w = Returned a w' -> now w <= now w') ->
  (forall frame w, operation frame w <> OutOfFuel) ->
  forall fuel attempt frame w,
    (1 <= fuel)%nat ->
    maxElapsed + 2 <= Z.of_nat fuel + (now w - start) ->
    retry nextBackOff fuel operation maxElapsed start attempt frame w <> OutOfFuel.
Proof.
  intros Hback Hclock Hop.
  induction fuel as [|fuel IH]; intros attempt frame w Hpos Hfuel; [lia|].
  rewrite retry_step.
  destruct (operation frame w) as [[[e|] frame'] w'| |] eqn:Hrun;
    try discriminate.
  - destruct (isPermanentError e); [discriminate|].
    destruct (maxElapsed <? now w' - start) eqn:Hover; [discriminate|].
    apply Z.ltb_ge in Hover. apply Hclock in Hrun.
    specialize (Hback attempt).
    apply IH; unfold slept; cbn [now]; lia.
  - now apply Hop in Hrun.
Qed.

Lemma RetryOperator_enough_fuel fuel operation maxElapsed frame w :
  (forall n, 1 <= nextBackOff n) ->
  (forall frame w a w', operation frame w = Returned a w' -> now w <= now w') ->
  (forall frame w, operation frame w <> OutOfFuel) ->
  (Z.to_nat maxElapsed + 2 <= fuel)%nat ->
  RetryOperator nextBackOff fuel operation maxElapsed frame w <> OutOfFuel.
Proof.
  intros Hback Hclock Hop Hfuel. rewrite RetryOperator_retry.
  apply retry_enough_fuel; auto; lia.
Qed.

(** What a call that returns an error went through: some attempt was
    reached, failed, and ended the sequence. *)
Lemma retry_error_inv fuel :
  forall operation maxElapsed start attempt frame0 w0 frame w err frame' w',
  beforeAttempt nextBackOff operation maxElapsed start attempt frame0 w0
    = Some (frame, w) ->
  retry nextBackOff fuel operation maxElapsed start attempt frame w
    = Returned (Some err, frame') w' ->
  exists n frame_n w_n e,
    beforeAttempt nextBackOff operation maxElapsed start n frame0 w0
      = Some (frame_n, w_n) /\
    operation frame_n w_n = Returned (Some e, frame') w' /\
    ((isPermanentError e = true /\ err = e) \/
     (isPermanentError e = false /\ maxElapsed < now w' - start /\
      err = TimedOutError e)).
Proof.
  induction fuel as [|fuel IH];
    intros operation maxElapsed start attempt frame0 w0 frame w err frame' w'
           Hreach H; [discriminate|].
  rewrite retry_step in H.
  destruct (operation frame w) as [[[e|] frame1] w1| |] eqn:Hrun;
    try discriminate.
  destruct (isPermanentError e) eqn:Hperm.
  - injection H as <- <- <-. exists attempt, frame, w, e. auto.
  - destruct (maxElapsed <? now w1 - start) eqn:Hover.
    + injection H as <- <- <-. apply Z.ltb_lt in Hover.
      exists attempt, frame, w, e.
      split; [assumption|]. split; [assumption|]. right. auto.
    + apply (IH operation maxElapsed start (S attempt) frame0 w0 frame1
                 (slept (nextBackOff attempt) w1)); [|exact H].
      cbn [beforeAttempt]. now rewrite Hreach, Hrun, Hperm, Hover.
Qed.

(** What a call that returns success went through: some attempt was
    reached and succeeded. *)
Lemma retry_success_inv fuel :
  forall operation maxElapsed start attempt frame0 w0 frame w frame' w',
  beforeAttempt nextBackOff operation maxElapsed start attempt frame0 w0
    = Some (frame, w) ->
  retry nextBackOff fuel operation maxElapsed start attempt frame w
    = Returned (None, frame') w' ->
  exists n frame_n w_n,
    beforeAttempt nextBackOff operation maxElapsed start n frame0 w0
      = Some (frame_n, w_n) /\
    operation frame_n w_n = Returned (None, frame') w'.
Proof.
  induction fuel as [|fuel IH];
    intros operation maxElapsed start attempt frame0 w0 frame w frame' w'
           Hreach H; [discriminate|].
  rewrite retry_step in H.
  destruct (operation frame w) as [[[e|] frame1] w1| |] eqn:Hrun;
    try discriminate.
  - destruct (isPermanentError e) eqn:Hperm; [discriminate|].
    destruct (maxElapsed <? now w1 - start) eqn:Hover; [discriminate|].
    apply (IH operation maxElapsed start (S attempt) frame0 w0 frame1
              (slept (nextBackOff attempt) w1)); [|exact H].
    cbn [beforeAttempt]. now rewrite Hreach, Hrun, Hperm, Hover.
  - injection H as <- <-. exists attempt, frame, w. auto.
Qed.

(** A call that returns ran its operation at least once. *)
Lemma retry_first_attempt fuel operation maxElapsed start attempt frame w r w' :
  retry nextBackOff fuel operation maxElapsed start attempt frame w
    = Returned r w' ->
  exists r1 w1, operation frame w = Returned r1 w1.
Proof.
  destruct fuel as [|fuel]; [discriminate|]. rewrite retry_step.
  destruct (operation frame w) as [r1 w1| |]; try discriminate. eauto.
Qed.

(** When every attempt sends the one request [call], the requests of the
    whole run are that request, once per attempt. *)
Lemma retry_calls (call : Call) operation maxElapsed start :
  (forall frame w r w',
      operation frame w = Returned r w' -> calls w' = (calls w ++ [call])%list) ->
  forall fuel attempt frame w r w',
    retry nextBackOff fuel operation maxElapsed start attempt frame w
      = Returned r w' ->
    exists k, (1 <= k)%nat /\ calls w' = (calls w ++ repeat call k)%list.
Proof.
  intros Hsend. induction fuel as [|fuel IH]; intros attempt frame w r w' H;
    [discriminate|].
  rewrite retry_step in H.
  destruct (operation frame w) as [[[e|] frame1] w1| |] eqn:Hrun;
    try discriminate.
  - apply Hsend in Hrun.
    destruct (isPermanentError e);
      [injection H as <- <-; exists 1%nat; auto|].
    destruct (maxElapsed <? now w1 - start);
      [injection H as <- <-; exists 1%nat; auto|].
    apply IH in H as [k [Hk Hcalls]]. exists (S k). split; [lia|].
    rewrite Hcalls. cbn [slept calls repeat]. rewrite Hrun, <- app_assoc.
    reflexivity.
  - apply Hsend in Hrun. injection H as <- <-. exists 1%nat. auto.
Qed.

(** With an operation that always returns, enough fuel gives a
    result. *)
Lemma retry_returns operation maxElapsed start :
  (forall n, 1 <= nextBackOff n) ->
  (forall frame w a w', operation frame w = Returned a w' -> now w <= now w') ->
  (forall frame w, exists a w', operation frame w = Returned a w') ->
  forall fuel attempt frame w,
    (1 <= fuel)%nat ->
    maxElapsed + 2 <= Z.of_nat fuel + (now w - start) ->
    exists r w',
      retry nextBackOff fuel operation maxElapsed start attempt frame w
        = Returned r w'.
Proof.
  intros Hback Hclock Hop.
  induction fuel as [|fuel IH]; intros attempt frame w Hpos Hfuel; [lia|].
  rewrite retry_step.
  destruct (Hop frame w) as ([[e|] frame'] & w1 & Hrun); rewrite Hrun; eauto.
  destruct (isPermanentError e); eauto.
  destruct (maxElapsed <? now w1 - start) eqn:Hover; eauto.
  apply Z.ltb_ge in Hover. apply Hclock in Hrun.
  specialize (Hback attempt).
  apply IH; unfold slept; cbn [now]; lia.
Qed.

Lemma RetryOperator_returns fuel operation maxElapsed frame w :
  (forall n, 1 <= nextBackOff n) ->
  (forall frame w a w', operation frame w = Returned a w' -> now w <= now w') ->
  (forall frame w, exists a w', operation frame w = Returned a w') ->
  (Z.to_nat maxElapsed + 2 <= fuel)%nat ->
  exists r w',
    RetryOperator nextBackOff fuel operation maxElapsed frame w = Returned r w'.
Proof.
  intros Hback Hclock Hop Hfuel. rewrite RetryOperator_retry.
  apply retry_returns; auto; lia.
Qed.

(** A run that reaches attempt [n] with fuel left goes on from there. *)
Lemma RetryOperator_reaches fuel operation maxElapsed frame w n frame_n w_n :
  beforeAttempt nextBackOff operation maxElapsed (now w) n frame w
    = Some (frame_n, w_n) ->
  (n < fuel)%nat ->
  RetryOperator nextBackOff fuel operation maxElapsed frame w =
  retry nextBackOff (S (fuel - S n)) operation maxElapsed (now w) n frame_n w_n.
Proof.
  intros Hreach Hfuel. rewrite RetryOperator_retry.
  replace fuel with (n + S (fuel - S n))%nat at 1 by lia.
  now apply retry_beforeAttempt.
Qed.

(** C1.  Let attempt number [n] of a run of the retry operator be reached
    (every earlier attempt failed with an error that is not Permanent,
    within the time budget).  If that attempt succeeds, the operator
    returns success in the state the attempt left.  If its error is tagged
    Permanent, the operator returns that error in the state the attempt
    left: no further attempt is made.  Otherwise, if the time since the
    start of the first attempt exceeds [maxElapsed], the operator returns
    that most recent error, marked as timed out; if not, it sleeps the
    next back-off interval and goes on with attempt [n + 1].  The loop
    ends: with back-off intervals of at least one tick and an operation
    that does not turn the clock back, [maxElapsed + 2] rounds of fuel
    are never used up. *)
Theorem RetryOperator_termination_conditions
    fuel operation maxElapsed frame w n frame_n w_n :
  beforeAttempt nextBackOff operation maxElapsed (now w) n frame w
    = Some (frame_n, w_n) ->
  (n < fuel)%nat ->
  (forall frame' w',
      operation frame_n w_n = Returned (None, frame') w' ->
      RetryOperator nextBackOff fuel operation maxElapsed frame w
        = Returned (None, frame') w')
  /\ (forall e frame' w',
        operation frame_n w_n = Returned (Some (PermanentError e), frame') w' ->
        RetryOperator nextBackOff fuel operation maxElapsed frame w
          = Returned (Some (PermanentError e), frame') w')
  /\ (forall e frame' w',
        operation frame_n w_n = Returned (Some e, frame') w' ->
        isPermanentError e = false ->
        maxElapsed < now w' - now w ->
        RetryOperator nextBackOff fuel operation maxElapsed frame w
          = Returned (Some (TimedOutError e), frame') w')
  /\ (forall e frame' w',
        operation frame_n w_n = Returned (Some e, frame') w' ->
        isPermanentError e = false ->
        now w' - now w <= maxElapsed ->
        beforeAttempt nextBackOff operation maxElapsed (now w) (S n) frame w
          = Some (frame', slept (nextBackOff n) w')
        /\ RetryOperator nextBackOff fuel operation maxElapsed frame w
            = retry nextBackOff (fuel - S n) operation maxElapsed (now w) (S n)
                    frame' (slept (nextBackOff n) w'))
  /\ ((forall k, 1 <= nextBackOff k) ->
      (forall f v a v', operation f v = Returned a v' -> now v <= now v') ->
      (forall f v, operation f v <> OutOfFuel) ->
      (Z.to_nat maxElapsed + 2 <= fuel)%nat ->
      RetryOperator nextBackOff fuel operation maxElapsed frame w <> OutOfFuel).
Proof.
  intros Hreach Hfuel.
  rewrite (RetryOperator_reaches _ _ _ _ _ _ _ _ Hreach Hfuel), retry_step.
  split; [|split; [|split; [|split]]].
  - intros frame' w' ->. reflexivity.
  - intros e frame' w' ->. reflexivity.
  - intros e frame' w' -> -> Hover.
    apply Z.ltb_lt in Hover. now rewrite Hover.
  - intros e frame' w' Hrun Hperm Hwithin. apply Z.ltb_ge in Hwithin.
    cbn [beforeAttempt]. now rewrite Hreach, Hrun, Hperm, Hwithin.
  - intros Hback Hclock Hop Henough.
    rewrite <- retry_step, <- (RetryOperator_reaches _ _ _ _ _ _ _ _ Hreach Hfuel).
    now apply RetryOperator_enough_fuel.
Qed.

(** C7.  When the attempt that ends a run failed with the error [e], what
    the operator returns is [e] under a mark that tells why the run ended:
    [e] itself, tagged Permanent, when the attempt's error was tagged
    Permanent, and [e] wrapped as timed out when the time budget was
    exceeded; [terminalState] reads the mark, and the two marks differ.
    Conversely, every run that returns an error ended in one of these two
    ways, at an attempt whose error is the one returned. *)
Theorem RetryOperator_terminal_error fuel operation maxElapsed frame w :
  (forall n frame_n w_n e frame' w',
      beforeAttempt nextBackOff operation maxElapsed (now w) n frame w
        = Some (frame_n, w_n) ->
      (n < fuel)%nat ->
      operation frame_n w_n = Returned (Some e, frame') w' ->
      isPermanentError e = true \/ maxElapsed < now w' - now w ->
      exists err,
        RetryOperator nextBackOff fuel operation maxElapsed frame w
          = Returned (Some err, frame') w'
        /\ Error err = Error e
        /\ terminalState err
           = Some (if isPermanentError e then PermanentlyFailed else TimedOut))
  /\ (forall err frame' w',
        RetryOperator nextBackOff fuel operation maxElapsed frame w
          = Returned (Some err, frame') w' ->
        exists n frame_n w_n e,
          beforeAttempt nextBackOff operation maxElapsed (now w) n frame w
            = Some (frame_n, w_n) /\
          operation frame_n w_n = Returned (Some e, frame') w' /\
          Error err = Error e /\
          ((isPermanentError e = true /\ err = e /\
            terminalState err = Some PermanentlyFailed) \/
           (isPermanentError e = false /\ maxElapsed < now w' - now w /\
            err = TimedOutError e /\ terminalState err = Some TimedOut)))
  /\ PermanentlyFailed <> TimedOut.
Proof.
  split; [|split; [|discriminate]].
  - intros n frame_n w_n e frame' w' Hreach Hfuel Hrun Hend.
    rewrite (RetryOperator_reaches _ _ _ _ _ _ _ _ Hreach Hfuel), retry_step, Hrun.
    destruct (isPermanentError e) eqn:Hperm.
    + exists e. destruct e; try discriminate. auto.
    + destruct Hend as [Hend | Hover]; [discriminate|].
      apply Z.ltb_lt in Hover. rewrite Hover.
      exists (TimedOutError e). auto.
  - intros err frame' w' H. rewrite RetryOperator_retry in H.
    apply (retry_error_inv fuel operation maxElapsed (now w) 0 frame w) in H;
      [|reflexivity].
    destruct H as (n & frame_n & w_n & e & Hreach & Hrun & Hend).
    exists n, frame_n, w_n, e. repeat split; try assumption.
    + destruct Hend as [[_ ->] | (_ & _ & ->)]; reflexivity.
    + destruct Hend as [[Hperm ->] | (Hperm & Hover & ->)]; [left | right].
      * destruct e; try discriminate. auto.
      * auto.
Qed.

End RetryFacts.

(* ================================================================== *)
(** ** dnsrr.go *)

Lemma PermanentError_neq (e : error) : PermanentError e <> e.
Proof. induction e; congruence. Qed.

Section DnsrrFacts.

Variable IsPermanentCommonError : string -> bool.
Variable nextBackOff : nat -> Duration.

(** The receiver and the SDK client it points to. *)
Variable a : Alidns.
Variable client : AlidnsClient.
Hypothesis receiver : Client a = Some client.

Lemma request_run {A} (call : Call) (answer : AlidnsClient -> World -> A) w :
  request (Client a) call answer w
  = Returned (answer client w) (served client call w).
Proof. unfold request. rewrite receiver. reflexivity. Qed.

(** *** One attempt of each closure *)

Lemma deleteDnsRecord_run req frame w :
  deleteDnsRecord IsPermanentCommonError a req frame w =
  Returned
    (match DeleteDomainRecord client w req with
     | Some e =>
         Some (if IsPermanentCommonError (Error e) then PermanentError e else e)
     | None => None
     end, frame)
    (served client (CallDeleteDomainRecord req) w).
Proof.
  unfold deleteDnsRecord, bind. rewrite request_run.
  destruct (DeleteDomainRecord client w req) as [e|]; [|reflexivity].
  unfold backoff_Permanent.
  destruct (IsPermanentCommonError (Error e)); reflexivity.
Qed.

Lemma addRecord_run commonName token frame w :
  addRecord IsPermanentCommonError a commonName token frame w =
  let call := CallAddDomainRecord (addRequest commonName token) in
  let '(response, err) := AddDomainRecord client w (addRequest commonName token) in
  match err with
  | Some e =>
      Returned
        (Some (if IsPermanentCommonError (Error e) then PermanentError e else e),
         {| recordId := ""; err := Some e |})
        (served client call w)
  | None =>
      match response with
      | Some {| add_Body := Some {| add_RecordId := Some id |} |} =>
          Returned (None, {| recordId := id; err := None |}) (served client call w)
      | _ => Panicked nilDereference
      end
  end.
Proof.
  unfold addRecord, AddDnsRecord, bind, tea_String. rewrite request_run.
  unfold addRequest.
  destruct (AddDomainRecord client w _) as [response [e|]].
  - cbn. unfold backoff_Permanent.
    destruct (IsPermanentCommonError (Error e)); reflexivity.
  - destruct response as [[[[[id|]]|]]|]; reflexivity.
Qed.

Lemma updateRecord_run found token frame w id rrType rr :
  RecordId found = Some id -> Type_ found = Some rrType -> RR found = Some rr ->
  updateRecord IsPermanentCommonError a found token frame w =
  let req :=
    {| update_RecordId := Some id; update_RR := Some rr;
       update_Type := Some rrType; update_Value := Some token |} in
  match UpdateDomainRecord client w req with
  | Some e =>
      Returned
        (Some (if IsPermanentCommonError (Error e) then PermanentError e else e),
         frame)
        (served client (CallUpdateDomainRecord req) w)
  | None =>
      Returned (None, frame) (served client (CallUpdateDomainRecord req) w)
  end.
Proof.
  intros Hid Htype Hrr. unfold updateRecord, UpdateDnsRecord, bind.
  rewrite Hid, Htype, Hrr. cbn [deref ret]. rewrite request_run.
  unfold tea_String. cbn zeta.
  destruct (UpdateDomainRecord client w _) as [e|]; [|reflexivity]. cbn.
  unfold backoff_Permanent.
  destruct (IsPermanentCommonError (Error e)); reflexivity.
Qed.

(** C4.  Each of the three retried closures sends one request.  When the
    request fails with [e], the closure asks the classifier about the text
    of [e] and returns [e] wrapped as Permanent when the classifier says
    permanent, and [e] as it is otherwise; the wrapped and the unwrapped
    error are never the same value, so the wrapping happens exactly when
    the classifier says permanent.  When the request succeeds, the
    closure returns [nil]. *)
Theorem closures_classify_errors w :
  (forall req,
      deleteDnsRecord IsPermanentCommonError a req tt w =
      Returned
        (match DeleteDomainRecord client w req with
         | Some e =>
             Some (if IsPermanentCommonError (Error e) then PermanentError e else e)
         | None => None
         end, tt)
        (served client (CallDeleteDomainRecord req) w))
  /\ (forall commonName token frame e response,
        AddDomainRecord client w (addRequest commonName token) = (response, Some e) ->
        addRecord IsPermanentCommonError a commonName token frame w =
        Returned
          (Some (if IsPermanentCommonError (Error e) then PermanentError e else e),
           {| recordId := ""; err := Some e |})
          (served client (CallAddDomainRecord (addRequest commonName token)) w))
  /\ (forall commonName token frame id,
        AddDomainRecord client w (addRequest commonName token) = added id ->
        addRecord IsPermanentCommonError a commonName token frame w =
        Returned (None, {| recordId := id; err := None |})
          (served client (CallAddDomainRecord (addRequest commonName token)) w))
  /\ (forall found token frame id rrType rr,
        RecordId found = Some id -> Type_ found = Some rrType -> RR found = Some rr ->
        updateRecord IsPermanentCommonError a found token frame w =
        let req :=
          {| update_RecordId := Some id; update_RR := Some rr;
             update_Type := Some rrType; update_Value := Some token |} in
        match UpdateDomainRecord client w req with
        | Some e =>
            Returned
              (Some (if IsPermanentCommonError (Error e) then PermanentError e else e),
               frame)
              (served client (CallUpdateDomainRecord req) w)
        | None =>
            Returned (None, frame) (served client (CallUpdateDomainRecord req) w)
        end)
  /\ (forall e,
        ((if IsPermanentCommonError (Error e) then PermanentError e else e)
           = PermanentError e <-> IsPermanentCommonError (Error e) = true)
        /\ ((if IsPermanentCommonError (Error e) then PermanentError e else e)
             = e <-> IsPermanentCommonError (Error e) = false)).
Proof.
  split; [|split; [|split; [|split]]].
  - intros req. apply deleteDnsRecord_run.
  - intros commonName token frame e response Hanswer.
    rewrite addRecord_run. cbn zeta. now rewrite Hanswer.
  - intros commonName token frame id Hanswer.
    rewrite addRecord_run. cbn zeta. now rewrite Hanswer.
  - intros found token frame id rrType rr. apply updateRecord_run.
  - intros e. destruct (IsPermanentCommonError (Error e)); repeat split;
      try reflexivity; try discriminate; intros H.
    + now apply PermanentError_neq in H.
    + symmetry in H. now apply PermanentError_neq in H.
Qed.

(** *** The wrappers around the retry operator *)

Lemma GetAllDnsRecords_run domain w :
  GetAllDnsRecords a domain w =
  let w1 := served client (CallDescribeDomainRecords (describeRequest domain)) w in
  let '(response, err) := DescribeDomainRecords client w (describeRequest domain) in
  match err with
  | Some e => Returned ([], Some e) w1
  | None =>
      match response with
      | Some {| describe_Body :=
                  Some {| DomainRecords := Some {| Record_ := records |} |} |} =>
          Returned (records, None) w1
      | _ => Panicked nilDereference
      end
  end.
Proof.
  unfold GetAllDnsRecords, bind, tea_String, tea_Int64. rewrite request_run.
  unfold describeRequest.
  destruct (DescribeDomainRecords client w _) as [response [e|]];
    [reflexivity|].
  destruct response as [[[[[[records]|]]|]]|]; reflexivity.
Qed.

Lemma isVerificationRecord_populated commonName r w :
  populated (Some r) ->
  isVerificationRecord commonName r w
  = Returned (verification commonName (Some r)) w.
Proof.
  intros (Hd & Hrr & Ht & _). unfold isVerificationRecord, verification, bind.
  destruct (DomainName r) as [d|]; [|congruence].
  destruct (RR r) as [rr|]; [|congruence].
  destruct (Type_ r) as [t|]; [|congruence].
  cbn. destruct (d =? commonName)%string; cbn; [|reflexivity].
  destruct (rr =? "@")%string; reflexivity.
Qed.

(** On populated records the search loop is [find]: it answers the first
    record that is the root TXT record of [commonName], and leaves the
    world as it is. *)
Lemma findDnsRecord_find commonName records w :
  Forall populated records ->
  findDnsRecord commonName records w
  = Returned (match find (verification commonName) records with
              | Some p => p
              | None => None
              end) w.
Proof.
  induction 1 as [|p records Hp _ IH]; [reflexivity|].
  destruct p as [r|]; [|contradiction].
  cbn [findDnsRecord find]. unfold bind at 1. cbn [deref ret].
  unfold bind at 1. rewrite (isVerificationRecord_populated _ _ _ Hp).
  destruct (verification commonName (Some r)); [reflexivity|exact IH].
Qed.

(** The same on records of which only what the condition of the loop reads
    is set. *)
Lemma isVerificationRecord_readable commonName r w :
  readable commonName (Some r) ->
  isVerificationRecord commonName r w
  = Returned (verification commonName (Some r)) w.
Proof.
  unfold readable, isVerificationRecord, verification, holds, bind.
  destruct (DomainName r) as [d|]; [|contradiction]. cbn [deref ret].
  destruct (d =? commonName)%string; cbn [negb andb]; [|reflexivity].
  destruct (RR r) as [rr|]; [|contradiction]. cbn [deref ret].
  destruct (rr =? "@")%string; cbn [negb andb]; [|reflexivity].
  destruct (Type_ r) as [t|]; [reflexivity|congruence].
Qed.

Lemma isVerificationRecord_unreadable commonName r w :
  ~ readable commonName (Some r) ->
  isVerificationRecord commonName r w = Panicked nilDereference.
Proof.
  unfold readable, isVerificationRecord, bind.
  destruct (DomainName r) as [d|]; [|reflexivity]. cbn [deref ret].
  destruct (d =? commonName)%string; cbn [negb]; [|now intros []].
  destruct (RR r) as [rr|]; [|reflexivity]. cbn [deref ret].
  destruct (rr =? "@")%string; cbn [negb]; [|now intros []].
  destruct (Type_ r) as [t|]; [|reflexivity].
  intros H. exfalso. apply H. discriminate.
Qed.

Lemma findDnsRecord_on_readable commonName records w :
  Forall (readable commonName) records ->
  findDnsRecord commonName records w
  = Returned (match find (verification commonName) records with
              | Some p => p
              | None => None
              end) w.
Proof.
  induction 1 as [|p records Hp _ IH]; [reflexivity|].
  destruct p as [r|]; [|contradiction].
  cbn [findDnsRecord find]. unfold bind at 1. cbn [deref ret].
  unfold bind at 1. rewrite (isVerificationRecord_readable _ _ _ Hp).
  destruct (verification commonName (Some r)); [reflexivity|exact IH].
Qed.

Lemma verification_fields commonName r :
  verification commonName (Some r) = true ->
  DomainName r = Some commonName /\ RR r = Some "@" /\ Type_ r = Some "TXT".
Proof.
  unfold verification, holds.
  destruct (DomainName r) as [d|], (RR r) as [rr|], (Type_ r) as [t|];
    cbn; rewrite ?andb_false_r; try discriminate.
  rewrite !andb_true_iff, !String.eqb_eq. now intros [[-> ->] ->].
Qed.

Lemma updateRecord_returned found token frame w r w' :
  updateRecord IsPermanentCommonError a found token frame w = Returned r w' ->
  exists id, RecordId found = Some id.
Proof.
  unfold updateRecord, bind. destruct (RecordId found) as [id|]; [eauto|].
  discriminate.
Qed.

(** C5.  [DeleteDnsRecord] and the add and update paths of
    [CreateAliDNSRecord] return a [nil] error exactly when the retry
    operator returned success.  When the retry operator returns the
    terminal error [e], the wrapper returns a non-nil error whose text is
    a fixed prefix followed by the text of [e]. *)
Theorem wrappers_return_the_terminal_error fuel w r w' :
  (forall id (u : unit),
      RetryOperator nextBackOff fuel
        (deleteDnsRecord IsPermanentCommonError a {| delete_RecordId := Some id |})
        MAX_ELAPSED_TIME tt w = Returned (r, u) w' ->
      exists result,
        DeleteDnsRecord IsPermanentCommonError nextBackOff fuel a id w
          = Returned result w'
        /\ (result = None <-> r = None)
        /\ (forall e, r = Some e ->
              result = Some (errorString
                ("Alidns delete dns record. Failed to Delete dns record: "
                 ++ Error e))))
  /\ (forall commonName token w0 records frame',
        GetAllDnsRecords a commonName w0 = Returned (records, None) w ->
        records <> [] ->
        findDnsRecord commonName records w = Returned None w ->
        RetryOperator nextBackOff fuel
          (addRecord IsPermanentCommonError a commonName token)
          MAX_ELAPSED_TIME {| recordId := ""; err := None |} w
          = Returned (r, frame') w' ->
        exists id result,
          CreateAliDNSRecord IsPermanentCommonError nextBackOff fuel a
            commonName token w0 = Returned (id, result) w'
          /\ (result = None <-> r = None)
          /\ (r = None -> id = recordId frame')
          /\ (forall e, r = Some e ->
                id = "" /\
                result = Some (errorString
                  ("Alidns create dns record. Failed to create verification TXT record: "
                   ++ Error e))))
  /\ (forall commonName token w0 records found frame',
        GetAllDnsRecords a commonName w0 = Returned (records, None) w ->
        records <> [] ->
        findDnsRecord commonName records w = Returned (Some found) w ->
        RetryOperator nextBackOff fuel
          (updateRecord IsPermanentCommonError a found token)
          MAX_ELAPSED_TIME {| recordId := ""; err := None |} w
          = Returned (r, frame') w' ->
        exists id result,
          CreateAliDNSRecord IsPermanentCommonError nextBackOff fuel a
            commonName token w0 = Returned (id, result) w'
          /\ (result = None <-> r = None)
          /\ (r = None -> RecordId found = Some id)
          /\ (forall e, r = Some e ->
                id = "" /\
                result = Some (errorString
                  ("Alidns update dns record. Failed to Update verification TXT record: "
                   ++ Error e)))).
Proof.
  split; [|split].
  - intros id u Hretry. unfold DeleteDnsRecord, bind, tea_String.
    rewrite Hretry. destruct r as [e|]; eexists; (split; [reflexivity|]).
    + split; [split; discriminate|]. now intros e' [= ->].
    + split; [tauto | discriminate].
  - intros commonName token w0 records frame' Hget Hne Hfind Hretry.
    unfold CreateAliDNSRecord, bind. rewrite Hget.
    destruct records as [|p records]; [congruence|]. cbn [List.length Nat.eqb].
    rewrite Hfind, Hretry.
    destruct r as [e|]; eexists; eexists; (split; [reflexivity|]).
    + repeat split; intros; try discriminate; congruence.
    + repeat split; intros; try discriminate; congruence.
  - intros commonName token w0 records found frame' Hget Hne Hfind Hretry.
    unfold CreateAliDNSRecord, bind. rewrite Hget.
    destruct records as [|p records]; [congruence|]. cbn [List.length Nat.eqb].
    rewrite Hfind, Hretry.
    destruct r as [e|].
    + eexists; eexists; (split; [reflexivity|]).
      repeat split; intros; try discriminate; congruence.
    + rewrite RetryOperator_retry in Hretry.
      apply retry_first_attempt in Hretry as (r1 & w1 & Hrun).
      apply updateRecord_returned in Hrun as [id Hid].
      exists id, None. rewrite Hid. cbn.
      repeat split; intros; try discriminate; congruence.
Qed.

(** *** Create or update *)


(** One attempt of [addRecord] that returns has sent the request for a
    new root TXT record with value [token], and nothing else; when it
    succeeds, the id it stores is the id of the record just made. *)
Lemma addRecord_attempt commonName token frame v r frame' v' :
  addRecord IsPermanentCommonError a commonName token frame v
    = Returned (r, frame') v' ->
  calls v' = (calls v ++ [CallAddDomainRecord (addRequest commonName token)])%list
  /\ now v <= now v'
  /\ (r = None ->
      AddDomainRecord client v (addRequest commonName token) = added (recordId frame') /\
      v' = served client (CallAddDomainRecord (addRequest commonName token)) v).
Proof.
  rewrite addRecord_run. cbn zeta.
  destruct (AddDomainRecord client v (addRequest commonName token))
    as [response [e|]].
  - intros [= <- <- <-]. cbn [calls now served logged].
    repeat split; intros; try lia; congruence.
  - destruct response as [[[[[id|]]|]]|]; try discriminate.
    intros [= <- <- <-]. cbn [calls now served logged recordId].
    repeat split; lia.
Qed.


(** Whenever [GetAllDnsRecords] returns, it has sent one request: the
    request for the first 500 records of the domain. *)
Lemma GetAllDnsRecords_calls domain w result w' :
  GetAllDnsRecords a domain w = Returned result w' ->
  calls w' = (calls w ++ [CallDescribeDomainRecords (describeRequest domain)])%list.
Proof.
  rewrite GetAllDnsRecords_run. cbn zeta.
  destruct (DescribeDomainRecords client w (describeRequest domain))
    as [response [e|]].
  - now intros [= _ <-].
  - destruct response as [[[[[[records]|]]|]]|]; try discriminate.
    now intros [= _ <-].
Qed.


End DnsrrFacts.

(* ================================================================== *)
(** ** Paging *)

Section PagingFacts.

Variable base : AlidnsClient.
Variable zones : string -> list (option DomainRecord).


Lemma pageOf_describeRequest zone domain :
  pageOf zone (describeRequest domain) = firstn 500 zone.
Proof. reflexivity. Qed.

Lemma GetAllDnsRecords_paging domain w :
  GetAllDnsRecords (paged base zones) domain w =
  Returned (firstn 500 (zones domain), None)
    (served base (CallDescribeDomainRecords (describeRequest domain)) w).
Proof. reflexivity. Qed.

Lemma GetAllDnsRecords_truncated domain w :
  GetAllDnsRecords (paged base (firstPage zones)) domain w
  = GetAllDnsRecords (paged base zones) domain w.
Proof.
  rewrite GetAllDnsRecords_paging.
  unfold firstPage.
rewrite <- (firstn_firstn (zones domain) 500 500) at 1.
  reflexivity.
Qed.

(** C9.  [GetAllDnsRecords] sends one request, for the first page of 500
    records: whenever it returns, the requests sent are those sent before
    and one [DescribeDomainRecords] with [PageSize] 500 and no page
    number.  Against a provider that pages, it returns the first 500
    records of the domain and no other, and [CreateAliDNSRecord] does the
    same whether or not the domain has records beyond those. *)
Theorem GetAllDnsRecords_first_page_only :
  (forall (a' : Alidns) domain w result w',
      GetAllDnsRecords a' domain w = Returned result w' ->
      calls w' =
      (calls w ++
       [CallDescribeDomainRecords
          {| describe_DomainName := Some domain;
             describe_PageNumber := None;
             describe_PageSize := Some 500 |}])%list)
  /\ (forall domain w,
        GetAllDnsRecords (paged base zones) domain w =
        Returned (firstn 500 (zones domain), None)
          (served base (CallDescribeDomainRecords (describeRequest domain)) w))
  /\ (forall domain w records e w',
        GetAllDnsRecords (paged base zones) domain w = Returned (records, e) w' ->
        (List.length records <= 500)%nat /\
        forall i, (500 <= i)%nat -> nth_error records i = None)
  /\ (forall IsPermanentCommonError nextBackOff fuel commonName token w,
        CreateAliDNSRecord IsPermanentCommonError nextBackOff fuel
          (paged base zones) commonName token w =
        CreateAliDNSRecord IsPermanentCommonError nextBackOff fuel
          (paged base (firstPage zones)) commonName token w).
Proof.
  split; [|split; [|split]].
  - intros a' domain w result w'. destruct a' as [[client|]]; [|discriminate].
    rewrite (GetAllDnsRecords_run {| Client := Some client |} client eq_refl).
    cbn zeta.
    destruct (DescribeDomainRecords client w (describeRequest domain))
      as [response [e|]].
    + now intros [= _ <-].
    + destruct response as [[[[[[records]|]]|]]|]; try discriminate.
      now intros [= _ <-].
  - apply GetAllDnsRecords_paging.
  - intros domain w records e w'. rewrite GetAllDnsRecords_paging.
    intros H.
    assert (Hrecords : records = firstn 500 (zones domain)) by congruence.
    assert (Hlen : (List.length records <= 500)%nat)
      by (rewrite Hrecords; apply firstn_le_length).
    split; [exact Hlen|]. intros i Hi. apply nth_error_None. lia.
  - intros IsPermanentCommonError nextBackOff fuel commonName token w.
    unfold CreateAliDNSRecord, bind.
    rewrite GetAllDnsRecords_truncated, GetAllDnsRecords_paging.
    destruct (List.length (firstn 500 (zones commonName)) =? 0)%nat;
      [reflexivity|].
    destruct (findDnsRecord commonName (firstn 500 (zones commonName)) _)
      as [[found|] w1| |]; reflexivity.
Qed.

End PagingFacts.

(** The root TXT record of a domain with more than 500 records is not seen
    when it is not among the first 500: a second one is added. *)
Example CreateAliDNSRecord_crowded_zone :
  match CreateAliDNSRecord (fun _ => false) doubling 3
          (paged (scriptedClient [] 0 "" "9001") (fun _ => crowdedZone))
          "example.com" "new-token" boot with
  | Returned result w =>
      result = ("9001", None) /\
      calls w = [CallDescribeDomainRecords (describeRequest "example.com");
                 CallAddDomainRecord (addRequest "example.com" "new-token")]
  | _ => False
  end.
Proof. vm_compute. split; reflexivity. Qed.

(* ================================================================== *)
(** ** client.go *)

(** C8.  [NewClient] returns no client and an error when the access key or
    the secret key is empty, and hands nothing to the SDK's constructor.
    For keys that are not empty it calls the SDK's constructor once, with
    the two keys and the endpoint alidns.cn-hongkong.aliyuncs.com, and
    returns an [Alidns] that holds the client the constructor made, along
    with the constructor's error. *)
Theorem NewClient_checks_keys
    (alidns_NewClient : Config -> option AlidnsClient * option error)
    (accessKey secretKey : string) (constructed : list Config) :
  (accessKey = "" \/ secretKey = "" ->
     exists e,
       NewClient alidns_NewClient accessKey secretKey constructed
       = (None, Some e, constructed))
  /\ (accessKey <> "" -> secretKey <> "" ->
      NewClient alidns_NewClient accessKey secretKey constructed =
      let config := {| AccessKeyId := Some accessKey;
                       AccessKeySecret := Some secretKey;
                       Endpoint := Some "alidns.cn-hongkong.aliyuncs.com" |} in
      (Some {| Client := fst (alidns_NewClient config) |},
       snd (alidns_NewClient config),
       (constructed ++ [config])%list)).
Proof.
  unfold NewClient. split.
  - intros [-> | ->]; [cbn; eauto|].
    destruct (accessKey =? "")%string; cbn; eauto.
  - intros Ha Hs.
    apply String.eqb_neq in Ha, Hs. rewrite Ha, Hs. cbn.
    unfold tea_String. now destruct (alidns_NewClient _).
Qed.

(* ================================================================== *)
(** ** Package fmt *)

Lemma skipFlags_length (s : string) :
  (String.length (fmt.skipFlags s) <= String.length s)%nat.
Proof.
  induction s as [|c s IH]; cbn [fmt.skipFlags]; [lia|].
  destruct (fmt.isFlag c); cbn [String.length]; lia.
Qed.

Lemma parsenumFrom_length (s : string) : forall num isnum,
  (String.length (snd (fmt.parsenumFrom num isnum s)) <= String.length s)%nat.
Proof.
  induction s as [|c s IH]; intros num isnum; cbn [fmt.parsenumFrom]; [cbn; lia|].
  destruct (fmt.isDigit c); [|cbn; lia].
  destruct (fmt.tooLarge num); [cbn; lia|].
  specialize (IH (num * 10 + (Z.of_N (fmt.byte c) - 48)) true).
  cbn [String.length]. lia.
Qed.

Lemma untilBracket_length (s : string) : forall inner rest,
  fmt.untilBracket s = Some (inner, rest) ->
  (String.length rest < String.length s)%nat.
Proof.
  induction s as [|c s IH]; intros inner rest; cbn [fmt.untilBracket];
    [discriminate|].
  destruct (c =? "]")%char.
  - intros [= _ <-]. cbn. lia.
  - destruct (fmt.untilBracket s) as [[inner' rest']|]; [|discriminate].
    intros [= _ <-]. specialize (IH _ _ eq_refl). cbn [String.length]. lia.
Qed.

Lemma parseArgNumber_length (after : string) :
  (String.length (fst (fmt.parseArgNumber after)) <= String.length after)%nat.
Proof.
  unfold fmt.parseArgNumber.
  destruct (String.length after <? 2)%nat; [cbn; lia|].
  destruct (fmt.untilBracket after) as [[inner rest]|] eqn:Hb; [|cbn; lia].
  apply untilBracket_length in Hb.
  destruct (fmt.parsenum inner). cbn. lia.
Qed.

Lemma argNumber_length (s : string) (goodArgNum : bool) :
  (String.length (fst (fst (fmt.argNumber s goodArgNum))) <= String.length s)%nat.
Proof.
  unfold fmt.argNumber.
  destruct s as [|c s]; [cbn; lia|].
  destruct (c =? "[")%char; [|cbn; lia].
  pose proof (parseArgNumber_length s).
  destruct (fmt.parseArgNumber s). cbn in *. lia.
Qed.

Lemma decodeVerb_length (c : ascii) (rest : string) :
  (String.length (snd (fmt.decodeVerb c rest)) <= String.length rest)%nat.
Proof.
  unfold fmt.decodeVerb.
  destruct (fmt.byte c <? 128)%N; [cbn; lia|].
  destruct (if fmt.between 194 223 c then _ else _) as [[size lo] hi].
  destruct (size =? 0)%nat; [cbn; lia|].
  destruct (S (String.length rest) <? size)%nat; [cbn; lia|].
  destruct rest as [|c1 rest1]; [cbn; lia|].
  destruct (negb (fmt.between lo hi c1)); [cbn; lia|].
  destruct (size <=? 2)%nat; [cbn; lia|].
  destruct rest1 as [|c2 rest2]; [cbn; lia|].
  destruct (negb (fmt.continuation c2)); [cbn; lia|].
  destruct (size <=? 3)%nat; [cbn; lia|].
  destruct rest2 as [|c3 rest3]; [cbn; lia|].
  destruct (negb (fmt.continuation c3)); cbn; lia.
Qed.

Lemma width_length (s : string) (afterIndex goodArgNum : bool) :
  (String.length (snd (fst (fst (fmt.width s afterIndex goodArgNum))))
   <= String.length s)%nat.
Proof.
  pose proof (parsenumFrom_length s 0 false) as Hnum.
  unfold fmt.width. fold (fmt.parsenum s) in Hnum.
  destruct (fmt.parsenum s) as [widPresent s'].
  destruct s as [|c s]; [exact Hnum|].
  destruct (c =? "*")%char; [cbn; lia | exact Hnum].
Qed.

Lemma precision_length (s : string) (afterIndex goodArgNum : bool) :
  (String.length (snd (fst (fst (fmt.precision s afterIndex goodArgNum))))
   <= String.length s)%nat.
Proof.
  unfold fmt.precision.
  destruct s as [|c [|c' s']]; try (cbn; lia).
  destruct (c =? ".")%char; [|cbn; lia].
  pose proof (argNumber_length (String c' s')
                (if afterIndex then false else goodArgNum)) as Harg.
  cbn zeta.
  destruct (fmt.argNumber _ _) as [[s1 ai] g]. cbn [fst] in Harg.
  pose proof (parsenumFrom_length s1 0 false) as Hnum.
  fold (fmt.parsenum s1) in Hnum.
  destruct (fmt.parsenum s1) as [p s2]. cbn [snd] in Hnum.
  destruct s1 as [|d s1]; [cbn [fst snd String.length] in *; lia|].
  destruct (d =? "*")%char; cbn [fst snd String.length] in *; lia.
Qed.

(** A directive takes at least its verb from the format. *)
Lemma directive_length (s out rest : string) :
  fmt.directive s = (out, Some rest) ->
  (String.length rest < String.length s)%nat.
Proof.
  unfold fmt.directive.
  pose proof (skipFlags_length s) as H0.
  pose proof (argNumber_length (fmt.skipFlags s) true) as H1.
  destruct (fmt.argNumber (fmt.skipFlags s) true) as [[s1 ai1] g1].
  pose proof (width_length s1 ai1 g1) as H2.
  destruct (fmt.width s1 ai1 g1) as [[[bw s2] ai2] g2].
  pose proof (precision_length s2 ai2 g2) as H3.
  destruct (fmt.precision s2 ai2 g2) as [[[bp s3] ai3] g3].
  pose proof (argNumber_length s3 g3) as H4.
  cbn [fst snd] in *.
  assert (H5 : forall s4 ai4 g4,
             (if ai3 then (s3, ai3, g3) else fmt.argNumber s3 g3) = (s4, ai4, g4) ->
             (String.length s4 <= String.length s3)%nat).
  { intros s4 ai4 g4. destruct ai3.
    - intros [= <- _ _]. lia.
    - intros Heq. rewrite Heq in H4. exact H4. }
  destruct (if ai3 then (s3, ai3, g3) else fmt.argNumber s3 g3) as [[s4 ai4] g4].
  specialize (H5 _ _ _ eq_refl).
  destruct s4 as [|c rest']; [discriminate|].
  pose proof (decodeVerb_length c rest') as H6.
  destruct (fmt.decodeVerb c rest') as [verb rest''].
  intros [= _ <-]. cbn [snd String.length] in *. lia.
Qed.

(** The scanner does not depend on its fuel, once above the length of the
    format. *)
Lemma doPrintf_fuel (fuel : nat) : forall format extra,
  (String.length format < fuel)%nat ->
  fmt.doPrintf (fuel + extra) format = fmt.doPrintf fuel format.
Proof.
  induction fuel as [|fuel IH]; intros format extra Hfuel; [lia|].
  cbn [fmt.doPrintf Nat.add].
  destruct format as [|c rest]; [reflexivity|]. cbn [String.length] in Hfuel.
  destruct (c =? "%")%char.
  - destruct (fmt.directive rest) as [out [rest'|]] eqn:Hd; [|reflexivity].
    apply directive_length in Hd. rewrite IH by lia. reflexivity.
  - rewrite IH by lia. reflexivity.
Qed.

Lemma doPrintf_noPercent (s : string) : forall fuel,
  (String.length s < fuel)%nat -> noPercent s = true -> fmt.doPrintf fuel s = s.
Proof.
  induction s as [|c s IH]; intros [|fuel] Hfuel Hs; cbn in Hfuel; try lia;
    [reflexivity|].
  cbn [noPercent] in Hs. apply andb_true_iff in Hs as [Hc Hs].
  apply negb_true_iff in Hc. cbn [fmt.doPrintf]. rewrite Hc, IH; auto. lia.
Qed.

(** A format without a percent sign is printed as it is. *)
Lemma Sprintf_noPercent (s : string) : noPercent s = true -> fmt.Sprintf s = s.
Proof. intros Hs. apply doPrintf_noPercent; [lia | exact Hs]. Qed.

Example Sprintf_missing_operand : fmt.Sprintf "hi%d" = "hi%!d(MISSING)".
Proof. reflexivity. Qed.

Example Sprintf_no_verb : fmt.Sprintf "100%" = "100%!(NOVERB)".
Proof. reflexivity. Qed.

Example Sprintf_percent : fmt.Sprintf "100%% sure" = "100% sure".
Proof. reflexivity. Qed.

Example Sprintf_bad_index :
  map fmt.Sprintf ["%[d"; "%[]d"; "%[-3]d"; "%.[2]d"; "%3.[2]d"; "%[99]d"; "%.[]"]
  = ["%!d(BADINDEX)"; "%!d(BADINDEX)"; "%!d(BADINDEX)"; "%!d(BADINDEX)";
     "%!d(BADINDEX)"; "%!d(BADINDEX)"; "%!](BADINDEX)"].
Proof. reflexivity. Qed.

Example Sprintf_flags_width_precision :
  map fmt.Sprintf ["a%%b% -5.3f."; "%*d"; "%.*d"; "%2147483648d"; "%[3]"]
  = ["a%b%!f(MISSING)."; "%!(BADWIDTH)%!d(MISSING)"; "%!(BADPREC)%!d(MISSING)";
     "%!(NOVERB)"; "%!(NOVERB)"].
Proof. reflexivity. Qed.

(* ================================================================== *)
(** ** The DigiCert API file *)

Section DigiCertFacts.

Variable httpResponse : string -> string -> string -> string * option error.
Variable json_Marshal : OrderPayload -> string * option error.
Context {unmarshalIssueCert : Unmarshaler IssueCertRespBody}
        {unmarshalErrorMsgList : Unmarshaler ErrorMsgList}
        {unmarshalOrderList : Unmarshaler OrderListRespBody}.

(** [IssueCert] turns a decoded errors list that is not empty into an
    error. *)
Lemma IssueCert_reports_errors orderPayLoad jsonPayload resp issueCert :
  json_Marshal orderPayLoad = (jsonPayload, None) ->
  httpResponse http_MethodPost
    (ORDER_ENDPOINT ++ "/" ++ CACertID (order_Certificate orderPayLoad))
    jsonPayload = (resp, None) ->
  json_Unmarshal resp zeroIssueCertRespBody = (issueCert, None) ->
  issue_ErrorMsg issueCert <> [] ->
  IssueCert httpResponse json_Marshal orderPayLoad =
  (issueCert,
   Some (errorString ("error issue certificate, error: "
                      ++ Code (first (issue_ErrorMsg issueCert)) ++ ". "
                      ++ Message (first (issue_ErrorMsg issueCert))))).
Proof.
  intros Hm Hh Hu Hne. unfold IssueCert. rewrite Hm, Hh, Hu.
  destruct (issue_ErrorMsg issueCert); [contradiction|reflexivity].
Qed.

(** [GetOrders] does, too. *)
Lemma GetOrders_reports_errors commonName resp orderList :
  httpResponse http_MethodGet
    (ORDER_ENDPOINT
     ++ "?filters[status]=issued&sort=-date_created&filters[common_name]="
     ++ commonName) "" = (resp, None) ->
  json_Unmarshal resp zeroOrderListRespBody = (orderList, None) ->
  list_ErrorMsg orderList <> [] ->
  GetOrders httpResponse commonName =
  (zeroOrderListRespBody,
   Some (errorString (Message (first (list_ErrorMsg orderList))))).
Proof.
  intros Hh Hu Hne. unfold GetOrders. rewrite Hh, Hu.
  destruct (list_ErrorMsg orderList); [contradiction|reflexivity].
Qed.

(** [GetOrdersList] prints one line for each decoded error and returns a
    [nil] error, whatever the errors list holds. *)
Lemma GetOrdersList_returns_nil resp orders :
  httpResponse http_MethodGet (ORDER_ENDPOINT ++ "?filters[status]=issued") ""
    = (resp, None) ->
  json_Unmarshal resp zeroOrderListRespBody = (orders, None) ->
  GetOrdersList httpResponse =
  (orders, None,
   map (fun errormsg => showBool (Contains (Code errormsg) "Missing authentication"))
       (list_ErrorMsg orders)).
Proof. intros Hh Hu. unfold GetOrdersList. now rewrite Hh, Hu. Qed.

(** [CancelOrderRequest] returns a [nil] error whenever the request went
    through, whatever the response holds. *)
Lemma CancelOrderRequest_returns_nil orderId resp :
  httpResponse http_MethodPut (ORDER_ENDPOINT ++ "/" ++ itoa orderId ++ "/status")
    canceledStatus = (resp, None) ->
  CancelOrderRequest httpResponse orderId = None.
Proof.
  intros Hh. unfold CancelOrderRequest. rewrite Hh.
  now destruct (negb _).
Qed.

(** X16.  [RevokeCert] returns [nil] exactly when the request went through
    and the response is empty or decodes to an empty errors list. *)
Lemma RevokeCert_nil_iff certId :
  RevokeCert httpResponse certId = None <->
  exists resp,
    httpResponse http_MethodPut (CERT_ENDPOINT ++ "/" ++ itoa certId ++ "/revoke")
      (skipApproval tab) = (resp, None)
    /\ (resp = "" \/
        exists errMsgList,
          json_Unmarshal resp zeroErrorMsgList = (errMsgList, None) /\
          errors errMsgList = []).
Proof.
  unfold RevokeCert.
  destruct (httpResponse _ _ _) as [resp [e|]].
  - split; [discriminate | now intros (r & [= _] & _)].
  - destruct resp as [|c resp]; cbn [String.length Nat.eqb negb].
    + split; eauto.
    + destruct (json_Unmarshal _ _) as [errMsgList [e|]] eqn:Hu.
      * split; [discriminate|].
        intros (r & [= <-] & [Hr | (l & Hl & _)]); congruence.
      * destruct (errors errMsgList) as [|m l] eqn:He; cbn.
        -- split; eauto 6.
        -- split; [discriminate|].
           intros (r & [= <-] & [Hr | (l' & Hl & He')]); congruence.
Qed.

(** X17.  [RevokeAllCert] returns [nil] exactly when the request went
    through and the response is empty or decodes to an empty errors
    list. *)
Lemma RevokeAllCert_nil_iff orderId :
  RevokeAllCert httpResponse orderId = None <->
  exists resp,
    httpResponse http_MethodPut (ORDER_ENDPOINT ++ "/" ++ itoa orderId ++ "/revoke")
      (skipApproval (tab ++ tab)) = (resp, None)
    /\ (resp = "" \/
        exists errMsgList,
          json_Unmarshal resp zeroErrorMsgList = (errMsgList, None) /\
          errors errMsgList = []).
Proof.
  unfold RevokeAllCert.
  destruct (httpResponse _ _ _) as [resp [e|]].
  - split; [discriminate | now intros (r & [= _] & _)].
  - destruct resp as [|c resp]; cbn [String.length Nat.eqb negb].
    + split; eauto.
    + destruct (json_Unmarshal _ _) as [errMsgList [e|]] eqn:Hu.
      * split; [discriminate|].
        intros (r & [= <-] & [Hr | (l & Hl & _)]); congruence.
      * destruct (errors errMsgList) as [|m l] eqn:He; cbn.
        -- split; eauto 6.
        -- split; [discriminate|].
           intros (r & [= <-] & [Hr | (l' & Hl & He')]); congruence.
Qed.

(** X18.  When the request of [RevokeCert] goes through with a response
    that is not empty and decodes to an errors list that is not empty,
    [RevokeCert] returns the first message of the list run through
    [fmt.Errorf] as a format: the message itself when it has no percent
    sign.  The same holds of [RevokeAllCert] and its own request. *)
Lemma Revoke_first_message certId orderId :
  (forall resp errMsgList,
      httpResponse http_MethodPut
        (CERT_ENDPOINT ++ "/" ++ itoa certId ++ "/revoke")
        (skipApproval tab) = (resp, None) ->
      resp <> "" ->
      json_Unmarshal resp zeroErrorMsgList = (errMsgList, None) ->
      errors errMsgList <> [] ->
      RevokeCert httpResponse certId
        = Some (fmt.Errorf (Message (first (errors errMsgList))))
      /\ (noPercent (Message (first (errors errMsgList))) = true ->
          RevokeCert httpResponse certId
          = Some (errorString (Message (first (errors errMsgList))))))
  /\ (forall resp errMsgList,
        httpResponse http_MethodPut
          (ORDER_ENDPOINT ++ "/" ++ itoa orderId ++ "/revoke")
          (skipApproval (tab ++ tab)) = (resp, None) ->
        resp <> "" ->
        json_Unmarshal resp zeroErrorMsgList = (errMsgList, None) ->
        errors errMsgList <> [] ->
        RevokeAllCert httpResponse orderId
          = Some (fmt.Errorf (Message (first (errors errMsgList))))
        /\ (noPercent (Message (first (errors errMsgList))) = true ->
            RevokeAllCert httpResponse orderId
            = Some (errorString (Message (first (errors errMsgList)))))).
Proof.
  split; intros resp errMsgList Hh Hr Hu He.
  - assert (H1 : RevokeCert httpResponse certId
                 = Some (fmt.Errorf (Message (first (errors errMsgList))))).
    { unfold RevokeCert. rewrite Hh. destruct resp; [contradiction|].
      cbn [String.length Nat.eqb negb]. rewrite Hu.
      destruct (errors errMsgList); [contradiction|reflexivity]. }
    split; [exact H1|].
    intros Hp. rewrite H1. unfold fmt.Errorf. now rewrite Sprintf_noPercent.
  - assert (H2 : RevokeAllCert httpResponse orderId
                 = Some (fmt.Errorf (Message (first (errors errMsgList))))).
    { unfold RevokeAllCert. rewrite Hh. destruct resp; [contradiction|].
      cbn [String.length Nat.eqb negb]. rewrite Hu.
      destruct (errors errMsgList); [contradiction|reflexivity]. }
    split; [exact H2|].
    intros Hp. rewrite H2. unfold fmt.Errorf. now rewrite Sprintf_noPercent.
Qed.

End DigiCertFacts.

(** C2 (the code departs from the claim).  The server answers the request
    with a body whose errors list holds one error.  [IssueCert] and
    [GetOrders] return an error made from it; [GetOrdersList] returns the
    decoded list with a [nil] error, having printed one line; and
    [CancelOrderRequest] and [GetOrderInfo] return a [nil] error. *)
Theorem GetOrdersList_and_CancelOrderRequest_return_nil :
  let body := errorsBody (Code accessDenied) (Message accessDenied) in
  let orders := {| Orders := []; list_ErrorMsg := [accessDenied] |} in
  let order :=
    {| order_ID := 0; order_Cert := zeroCertificate; order_Status := "";
       OrderValidTill := ""; IsRenewed := false; order_ErrorMsg := [accessDenied] |} in
  GetOrdersList (answering body) (unmarshalOrderList := decodesTo orders)
    = (orders, None, ["false"])
  /\ CancelOrderRequest (answering body) 42 = None
  /\ GetOrderInfo (answering body) (unmarshalOrder := decodesTo order) 42
     = (order, None)
  /\ GetOrders (answering body) (unmarshalOrderList := decodesTo orders) "example.com"
     = (zeroOrderListRespBody, Some (errorString "You do not have permission"))
  /\ (forall orderPayLoad,
        snd (IssueCert (answering body) (fun _ => ("{}", None))
               (unmarshalIssueCert :=
                  decodesTo {| OrderID := 0; CertificateID := 0;
                               issue_CertificateChain := []; Domains := [];
                               issue_SubjectCommonName := "";
                               issue_OrderValidTill := ""; DcvRandomValue := "";
                               issue_PrivateKey := ""; CertificateValidTill := "";
                               OrderValidTillDay := 0;
                               issue_ErrorMsg := [accessDenied] |})
               orderPayLoad)
        = Some (errorString
            "error issue certificate, error: access_denied. You do not have permission")).
Proof. cbv zeta. repeat apply conj; reflexivity. Qed.

(** C10 (the code departs from the claim).  The server answers the
    revocation with a body whose errors list holds one error, and the
    message of that error has a percent sign.  [RevokeCert] and
    [RevokeAllCert] return an error, but its text is not the message and
    does not contain it: the message was read as a format. *)
Theorem Revoke_reads_the_message_as_a_format :
  let body := errorsBody (Code quotaUsed) (Message quotaUsed) in
  let decoded := decodesTo {| errors := [quotaUsed] |} in
  RevokeCert (answering body) (unmarshalErrorMsgList := decoded) 42
    = Some (errorString "quota 100%!u(MISSING)sed")
  /\ RevokeAllCert (answering body) (unmarshalErrorMsgList := decoded) 42
     = Some (errorString "quota 100%!u(MISSING)sed")
  /\ Contains "quota 100%!u(MISSING)sed" (Message quotaUsed) = false.
Proof. cbv zeta. repeat apply conj; reflexivity. Qed.

(* ================================================================== *)
(** ** The theorems at work *)

Lemma doubling_positive (n : nat) : 1 <= doubling n.
Proof.
  unfold doubling, Millisecond. apply Z.min_glb; [lia|].
  assert (0 < 2 ^ Z.of_nat n) by (apply Z.pow_pos_nonneg; lia). lia.
Qed.

Lemma deleting_clock failUntil message frame w r w' :
  deleting failUntil message frame w = Returned r w' -> now w <= now w'.
Proof.
  unfold deleting.
  rewrite (deleteDnsRecord_run twoWords (scripted [] failUntil message "")
             (scriptedClient [] failUntil message "") eq_refl).
  intros [= _ <-]. cbn. lia.
Qed.

Lemma deleting_runs failUntil message frame w :
  deleting failUntil message frame w <> OutOfFuel.
Proof.
  unfold deleting.
  now rewrite (deleteDnsRecord_run twoWords (scripted [] failUntil message "")
                 (scriptedClient [] failUntil message "") eq_refl).
Qed.

(** A deletion refused twice as unavailable goes through at the third
    attempt; and a run with a budget of three ticks never lacks fuel. *)
Lemma RetryOperator_termination_conditions_witness :
  beforeAttempt doubling (deleting 2 "ServiceUnavailable") (2000 * Millisecond)
    (now boot) 2 tt boot
  = Some (tt, slept (doubling 1) (deleted 2 "ServiceUnavailable"
                (slept (doubling 0) (deleted 2 "ServiceUnavailable" boot))))
  /\ (2 < 5)%nat
  /\ RetryOperator doubling 5 (deleting 2 "ServiceUnavailable")
       (2000 * Millisecond) tt boot
     = Returned (None, tt)
         (deleted 2 "ServiceUnavailable"
            (slept (doubling 1) (deleted 2 "ServiceUnavailable"
               (slept (doubling 0) (deleted 2 "ServiceUnavailable" boot)))))
  /\ RetryOperator doubling 5 (deleting 9 "ServiceUnavailable") 3 tt boot
     <> OutOfFuel.
Proof.
  split; [reflexivity|]. split; [lia|]. split.
  - apply (proj1 (RetryOperator_termination_conditions doubling 5
                    (deleting 2 "ServiceUnavailable") (2000 * Millisecond) tt boot
                    2 tt _ eq_refl ltac:(lia))).
    reflexivity.
  - apply (proj2 (proj2 (proj2 (proj2
             (RetryOperator_termination_conditions doubling 5
                (deleting 9 "ServiceUnavailable") 3 tt boot
                0 tt boot eq_refl ltac:(lia)))))).
    + exact doubling_positive.
    + intros f v r v'. apply deleting_clock.
    + intros f v. apply deleting_runs.
    + cbn. lia.
Defined.

(** A deletion refused for an invalid parameter ends as permanently failed;
    one refused as unavailable for longer than 200 ms ends as timed out. *)
Lemma RetryOperator_terminal_error_witness :
  (exists err,
      RetryOperator doubling 5 (deleting 9 "InvalidParameter") (200 * Millisecond)
        tt boot
      = Returned (Some err, tt) (deleted 9 "InvalidParameter" boot)
      /\ Error err = "InvalidParameter"
      /\ terminalState err = Some PermanentlyFailed)
  /\ (exists err,
        RetryOperator doubling 5 (deleting 9 "ServiceUnavailable") (200 * Millisecond)
          tt boot
        = Returned (Some err, tt)
            (deleted 9 "ServiceUnavailable"
               (slept (doubling 0) (deleted 9 "ServiceUnavailable" boot)))
        /\ Error err = "ServiceUnavailable"
        /\ terminalState err = Some TimedOut)
  /\ (exists n frame_n w_n e,
        beforeAttempt doubling (deleting 9 "ServiceUnavailable") (200 * Millisecond)
          (now boot) n tt boot = Some (frame_n, w_n) /\
        deleting 9 "ServiceUnavailable" frame_n w_n
        = Returned (Some e, tt)
            (deleted 9 "ServiceUnavailable"
               (slept (doubling 0) (deleted 9 "ServiceUnavailable" boot))) /\
        Error (TimedOutError (errorString "ServiceUnavailable")) = Error e).
Proof.
  split; [|split].
  - apply (proj1 (RetryOperator_terminal_error doubling 5
                    (deleting 9 "InvalidParameter") (200 * Millisecond) tt boot)
             0%nat tt boot (PermanentError (errorString "InvalidParameter")) tt
             (deleted 9 "InvalidParameter" boot) eq_refl ltac:(lia) eq_refl).
    left; reflexivity.
  - apply (proj1 (RetryOperator_terminal_error doubling 5
                    (deleting 9 "ServiceUnavailable") (200 * Millisecond) tt boot)
             1%nat tt (slept (doubling 0) (deleted 9 "ServiceUnavailable" boot))
             (errorString "ServiceUnavailable") tt
             (deleted 9 "ServiceUnavailable"
                (slept (doubling 0) (deleted 9 "ServiceUnavailable" boot)))
             eq_refl ltac:(lia) eq_refl).
    right; reflexivity.
  - destruct (proj1 (proj2 (RetryOperator_terminal_error doubling 5
                    (deleting 9 "ServiceUnavailable") (200 * Millisecond) tt boot))
             (TimedOutError (errorString "ServiceUnavailable")) tt
             (deleted 9 "ServiceUnavailable"
                (slept (doubling 0) (deleted 9 "ServiceUnavailable" boot)))
             eq_refl)
      as (n & frame_n & w_n & e & Hreach & Hrun & Herr & _).
    exists n, frame_n, w_n, e. auto.
Defined.



(** The deletion closure wraps an invalid-parameter error as Permanent and
    leaves an unavailability error as it is. *)
Lemma closures_classify_errors_witness :
  Client (scripted [] 9 "InvalidParameter" "")
  = Some (scriptedClient [] 9 "InvalidParameter" "")
  /\ deleteDnsRecord twoWords (scripted [] 9 "InvalidParameter" "") delete77 tt boot
     = Returned (Some (PermanentError (errorString "InvalidParameter")), tt)
         (deleted 9 "InvalidParameter" boot)
  /\ deleteDnsRecord twoWords (scripted [] 9 "ServiceUnavailable" "") delete77 tt boot
     = Returned (Some (errorString "ServiceUnavailable"), tt)
         (deleted 9 "ServiceUnavailable" boot).
Proof.
  split; [reflexivity|]. split.
  - rewrite (proj1 (closures_classify_errors twoWords
                      (scripted [] 9 "InvalidParameter" "")
                      (scriptedClient [] 9 "InvalidParameter" "") eq_refl boot)).
    reflexivity.
  - rewrite (proj1 (closures_classify_errors twoWords
                      (scripted [] 9 "ServiceUnavailable" "")
                      (scriptedClient [] 9 "ServiceUnavailable" "") eq_refl boot)).
    reflexivity.
Defined.

(** A deletion that fails permanently comes back from [DeleteDnsRecord] as
    an error that quotes the provider's text. *)
Lemma wrappers_return_the_terminal_error_witness :
  RetryOperator doubling 3
    (deleteDnsRecord twoWords (scripted [] 9 "InvalidParameter" "")
       {| delete_RecordId := Some "77" |})
    MAX_ELAPSED_TIME tt boot
  = Returned (Some (PermanentError (errorString "InvalidParameter")), tt)
      (deleted 9 "InvalidParameter" boot)
  /\ DeleteDnsRecord twoWords doubling 3 (scripted [] 9 "InvalidParameter" "") "77" boot
     = Returned
         (Some (errorString
            "Alidns delete dns record. Failed to Delete dns record: InvalidParameter"))
         (deleted 9 "InvalidParameter" boot).
Proof.
  split; [reflexivity|].
  destruct (proj1 (wrappers_return_the_terminal_error twoWords doubling
                     (scripted [] 9 "InvalidParameter" "")
                     3 boot (Some (PermanentError (errorString "InvalidParameter")))
                     (deleted 9 "InvalidParameter" boot))
                  "77" tt eq_refl)
    as (result & Hrun & _ & Herror).
  rewrite Hrun, (Herror _ eq_refl). reflexivity.
Defined.

(** Without a secret key nothing is constructed; with both keys the
    constructor gets the Hong Kong endpoint. *)
Lemma NewClient_checks_keys_witness :
  ("AK" = "" \/ "" = "")
  /\ (exists e,
        NewClient (fun _ => (None, None)) "AK" "" [] = (None, Some e, []))
  /\ "AK" <> "" /\ "SK" <> ""
  /\ NewClient (fun _ => (None, None)) "AK" "SK" []
     = (Some {| Client := None |}, None,
        [{| AccessKeyId := Some "AK"; AccessKeySecret := Some "SK";
            Endpoint := Some "alidns.cn-hongkong.aliyuncs.com" |}]).
Proof.
  split; [right; reflexivity|]. split.
  - apply (proj1 (NewClient_checks_keys (fun _ => (None, None)) "AK" "" [])).
    right; reflexivity.
  - split; [discriminate|]. split; [discriminate|].
    rewrite (proj2 (NewClient_checks_keys (fun _ => (None, None)) "AK" "SK" []));
      [reflexivity | discriminate | discriminate].
Defined.

(** Of the 501 records of the crowded zone, 500 come back. *)
Lemma GetAllDnsRecords_first_page_only_witness :
  GetAllDnsRecords
    (paged (scriptedClient [] 0 "" "9001") (fun _ => crowdedZone))
    "example.com" boot
  = Returned (firstn 500 crowdedZone, None)
      (served (scriptedClient [] 0 "" "9001")
         (CallDescribeDomainRecords (describeRequest "example.com")) boot)
  /\ (List.length (firstn 500 crowdedZone) <= 500)%nat
  /\ nth_error (firstn 500 crowdedZone) 500 = None
  /\ nth_error crowdedZone 500 = Some (Some (txtRecord "example.com" "77" "old-token")).
Proof.
  split; [reflexivity|].
  destruct (proj1 (proj2 (proj2
              (GetAllDnsRecords_first_page_only (scriptedClient [] 0 "" "9001")
                 (fun _ => crowdedZone))))
              "example.com" boot (firstn 500 crowdedZone) None _ eq_refl)
    as [Hlen Hnone].
  split; [exact Hlen|]. split; [apply Hnone; lia | reflexivity].
Defined.

(* ================================================================== *)
(** ** More on the DigiCert API file *)

Section DigiCertOutcomes.

Variable httpResponse : string -> string -> string -> string * option error.
Variable json_Marshal : OrderPayload -> string * option error.
Variable fmt_Errorf : string -> list string -> error.
Context {unmarshalIssueCert : Unmarshaler IssueCertRespBody}
        {unmarshalErrorMsgList : Unmarshaler ErrorMsgList}
        {unmarshalOrderList : Unmarshaler OrderListRespBody}
        {unmarshalDomainList : Unmarshaler DomainListRespBody}
        {unmarshalCertificateChainList : Unmarshaler CertificateChainList}.

(** X1.  [IssueCert] and [ReissueCert] return a [nil] error exactly when
    the payload was encoded, the request went through, the response was
    decoded and its errors list is empty; the body they return is then the
    decoded one.  [IssueCert] posts to the order endpoint of the product,
    [ReissueCert] to the reissue endpoint of the order. *)
Theorem IssueCert_ReissueCert_success orderPayload orderID body :
  (IssueCert httpResponse json_Marshal orderPayload = (body, None) <->
   exists jsonPayload resp,
     json_Marshal orderPayload = (jsonPayload, None) /\
     httpResponse "POST"
       ("https://www.digicert.com/services/v2/order/certificate/"
        ++ CACertID (order_Certificate orderPayload)) jsonPayload = (resp, None) /\
     json_Unmarshal resp zeroIssueCertRespBody = (body, None) /\
     issue_ErrorMsg body = [])
  /\ (ReissueCert httpResponse json_Marshal orderPayload orderID = (body, None) <->
      exists jsonPayload resp,
        json_Marshal orderPayload = (jsonPayload, None) /\
        httpResponse "POST"
          ("https://www.digicert.com/services/v2/order/certificate/"
           ++ itoa orderID ++ "/reissue") jsonPayload = (resp, None) /\
        json_Unmarshal resp zeroIssueCertRespBody = (body, None) /\
        issue_ErrorMsg body = []).
Proof.
  split.
  - unfold IssueCert.
    change (ORDER_ENDPOINT ++ "/" ++ CACertID (order_Certificate orderPayload))
      with ("https://www.digicert.com/services/v2/order/certificate/"
            ++ CACertID (order_Certificate orderPayload)).
    change http_MethodPost with "POST".
    destruct (json_Marshal orderPayload) as [jsonPayload [e|]].
    { split; [discriminate | now intros (j & r & [= _] & _)]. }
    destruct (httpResponse _ _ jsonPayload) as [resp [e|]] eqn:Hh.
    { split; [discriminate|]. intros (j & r & [= <-] & Hr & _). congruence. }
    destruct (json_Unmarshal resp zeroIssueCertRespBody) as [issueCert [e|]] eqn:Hu.
    { split; [discriminate|].
      intros (j & r & [= <-] & Hr & Hd & _). congruence. }
    destruct (issue_ErrorMsg issueCert) as [|m l] eqn:He;
      cbn [List.length Nat.eqb negb].
    + split.
      * intros [= <-]. exists jsonPayload, resp. auto.
      * intros (j & r & [= <-] & Hr & Hd & _). congruence.
    + split; [discriminate|].
      intros (j & r & [= <-] & Hr & Hd & Hempty). congruence.
  - unfold ReissueCert.
    change (ORDER_ENDPOINT ++ "/" ++ itoa orderID ++ "/reissue")
      with ("https://www.digicert.com/services/v2/order/certificate/"
            ++ itoa orderID ++ "/reissue").
    change http_MethodPost with "POST".
    destruct (json_Marshal orderPayload) as [jsonPayload [e|]].
    { split; [discriminate | now intros (j & r & [= _] & _)]. }
    destruct (httpResponse _ _ jsonPayload) as [resp [e|]] eqn:Hh.
    { split; [discriminate|]. intros (j & r & [= <-] & Hr & _). congruence. }
    destruct (json_Unmarshal resp zeroIssueCertRespBody) as [issueCert [e|]] eqn:Hu.
    { split; [discriminate|].
      intros (j & r & [= <-] & Hr & Hd & _). congruence. }
    destruct (issue_ErrorMsg issueCert) as [|m l] eqn:He;
      cbn [List.length Nat.eqb negb].
    + split.
      * intros [= <-]. exists jsonPayload, resp. auto.
      * intros (j & r & [= <-] & Hr & Hd & _). congruence.
    + split; [discriminate|].
      intros (j & r & [= <-] & Hr & Hd & Hempty). congruence.
Qed.

(** X2.  [GetOrders], [GetDomainsList] and [GetCertificateChain] hand out
    nothing of a response they report an error for: with an error comes
    the zero value.  Without an error, the orders of [GetOrders] carry an
    empty errors list and the domains of [GetDomainsList] are not empty. *)
Theorem lookups_return_nothing_with_an_error :
  (forall commonName orders e,
      GetOrders httpResponse commonName = (orders, Some e) ->
      orders = zeroOrderListRespBody)
  /\ (forall commonName orders,
        GetOrders httpResponse commonName = (orders, None) ->
        list_ErrorMsg orders = [])
  /\ (forall listed e,
        GetDomainsList httpResponse = (listed, Some e) -> listed = [])
  /\ (forall listed,
        GetDomainsList httpResponse = (listed, None) -> listed <> [])
  /\ (forall certID chain e,
        GetCertificateChain httpResponse certID = (chain, Some e) -> chain = []).
Proof.
  split; [|split; [|split; [|split]]].
  - intros commonName orders e. unfold GetOrders.
    destruct (httpResponse _ _ _) as [resp [e1|]]; [now intros [= <- _]|].
    destruct (json_Unmarshal _ _) as [orderList [e2|]]; [now intros [= <- _]|].
    destruct (list_ErrorMsg orderList); [discriminate | now intros [= <- _]].
  - intros commonName orders. unfold GetOrders.
    destruct (httpResponse _ _ _) as [resp [e1|]]; [discriminate|].
    destruct (json_Unmarshal _ _) as [orderList [e2|]]; [discriminate|].
    destruct (list_ErrorMsg orderList) eqn:He; [|discriminate].
    now intros [= <-].
  - intros listed e. unfold GetDomainsList.
    destruct (httpResponse _ _ _) as [resp [e1|]]; [now intros [= <- _]|].
    destruct (json_Unmarshal _ _) as [domainList [e2|]]; [now intros [= <- _]|].
    destruct (List.length _ =? 0)%nat; [now intros [= <- _] | discriminate].
  - intros listed. unfold GetDomainsList.
    destruct (httpResponse _ _ _) as [resp [e1|]]; [discriminate|].
    destruct (json_Unmarshal _ _) as [domainList [e2|]]; [discriminate|].
    destruct (domains domainList) as [|d l]; [discriminate|].
    now intros [= <-].
  - intros certID chain e. unfold GetCertificateChain.
    destruct (httpResponse _ _ _) as [resp [e1|]]; [now intros [= <- _]|].
    destruct (json_Unmarshal _ _) as [l [e2|]]; [now intros [= <- _]|].
    discriminate.
Qed.

(** X3.  When its request is answered with an empty body, [RevokeCert]
    returns [nil] without decoding it, and so does [RevokeAllCert] for its
    own request.  [CheckDomainDCV] decodes the body it gets, empty or not:
    when its request is answered with an empty body and the decoder rejects
    the empty text, [CheckDomainDCV] returns the decoder's error. *)
Theorem empty_response_body certId orderId domainID :
  (httpResponse "PUT"
     ("https://www.digicert.com/services/v2/certificate/" ++ itoa certId
      ++ "/revoke")
     (skipApproval tab) = ("", None) ->
   RevokeCert httpResponse certId = None)
  /\ (httpResponse "PUT"
        ("https://www.digicert.com/services/v2/order/certificate/"
         ++ itoa orderId ++ "/revoke")
        (skipApproval (tab ++ tab)) = ("", None) ->
      RevokeAllCert httpResponse orderId = None)
  /\ (forall (e : error) errMsgList,
        httpResponse "PUT"
          ("https://www.digicert.com/services/v2/domain/" ++ itoa domainID
           ++ "/dcv/validate-token") "" = ("", None) ->
        json_Unmarshal "" zeroErrorMsgList = (errMsgList, Some e) ->
        CheckDomainDCV httpResponse fmt_Errorf domainID = Some e).
Proof.
  unfold RevokeCert, RevokeAllCert, CheckDomainDCV.
  change (CERT_ENDPOINT ++ "/" ++ itoa certId ++ "/revoke")
    with ("https://www.digicert.com/services/v2/certificate/" ++ itoa certId
          ++ "/revoke").
  change (ORDER_ENDPOINT ++ "/" ++ itoa orderId ++ "/revoke")
    with ("https://www.digicert.com/services/v2/order/certificate/"
          ++ itoa orderId ++ "/revoke").
  change (DOMAIN_ENDPOINT ++ "/" ++ itoa domainID ++ "/dcv/validate-token")
    with ("https://www.digicert.com/services/v2/domain/" ++ itoa domainID
          ++ "/dcv/validate-token").
  change http_MethodPut with "PUT".
  split; [|split].
  - intros Hcert. now rewrite Hcert.
  - intros Horder. now rewrite Horder.
  - intros e errMsgList Hdomain Hdecode. now rewrite Hdomain, Hdecode.
Qed.

(** X4.  [CheckDomainDCV] returns [nil] exactly when the request went
    through, the response was decoded and its errors list is empty. *)
Theorem CheckDomainDCV_nil_iff domainID :
  CheckDomainDCV httpResponse fmt_Errorf domainID = None <->
  exists resp errMsgList,
    httpResponse "PUT"
      ("https://www.digicert.com/services/v2/domain/" ++ itoa domainID
       ++ "/dcv/validate-token") "" = (resp, None)
    /\ json_Unmarshal resp zeroErrorMsgList = (errMsgList, None)
    /\ errors errMsgList = [].
Proof.
  unfold CheckDomainDCV.
  change (DOMAIN_ENDPOINT ++ "/" ++ itoa domainID ++ "/dcv/validate-token")
    with ("https://www.digicert.com/services/v2/domain/" ++ itoa domainID
          ++ "/dcv/validate-token").
  change http_MethodPut with "PUT".
  destruct (httpResponse _ _ _) as [resp [e|]].
  { split; [discriminate | now intros (r & l & [= _] & _)]. }
  destruct (json_Unmarshal resp zeroErrorMsgList) as [errMsgList [e|]] eqn:Hu.
  { split; [discriminate|]. intros (r & l & [= <-] & Hl & _). congruence. }
  destruct (errors errMsgList) as [|m l] eqn:He; cbn [List.length Nat.eqb negb].
  - split; eauto.
  - split; [discriminate|]. intros (r & l' & [= <-] & Hl & He'). congruence.
Qed.

End DigiCertOutcomes.

(* ================================================================== *)
(** ** More on dnsrr.go *)

Lemma served_now_le (client : AlidnsClient) (call : Call) (w : World) :
  now w <= now (served client call w).
Proof. cbn. lia. Qed.

Section RetryAtOnce.

Variable nextBackOff : nat -> Duration.
Context {Frame : Type}.

Lemma RetryOperator_success_at_once fuel
    (operation : Frame -> Go (option error * Frame)) maxElapsed frame w frame' w' :
  operation frame w = Returned (None, frame') w' ->
  RetryOperator nextBackOff (S fuel) operation maxElapsed frame w
  = Returned (None, frame') w'.
Proof. intros H. now rewrite RetryOperator_retry, retry_step, H. Qed.

Lemma RetryOperator_permanent_at_once fuel
    (operation : Frame -> Go (option error * Frame)) maxElapsed frame w e frame' w' :
  operation frame w = Returned (Some e, frame') w' ->
  isPermanentError e = true ->
  RetryOperator nextBackOff (S fuel) operation maxElapsed frame w
  = Returned (Some e, frame') w'.
Proof. intros H Hp. now rewrite RetryOperator_retry, retry_step, H, Hp. Qed.

End RetryAtOnce.

Section DnsrrMore.

Variable IsPermanentCommonError : string -> bool.
Variable nextBackOff : nat -> Duration.
Variable a : Alidns.
Variable client : AlidnsClient.
Hypothesis receiver : Client a = Some client.

(** X5.  When the listing fails, [CreateAliDNSRecord] returns the error of
    the listing as it is, with an empty id, having sent the listing request
    and nothing else; the retry operator is not entered, so this holds with
    any fuel. *)
Theorem CreateAliDNSRecord_listing_error fuel commonName token w response e :
  DescribeDomainRecords client w (describeRequest commonName) = (response, Some e) ->
  CreateAliDNSRecord IsPermanentCommonError nextBackOff fuel a commonName token w
  = Returned ("", Some e)
      (served client (CallDescribeDomainRecords (describeRequest commonName)) w).
Proof.
  intros Hlist. unfold CreateAliDNSRecord, bind.
  rewrite (GetAllDnsRecords_run a client receiver). cbn zeta.
  now rewrite Hlist.
Qed.

(** X6.  The search loop of [CreateAliDNSRecord] reads of a record only
    what its condition needs: the domain name, then the host record when
    the domain name is [commonName], then the type when the host record is
    the root.  On a list whose records have those pointers set it answers
    the first root TXT record of [commonName], or none, and changes
    nothing; records of other domains may lack a host record and a type. *)
Theorem findDnsRecord_reads_what_it_needs commonName records w :
  Forall (readable commonName) records ->
  findDnsRecord commonName records w
  = Returned (match find (verification commonName) records with
              | Some p => p
              | None => None
              end) w.
Proof. apply findDnsRecord_on_readable. Qed.

(** X7.  Let the listing succeed with a list that holds, before any root
    TXT record of [commonName], an entry that is [nil] or lacks a pointer
    the search loop reads.  Then the search loop panics with a nil
    dereference in the world right after the listing, whose requests are
    those sent before the call and the listing; and [CreateAliDNSRecord]
    panics with it, with any fuel, none included. *)
Theorem CreateAliDNSRecord_nil_pointer commonName token w w1 before p after :
  GetAllDnsRecords a commonName w = Returned ((before ++ p :: after)%list, None) w1 ->
  Forall (readable commonName) before ->
  find (verification commonName) before = None ->
  ~ readable commonName p ->
  calls w1 = (calls w ++ [CallDescribeDomainRecords (describeRequest commonName)])%list
  /\ findDnsRecord commonName (before ++ p :: after) w1 = Panicked nilDereference
  /\ (forall fuel,
        CreateAliDNSRecord IsPermanentCommonError nextBackOff fuel a
          commonName token w
        = Panicked nilDereference).
Proof.
  intros Hget Hbefore Hnone Hp.
  assert (Hloop : findDnsRecord commonName (before ++ p :: after)%list w1
                  = Panicked nilDereference).
  { clear Hget. induction Hbefore as [|q before Hq _ IH].
    - cbn [app findDnsRecord]. unfold bind at 1.
      destruct p as [r|]; [|reflexivity]. cbn [deref ret].
      unfold bind. now rewrite (isVerificationRecord_unreadable _ _ _ Hp).
    - destruct q as [r|]; [|contradiction].
      cbn [find] in Hnone.
      destruct (verification commonName (Some r)) eqn:Hv; [discriminate|].
      cbn [app findDnsRecord]. unfold bind at 1. cbn [deref ret].
      unfold bind at 1. rewrite (isVerificationRecord_readable _ _ _ Hq), Hv.
      now apply IH. }
  split; [exact (GetAllDnsRecords_calls a client receiver _ _ _ _ Hget)|].
  split; [exact Hloop|].
  intros fuel. unfold CreateAliDNSRecord, bind. rewrite Hget.
  replace (List.length (before ++ p :: after) =? 0)%nat with false
    by (rewrite length_app; cbn; symmetry; apply Nat.eqb_neq; lia).
  now rewrite Hloop.
Qed.

(** One attempt of [deleteDnsRecord]. *)
Lemma deleteDnsRecord_attempt id frame v r frame' v' :
  deleteDnsRecord IsPermanentCommonError a {| delete_RecordId := Some id |} frame v
    = Returned (r, frame') v' ->
  v' = served client (CallDeleteDomainRecord {| delete_RecordId := Some id |}) v
  /\ match DeleteDomainRecord client v {| delete_RecordId := Some id |} with
     | Some e => exists e', r = Some e' /\ Error e' = Error e
     | None => r = None
     end.
Proof.
  rewrite (deleteDnsRecord_run IsPermanentCommonError a client receiver).
  intros [= <- _ <-]. split; [reflexivity|].
  destruct (DeleteDomainRecord client v _) as [e|]; [|reflexivity].
  eexists. split; [reflexivity|].
  now destruct (IsPermanentCommonError (Error e)).
Qed.

(** X8.  Whenever [DeleteDnsRecord] returns, every request it sent is the
    deletion of the record with the given id, and it sent at least one;
    its result is decided by the provider's answer to the last of them:
    [nil] when the provider accepted it, and otherwise an error that quotes
    the provider's text.  With back-off intervals of at least one tick,
    fuel above [MAX_ELAPSED_TIME] is enough for the call to return. *)
Theorem DeleteDnsRecord_requests fuel id w :
  (forall result w',
      DeleteDnsRecord IsPermanentCommonError nextBackOff fuel a id w
        = Returned result w' ->
      (exists k, (1 <= k)%nat /\
         calls w' =
         (calls w ++
          repeat (CallDeleteDomainRecord {| delete_RecordId := Some id |}) k)%list)
      /\ exists v,
          w' = served client
                 (CallDeleteDomainRecord {| delete_RecordId := Some id |}) v
          /\ match DeleteDomainRecord client v {| delete_RecordId := Some id |} with
             | Some e =>
                 result = Some (errorString
                   ("Alidns delete dns record. Failed to Delete dns record: "
                    ++ Error e))
             | None => result = None
             end)
  /\ ((forall k, 1 <= nextBackOff k) ->
      (Z.to_nat MAX_ELAPSED_TIME + 2 <= fuel)%nat ->
      exists result w',
        DeleteDnsRecord IsPermanentCommonError nextBackOff fuel a id w
          = Returned result w').
Proof.
  unfold DeleteDnsRecord, bind, tea_String. split.
  - intros result w'.
    destruct (RetryOperator _ _ _ _ _ _) as [[r u] w2| |] eqn:Hretry;
      try discriminate.
    rewrite RetryOperator_retry in Hretry.
    intros Hresult.
    assert (w2 = w') as -> by (destruct r; now injection Hresult).
    split.
    + eapply retry_calls; [|exact Hretry].
      intros frame v r0 v' Hrun. destruct r0 as [r0 u0].
      apply deleteDnsRecord_attempt in Hrun as [-> _]. reflexivity.
    + destruct r as [err|].
      * destruct (retry_error_inv nextBackOff fuel _ _ _ 0%nat _ w _ _ _ _ _
                    eq_refl Hretry)
          as (n & frame_n & w_n & e & _ & Hrun & Hend).
        apply deleteDnsRecord_attempt in Hrun as [-> Hanswer].
        exists w_n. split; [reflexivity|].
        destruct (DeleteDomainRecord client w_n _) as [e0|];
          [|discriminate].
        destruct Hanswer as (e' & [= <-] & Htext).
        injection Hresult as <-.
        destruct Hend as [[_ ->] | (_ & _ & ->)]; cbn [Error]; now rewrite Htext.
      * destruct (retry_success_inv nextBackOff fuel _ _ _ 0%nat _ w _ _ _ _
                    eq_refl Hretry)
          as (n & frame_n & w_n & _ & Hrun).
        apply deleteDnsRecord_attempt in Hrun as [-> Hanswer].
        exists w_n. split; [reflexivity|].
        destruct (DeleteDomainRecord client w_n _) as [e0|].
        -- now destruct Hanswer as (e' & [= ] & _).
        -- now injection Hresult as <-.
  - intros Hback Hfuel.
    destruct (RetryOperator_returns nextBackOff fuel
                (deleteDnsRecord IsPermanentCommonError a
                   {| delete_RecordId := Some id |})
                MAX_ELAPSED_TIME tt w)
      as ([[e|] u] & w' & ->); eauto.
    + intros frame v [r u] v' Hrun.
      apply deleteDnsRecord_attempt in Hrun as [-> _]. apply served_now_le.
    + intros frame v.
      rewrite (deleteDnsRecord_run IsPermanentCommonError a client receiver).
      eauto.
Qed.

(** X9.  When the provider accepts the first deletion, [DeleteDnsRecord]
    returns [nil] after that one request, without sleeping.  When the
    provider refuses it with an error the classifier calls permanent,
    [DeleteDnsRecord] returns an error that quotes it, again after that one
    request and without sleeping: a permanent error is not retried. *)
Theorem DeleteDnsRecord_single_attempt fuel id w :
  (DeleteDomainRecord client w {| delete_RecordId := Some id |} = None ->
   DeleteDnsRecord IsPermanentCommonError nextBackOff (S fuel) a id w
   = Returned None
       (served client (CallDeleteDomainRecord {| delete_RecordId := Some id |}) w))
  /\ (forall e,
        DeleteDomainRecord client w {| delete_RecordId := Some id |} = Some e ->
        IsPermanentCommonError (Error e) = true ->
        DeleteDnsRecord IsPermanentCommonError nextBackOff (S fuel) a id w
        = Returned
            (Some (errorString
               ("Alidns delete dns record. Failed to Delete dns record: "
                ++ Error e)))
            (served client
               (CallDeleteDomainRecord {| delete_RecordId := Some id |}) w)).
Proof.
  unfold DeleteDnsRecord, bind, tea_String. split.
  - intros Hanswer.
    rewrite (RetryOperator_success_at_once nextBackOff fuel _ _ tt w tt
               (served client
                  (CallDeleteDomainRecord {| delete_RecordId := Some id |}) w));
      [reflexivity|].
    rewrite (deleteDnsRecord_run IsPermanentCommonError a client receiver).
    now rewrite Hanswer.
  - intros e Hanswer Hperm.
    rewrite (RetryOperator_permanent_at_once nextBackOff fuel _ _ tt w
               (PermanentError e) tt
               (served client
                  (CallDeleteDomainRecord {| delete_RecordId := Some id |}) w));
      [reflexivity | | reflexivity].
    rewrite (deleteDnsRecord_run IsPermanentCommonError a client receiver).
    now rewrite Hanswer, Hperm.
Qed.

(** When the provider accepts the first update, resp. the first addition,
    [CreateAliDNSRecord] is done after it. *)
Lemma CreateAliDNSRecord_update_at_once
    fuel commonName token w records w1 found id :
  GetAllDnsRecords a commonName w = Returned (records, None) w1 ->
  Forall (readable commonName) records ->
  find (verification commonName) records = Some (Some found) ->
  RecordId found = Some id ->
  (UpdateDomainRecord client w1 (updateRequest id token) = None ->
   CreateAliDNSRecord IsPermanentCommonError nextBackOff (S fuel) a
     commonName token w
   = Returned (id, None)
       (served client (CallUpdateDomainRecord (updateRequest id token)) w1))
  /\ (forall e,
        UpdateDomainRecord client w1 (updateRequest id token) = Some e ->
        IsPermanentCommonError (Error e) = true ->
        CreateAliDNSRecord IsPermanentCommonError nextBackOff (S fuel) a
          commonName token w
        = Returned
            ("", Some (errorString
               ("Alidns update dns record. Failed to Update verification TXT record: "
                ++ Error e)))
            (served client
                  (CallUpdateDomainRecord (updateRequest id token)) w1)).
Proof.
  intros Hget Hreadable Hfind Hid.
  assert (Hfields : RR found = Some "@" /\ Type_ found = Some "TXT").
  { apply find_some in Hfind as [_ Hv].
    now apply verification_fields in Hv as (_ & ? & ?). }
  destruct Hfields as [Hrr Htype].
  assert (Hcreate :
    CreateAliDNSRecord IsPermanentCommonError nextBackOff (S fuel) a
      commonName token w =
    match RetryOperator nextBackOff (S fuel)
            (updateRecord IsPermanentCommonError a found token)
            MAX_ELAPSED_TIME {| recordId := ""; err := None |} w1 with
    | Returned (None, _) w' => Returned (id, None) w'
    | Returned (Some e, _) w' =>
        Returned ("", Some (errorString
          ("Alidns update dns record. Failed to Update verification TXT record: "
           ++ Error e))) w'
    | Panicked reason => Panicked reason
    | OutOfFuel => OutOfFuel
    end).
  { unfold CreateAliDNSRecord, bind. rewrite Hget.
    destruct records as [|p records]; [discriminate|].
    cbn [List.length Nat.eqb].
    rewrite (findDnsRecord_on_readable _ _ _ Hreadable), Hfind.
    destruct (RetryOperator _ _ _ _ _ _) as [[[e|] frame'] w'| |];
      try reflexivity.
    now rewrite Hid. }
  rewrite Hcreate. split.
  - intros Hanswer.
    rewrite (RetryOperator_success_at_once nextBackOff fuel _ _ _ w1
               {| recordId := ""; err := None |}
               (served client
                  (CallUpdateDomainRecord (updateRequest id token)) w1));
      [reflexivity|].
    rewrite (updateRecord_run IsPermanentCommonError a client receiver
               _ _ _ _ _ _ _ Hid Htype Hrr).
    cbn zeta. fold (updateRequest id token). now rewrite Hanswer.
  - intros e Hanswer Hperm.
    rewrite (RetryOperator_permanent_at_once nextBackOff fuel _ _ _ w1
               (PermanentError e) {| recordId := ""; err := None |}
               (served client
                     (CallUpdateDomainRecord (updateRequest id token)) w1));
      [reflexivity | | reflexivity].
    rewrite (updateRecord_run IsPermanentCommonError a client receiver
               _ _ _ _ _ _ _ Hid Htype Hrr).
    cbn zeta. fold (updateRequest id token). now rewrite Hanswer, Hperm.
Qed.

Lemma CreateAliDNSRecord_add_at_once fuel commonName token w records w1 :
  GetAllDnsRecords a commonName w = Returned (records, None) w1 ->
  Forall (readable commonName) records ->
  records <> [] ->
  find (verification commonName) records = None ->
  (forall id,
      AddDomainRecord client w1 (addRequest commonName token) = added id ->
      CreateAliDNSRecord IsPermanentCommonError nextBackOff (S fuel) a
        commonName token w
      = Returned (id, None)
          (served client (CallAddDomainRecord (addRequest commonName token)) w1))
  /\ (forall response e,
        AddDomainRecord client w1 (addRequest commonName token)
          = (response, Some e) ->
        IsPermanentCommonError (Error e) = true ->
        CreateAliDNSRecord IsPermanentCommonError nextBackOff (S fuel) a
          commonName token w
        = Returned
            ("", Some (errorString
               ("Alidns create dns record. Failed to create verification TXT record: "
                ++ Error e)))
            (served client
                  (CallAddDomainRecord (addRequest commonName token)) w1)).
Proof.
  intros Hget Hreadable Hne Hfind.
  assert (Hcreate :
    CreateAliDNSRecord IsPermanentCommonError nextBackOff (S fuel) a
      commonName token w =
    match RetryOperator nextBackOff (S fuel)
            (addRecord IsPermanentCommonError a commonName token)
            MAX_ELAPSED_TIME {| recordId := ""; err := None |} w1 with
    | Returned (None, frame') w' => Returned (recordId frame', None) w'
    | Returned (Some e, _) w' =>
        Returned ("", Some (errorString
          ("Alidns create dns record. Failed to create verification TXT record: "
           ++ Error e))) w'
    | Panicked reason => Panicked reason
    | OutOfFuel => OutOfFuel
    end).
  { unfold CreateAliDNSRecord, bind. rewrite Hget.
    destruct records as [|p records]; [contradiction|].
    cbn [List.length Nat.eqb].
    rewrite (findDnsRecord_on_readable _ _ _ Hreadable), Hfind.
    destruct (RetryOperator _ _ _ _ _ _) as [[[e|] frame'] w'| |]; reflexivity. }
  rewrite Hcreate. split.
  - intros id Hanswer.
    rewrite (RetryOperator_success_at_once nextBackOff fuel _ _ _ w1
               {| recordId := id; err := None |}
               (served client
                  (CallAddDomainRecord (addRequest commonName token)) w1));
      [reflexivity|].
    rewrite (addRecord_run IsPermanentCommonError a client receiver).
    cbn zeta. now rewrite Hanswer.
  - intros response e Hanswer Hperm.
    rewrite (RetryOperator_permanent_at_once nextBackOff fuel _ _ _ w1
               (PermanentError e) {| recordId := ""; err := Some e |}
               (served client
                     (CallAddDomainRecord (addRequest commonName token)) w1));
      [reflexivity | | reflexivity].
    rewrite (addRecord_run IsPermanentCommonError a client receiver).
    cbn zeta. now rewrite Hanswer, Hperm.
Qed.

(** X10.  Let the listing succeed with records the search loop can read.
    When the provider accepts the first update (of the first root TXT
    record of [commonName]), resp. the first addition (when there is none),
    [CreateAliDNSRecord] returns the record's id after the listing and that
    one request, without sleeping.  When the provider refuses it with an
    error the classifier calls permanent, [CreateAliDNSRecord] returns an
    empty id and an error that quotes it, in the world right after the
    same two requests: a permanent error is not retried, nothing is slept,
    and nothing is written to the debug log, as the closures hand
    [tflog.Debug] a context without a logger. *)
Theorem CreateAliDNSRecord_single_attempt fuel commonName token w records w1 :
  GetAllDnsRecords a commonName w = Returned (records, None) w1 ->
  Forall (readable commonName) records ->
  (forall found id,
      find (verification commonName) records = Some (Some found) ->
      RecordId found = Some id ->
      (UpdateDomainRecord client w1 (updateRequest id token) = None ->
       CreateAliDNSRecord IsPermanentCommonError nextBackOff (S fuel) a
         commonName token w
       = Returned (id, None)
           (served client (CallUpdateDomainRecord (updateRequest id token)) w1))
      /\ (forall e,
            UpdateDomainRecord client w1 (updateRequest id token) = Some e ->
            IsPermanentCommonError (Error e) = true ->
            CreateAliDNSRecord IsPermanentCommonError nextBackOff (S fuel) a
              commonName token w
            = Returned
                ("", Some (errorString
                   ("Alidns update dns record. Failed to Update verification TXT record: "
                    ++ Error e)))
                (served client
                      (CallUpdateDomainRecord (updateRequest id token)) w1)))
  /\ (records <> [] ->
      find (verification commonName) records = None ->
      (forall id,
          AddDomainRecord client w1 (addRequest commonName token) = added id ->
          CreateAliDNSRecord IsPermanentCommonError nextBackOff (S fuel) a
            commonName token w
          = Returned (id, None)
              (served client
                 (CallAddDomainRecord (addRequest commonName token)) w1))
      /\ (forall response e,
            AddDomainRecord client w1 (addRequest commonName token)
              = (response, Some e) ->
            IsPermanentCommonError (Error e) = true ->
            CreateAliDNSRecord IsPermanentCommonError nextBackOff (S fuel) a
              commonName token w
            = Returned
                ("", Some (errorString
                   ("Alidns create dns record. Failed to create verification TXT record: "
                    ++ Error e)))
                (served client
                      (CallAddDomainRecord (addRequest commonName token)) w1))).
Proof.
  intros Hget Hreadable. split.
  - intros found id Hfind Hid.
    exact (CreateAliDNSRecord_update_at_once fuel commonName token w records
             w1 found id Hget Hreadable Hfind Hid).
  - intros Hne Hfind.
    exact (CreateAliDNSRecord_add_at_once fuel commonName token w records w1
             Hget Hreadable Hne Hfind).
Qed.

End DnsrrMore.

(* ================================================================== *)
(** ** Against a provider that keeps its records *)

Lemma find_map_Some commonName (records : list DomainRecord) :
  find (verification commonName) (map Some records)
  = option_map Some (find (isRootTXT commonName) records).
Proof.
  induction records as [|r records IH]; [reflexivity|].
  cbn [map find]. unfold isRootTXT at 1.
  destruct (verification commonName (Some r)); [reflexivity|exact IH].
Qed.

Lemma usable_readable commonName (records : list DomainRecord) :
  Forall (usable commonName) records ->
  Forall (readable commonName) (map Some records).
Proof.
  induction 1 as [|r records [Hr _] _ IH]; constructor; [exact Hr | exact IH].
Qed.

(** A record with every pointer set is usable. *)
Lemma populated_usable commonName (r : DomainRecord) :
  populated (Some r) -> usable commonName r.
Proof.
  intros (Hd & Hrr & Ht & Hid). split; [|intros _; exact Hid].
  unfold readable.
  destruct (DomainName r) as [d|]; [|congruence].
  destruct (d =? commonName)%string; [|exact I].
  destruct (RR r) as [rr|]; [|congruence].
  destruct (rr =? "@")%string; [exact Ht | exact I].
Qed.

Lemma filter_map_same {A} (p : A -> bool) (g : A -> A) (l : list A) :
  (forall x, p (g x) = p x) -> filter p (map g l) = map g (filter p l).
Proof.
  intros Hsame. induction l as [|x l IH]; [reflexivity|].
  cbn [map filter]. rewrite Hsame, IH. now destruct (p x).
Qed.

Lemma find_app_last {A} (p : A -> bool) (l : list A) (x : A) :
  find p l = None -> p x = true -> find p (l ++ [x]) = Some x.
Proof.
  intros Hnone Hx. induction l as [|y l IH]; cbn [app find] in *.
  - now rewrite Hx.
  - destruct (p y); [discriminate | now apply IH].
Qed.

Lemma rewritten_DomainName request r :
  DomainName (rewritten request r) = DomainName r.
Proof. unfold rewritten. now destruct (sameId _ _). Qed.

Lemma rewritten_RecordId request r :
  RecordId (rewritten request r) = RecordId r.
Proof. unfold rewritten. now destruct (sameId _ _). Qed.

Lemma rewritten_usable commonName id token r :
  usable commonName r -> usable commonName (rewritten (updateRequest id token) r).
Proof.
  unfold rewritten. destruct (sameId _ _) eqn:Hsame; [|trivial].
  cbn [updateRequest update_RecordId] in Hsame.
  assert (Hid : RecordId r = Some id).
  { destruct (RecordId r) as [x|]; [|discriminate]. cbn in Hsame.
    now apply String.eqb_eq in Hsame as ->. }
  intros [Hread _]. split; [|cbn; congruence].
  unfold readable in *. cbn.
  destruct (DomainName r) as [d|]; [|contradiction].
  destruct (d =? commonName)%string; [discriminate | exact I].
Qed.

Lemma usable_txtRecord commonName id value :
  usable commonName (txtRecord commonName id value).
Proof.
  split; [|cbn; discriminate].
  unfold readable, txtRecord. cbn. rewrite String.eqb_refl. discriminate.
Qed.

Lemma rewritten_found commonName id token r :
  DomainName r = Some commonName -> RecordId r = Some id ->
  rewritten (updateRequest id token) r = txtRecord commonName id token.
Proof.
  intros Hd Hid. unfold rewritten, updateRequest, txtRecord.
  cbn [update_RecordId update_RR update_Type update_Value].
  rewrite Hid, Hd. cbn [sameId]. now rewrite String.eqb_refl.
Qed.

Lemma isRootTXT_txtRecord commonName id value :
  isRootTXT commonName (txtRecord commonName id value) = true.
Proof.
  unfold isRootTXT, verification, txtRecord, holds. cbn.
  now rewrite String.eqb_refl.
Qed.

Lemma sameId_eq (x : option string) (id : string) :
  sameId x (Some id) = true <-> x = Some id.
Proof.
  destruct x as [s|]; cbn; [|split; discriminate].
  rewrite String.eqb_eq. split; congruence.
Qed.

(** After the record with id [id] was rewritten, the first root TXT record
    of the domain is a record with that id. *)
Lemma find_rewritten commonName id token (records : list DomainRecord) :
  Forall (fun r => DomainName r = Some commonName) records ->
  forall found,
    find (isRootTXT commonName) records = Some found ->
    RecordId found = Some id ->
    exists r,
      find (isRootTXT commonName) (map (rewritten (updateRequest id token)) records)
        = Some r
      /\ RecordId r = Some id.
Proof.
  induction 1 as [|h records Hh _ IH]; intros found Hfind Hid; [discriminate|].
  cbn [map find] in *.
  assert (Hnew : forall r, DomainName r = Some commonName -> RecordId r = Some id ->
                   isRootTXT commonName (rewritten (updateRequest id token) r) = true).
  { intros r Hd Hr. rewrite (rewritten_found commonName id token r Hd Hr).
    apply isRootTXT_txtRecord. }
  destruct (sameId (RecordId h) (Some id)) eqn:Hsame.
  - apply sameId_eq in Hsame. rewrite (Hnew h Hh Hsame).
    eexists. split; [reflexivity|]. now rewrite rewritten_RecordId.
  - assert (Hkeep : rewritten (updateRequest id token) h = h)
      by (unfold rewritten; cbn [updateRequest update_RecordId]; now rewrite Hsame).
    rewrite Hkeep.
    destruct (isRootTXT commonName h).
    + injection Hfind as <-. apply sameId_eq in Hid. congruence.
    + now apply (IH found).
Qed.

Section KeeperFacts.

Variable newId : list DomainRecord -> string.
Variable zone : list DomainRecord.
Variable delay : N.
Variable IsPermanentCommonError : string -> bool.
Variable nextBackOff : nat -> Duration.

Lemma held_served call w :
  held newId zone (served (keeper newId zone delay) call w)
  = kept newId (held newId zone w) call.
Proof. unfold held, zoneAfter. cbn [served calls]. apply fold_left_app. Qed.

Lemma GetAllDnsRecords_keeper commonName w :
  GetAllDnsRecords (keeping newId zone delay) commonName w =
  Returned (map Some (firstn 500 (recordsOf commonName (held newId zone w))), None)
    (served (keeper newId zone delay)
       (CallDescribeDomainRecords (describeRequest commonName)) w).
Proof.
  rewrite (GetAllDnsRecords_run (keeping newId zone delay)
             (keeper newId zone delay) eq_refl).
  cbn zeta.
  cbn [keeper DescribeDomainRecords describeRequest describe_DomainName described].
  fold (describeRequest commonName). rewrite pageOf_describeRequest.
  now rewrite firstn_map.
Qed.

Lemma held_listing commonName w :
  held newId zone
    (served (keeper newId zone delay)
       (CallDescribeDomainRecords (describeRequest commonName)) w)
  = held newId zone w.
Proof. now rewrite held_served. Qed.

Lemma listed_In commonName w r :
  In r (firstn 500 (recordsOf commonName (held newId zone w))) ->
  In r (held newId zone w) /\ DomainName r = Some commonName.
Proof.
  intros Hin.
  assert (Hin' : In r (recordsOf commonName (held newId zone w))).
  { rewrite <- (firstn_skipn 500 (recordsOf commonName (held newId zone w))).
    apply in_or_app. now left. }
  unfold recordsOf in Hin'. apply filter_In in Hin' as [Hheld Hdomain].
  split; [exact Hheld|]. unfold holds in Hdomain.
  destruct (DomainName r) as [d|]; [|discriminate].
  now apply String.eqb_eq in Hdomain as ->.
Qed.

(** What [CreateAliDNSRecord] does against the provider, by the records
    listed. *)
Lemma keeper_create_empty fuel commonName token w :
  recordsOf commonName (held newId zone w) = [] ->
  CreateAliDNSRecord IsPermanentCommonError nextBackOff fuel
    (keeping newId zone delay) commonName token w
  = Returned ("", Some (errorString "domain name not found in Alidns"))
      (served (keeper newId zone delay)
         (CallDescribeDomainRecords (describeRequest commonName)) w).
Proof.
  intros Hempty. unfold CreateAliDNSRecord, bind.
  rewrite GetAllDnsRecords_keeper, Hempty. reflexivity.
Qed.

Lemma keeper_create_update fuel commonName token w found :
  Forall (usable commonName)
    (firstn 500 (recordsOf commonName (held newId zone w))) ->
  find (isRootTXT commonName)
    (firstn 500 (recordsOf commonName (held newId zone w))) = Some found ->
  exists id,
    RecordId found = Some id
    /\ CreateAliDNSRecord IsPermanentCommonError nextBackOff (S fuel)
         (keeping newId zone delay) commonName token w
       = Returned (id, None)
           (served (keeper newId zone delay)
              (CallUpdateDomainRecord (updateRequest id token))
              (served (keeper newId zone delay)
                 (CallDescribeDomainRecords (describeRequest commonName)) w)).
Proof.
  intros Hlisted Hfind.
  assert (Hin : In found (firstn 500 (recordsOf commonName (held newId zone w)))
                /\ isRootTXT commonName found = true)
    by (now apply find_some in Hfind).
  destruct Hin as [Hin Hroot].
  assert (Hfound : usable commonName found)
    by (rewrite Forall_forall in Hlisted; now apply Hlisted).
  destruct (RecordId found) as [id|] eqn:Hid;
    [|now destruct (proj2 Hfound Hroot)].
  exists id. split; [reflexivity|].
  apply (proj1 (CreateAliDNSRecord_update_at_once IsPermanentCommonError nextBackOff
                  (keeping newId zone delay) (keeper newId zone delay) eq_refl
                  fuel commonName token w _ _ found id
                  (GetAllDnsRecords_keeper commonName w)
                  (usable_readable commonName _ Hlisted)
                  ltac:(rewrite find_map_Some, Hfind; reflexivity) Hid)).
  reflexivity.
Qed.

Lemma keeper_create_add fuel commonName token w :
  Forall (usable commonName)
    (firstn 500 (recordsOf commonName (held newId zone w))) ->
  recordsOf commonName (held newId zone w) <> [] ->
  find (isRootTXT commonName)
    (firstn 500 (recordsOf commonName (held newId zone w))) = None ->
  CreateAliDNSRecord IsPermanentCommonError nextBackOff (S fuel)
    (keeping newId zone delay) commonName token w
  = Returned (newId (held newId zone w), None)
      (served (keeper newId zone delay)
         (CallAddDomainRecord (addRequest commonName token))
         (served (keeper newId zone delay)
            (CallDescribeDomainRecords (describeRequest commonName)) w)).
Proof.
  intros Hlisted Hne Hfind.
  apply (proj1 (CreateAliDNSRecord_add_at_once IsPermanentCommonError nextBackOff
                  (keeping newId zone delay) (keeper newId zone delay) eq_refl
                  fuel commonName token w _ _
                  (GetAllDnsRecords_keeper commonName w)
                  (usable_readable commonName _ Hlisted)
                  ltac:(destruct (recordsOf commonName (held newId zone w));
                        [contradiction | discriminate])
                  ltac:(rewrite find_map_Some, Hfind; reflexivity))).
  cbn [keeper AddDomainRecord]. fold (held newId zone
    (served (keeper newId zone delay)
       (CallDescribeDomainRecords (describeRequest commonName)) w)).
  now rewrite held_listing.
Qed.

Lemma recordsOf_rewritten commonName request records :
  recordsOf commonName (map (rewritten request) records)
  = map (rewritten request) (recordsOf commonName records).
Proof.
  unfold recordsOf. apply filter_map_same.
  intros r. now rewrite rewritten_DomainName.
Qed.

Lemma recordsOf_DomainName commonName records :
  Forall (fun r => DomainName r = Some commonName) (recordsOf commonName records).
Proof.
  apply Forall_forall. intros r Hin. unfold recordsOf in Hin.
  apply filter_In in Hin as [_ Hd]. unfold holds in Hd.
  destruct (DomainName r) as [d|]; [|discriminate].
  now apply String.eqb_eq in Hd as ->.
Qed.

(** X11.  Against a provider that keeps its records and accepts every
    request, let the records it lists for [commonName] (the first 500 of
    the domain) have the pointers set that [CreateAliDNSRecord] reads
    ([usable]).  On a domain that has records, [CreateAliDNSRecord] returns
    an id with a [nil] error after two requests and no sleep, and the
    provider then holds the root TXT record of [commonName] with that id
    and the value [token].  On a domain without any record it returns the
    domain-not-found error and the provider holds what it held. *)
Theorem CreateAliDNSRecord_then_held fuel commonName token w :
  Forall (usable commonName)
    (firstn 500 (recordsOf commonName (held newId zone w))) ->
  (recordsOf commonName (held newId zone w) = [] ->
   exists w',
     CreateAliDNSRecord IsPermanentCommonError nextBackOff fuel
       (keeping newId zone delay) commonName token w
     = Returned ("", Some (errorString "domain name not found in Alidns")) w'
     /\ held newId zone w' = held newId zone w)
  /\ (recordsOf commonName (held newId zone w) <> [] ->
      exists id w',
        CreateAliDNSRecord IsPermanentCommonError nextBackOff (S fuel)
          (keeping newId zone delay) commonName token w
        = Returned (id, None) w'
        /\ In (txtRecord commonName id token) (held newId zone w')
        /\ List.length (calls w') = (List.length (calls w) + 2)%nat
        /\ now w' = now w + 2 * Z.of_N delay).
Proof.
  intros Hpop. split.
  - intros Hempty. eexists. split; [now apply keeper_create_empty|].
    apply held_listing.
  - intros Hne.
    destruct (find (isRootTXT commonName)
                (firstn 500 (recordsOf commonName (held newId zone w))))
      as [found|] eqn:Hfind.
    + destruct (keeper_create_update fuel commonName token w found Hpop Hfind)
        as (id & Hid & Hrun).
      exists id. eexists. split; [exact Hrun|].
      apply find_some in Hfind as [Hin _].
      apply listed_In in Hin as [Hheld Hdomain].
      split; [|split].
      * rewrite held_served, held_listing. cbn [kept].
        rewrite <- (rewritten_found commonName id token found Hdomain Hid).
        now apply in_map.
      * cbn [served calls]. rewrite !length_app. cbn. lia.
      * cbn [served now keeper latency]. lia.
    + exists (newId (held newId zone w)). eexists.
      split; [now apply keeper_create_add|].
      split; [|split].
      * rewrite held_served, held_listing. cbn [kept].
        apply in_or_app. right. now left.
      * cbn [served calls]. rewrite !length_app. cbn. lia.
      * cbn [served now keeper latency]. lia.
Qed.

(** X12.  Against the same provider, on a domain with fewer than 500
    records, all with the pointers set that [CreateAliDNSRecord] reads
    ([usable]): when [CreateAliDNSRecord] has returned the id of the root
    TXT record, calling it again, with any token, returns the same id; the
    provider holds as many records as before the second call, and the
    record with that id now has the second token. *)
Theorem CreateAliDNSRecord_twice fuel fuel' commonName token token' w id w' :
  Forall (usable commonName)
    (firstn 500 (recordsOf commonName (held newId zone w))) ->
  (List.length (recordsOf commonName (held newId zone w)) < 500)%nat ->
  CreateAliDNSRecord IsPermanentCommonError nextBackOff (S fuel)
    (keeping newId zone delay) commonName token w
  = Returned (id, None) w' ->
  exists w'',
    CreateAliDNSRecord IsPermanentCommonError nextBackOff (S fuel')
      (keeping newId zone delay) commonName token' w'
    = Returned (id, None) w''
    /\ In (txtRecord commonName id token') (held newId zone w'')
    /\ List.length (held newId zone w'') = List.length (held newId zone w').
Proof.
  intros Hpop Hsmall Hfirst.
  set (records := recordsOf commonName (held newId zone w)) in *.
  assert (Hall : firstn 500 records = records) by (apply firstn_all2; lia).
  (* the state after the first call *)
  assert (Hafter :
    exists r,
      Forall (usable commonName)
        (firstn 500 (recordsOf commonName (held newId zone w')))
      /\ find (isRootTXT commonName)
           (firstn 500 (recordsOf commonName (held newId zone w'))) = Some r
      /\ RecordId r = Some id).
  { destruct records as [|r0 records'] eqn:Hrecords.
    { rewrite (keeper_create_empty (S fuel) commonName token w Hrecords) in Hfirst.
      discriminate. }
    rewrite <- Hrecords in *.
    destruct (find (isRootTXT commonName) (firstn 500 records))
      as [found|] eqn:Hfind.
    - destruct (keeper_create_update fuel commonName token w found Hpop Hfind)
        as (id0 & Hid & Hrun).
      rewrite Hrun in Hfirst. injection Hfirst as -> <-.
      assert (Hheld : held newId zone
                (served (keeper newId zone delay)
                   (CallUpdateDomainRecord (updateRequest id token))
                   (served (keeper newId zone delay)
                      (CallDescribeDomainRecords (describeRequest commonName)) w))
              = map (rewritten (updateRequest id token)) (held newId zone w))
        by (now rewrite held_served, held_listing).
      rewrite Hheld, recordsOf_rewritten. fold records.
      rewrite firstn_all2 by (rewrite length_map; lia).
      rewrite Hall in Hfind.
      destruct (find_rewritten commonName id token records
                  (recordsOf_DomainName commonName _) found Hfind Hid)
        as (r & Hr & Hrid).
      exists r. split; [|split; assumption].
      rewrite Hall in Hpop.
      apply Forall_forall. intros x Hx. apply in_map_iff in Hx as (y & <- & Hy).
      apply rewritten_usable. rewrite Forall_forall in Hpop. now apply Hpop.
    - rewrite (keeper_create_add fuel commonName token w Hpop) in Hfirst;
        [|subst records; congruence | exact Hfind].
      injection Hfirst as <- <-.
      assert (Hheld : held newId zone
                (served (keeper newId zone delay)
                   (CallAddDomainRecord (addRequest commonName token))
                   (served (keeper newId zone delay)
                      (CallDescribeDomainRecords (describeRequest commonName)) w))
              = (held newId zone w
                 ++ [txtRecord commonName (newId (held newId zone w)) token])%list)
        by (now rewrite held_served, held_listing).
      rewrite Hheld.
      exists (txtRecord commonName (newId (held newId zone w)) token).
      assert (Hrecords' :
        firstn 500
          (recordsOf commonName
             (held newId zone w
              ++ [txtRecord commonName (newId (held newId zone w)) token]))
        = (records ++ [txtRecord commonName (newId (held newId zone w)) token])%list).
      { unfold recordsOf. rewrite filter_app.
        cbn [filter txtRecord DomainName holds].
        rewrite String.eqb_refl. fold (recordsOf commonName (held newId zone w)).
        fold records. fold (txtRecord commonName (newId (held newId zone w)) token).
        apply firstn_all2. rewrite length_app. cbn. lia. }
      rewrite Hrecords'. rewrite Hall in Hpop, Hfind.
      split; [|split; [|reflexivity]].
      + apply Forall_app. split; [exact Hpop|].
        constructor; [apply usable_txtRecord | constructor].
      + apply find_app_last; [exact Hfind | apply isRootTXT_txtRecord]. }
  destruct Hafter as (r & Hpop' & Hfind' & Hrid).
  destruct (keeper_create_update fuel' commonName token' w' r Hpop' Hfind')
    as (id' & Hid' & Hrun).
  assert (id' = id) as -> by congruence.
  eexists. split; [exact Hrun|].
  apply find_some in Hfind' as [Hin _].
  apply listed_In in Hin as [Hheld Hdomain].
  rewrite held_served, held_listing. cbn [kept]. split.
  - rewrite <- (rewritten_found commonName id token' r Hdomain Hid').
    now apply in_map.
  - apply length_map.
Qed.

(** X13.  Against the same provider, [DeleteDnsRecord] returns [nil] after
    one request, and the provider then holds the records it held but for
    those with the given id. *)
Theorem DeleteDnsRecord_then_held fuel id w :
  exists w',
    DeleteDnsRecord IsPermanentCommonError nextBackOff (S fuel)
      (keeping newId zone delay) id w = Returned None w'
    /\ calls w' =
       (calls w ++ [CallDeleteDomainRecord {| delete_RecordId := Some id |}])%list
    /\ forall r,
         In r (held newId zone w') <->
         In r (held newId zone w) /\ RecordId r <> Some id.
Proof.
  exists (served (keeper newId zone delay)
            (CallDeleteDomainRecord {| delete_RecordId := Some id |}) w).
  split; [|split; [reflexivity|]].
  - unfold DeleteDnsRecord, bind, tea_String.
    rewrite (RetryOperator_success_at_once nextBackOff fuel _ _ tt w tt
               (served (keeper newId zone delay)
                  (CallDeleteDomainRecord {| delete_RecordId := Some id |}) w));
      [reflexivity|].
    now rewrite (deleteDnsRecord_run IsPermanentCommonError
                   (keeping newId zone delay) (keeper newId zone delay) eq_refl).
  - intros r. rewrite held_served. cbn [kept delete_RecordId].
    rewrite filter_In, negb_true_iff. 
    split; intros [Hin Hid]; (split; [exact Hin|]).
    + intros Heq. apply sameId_eq in Heq. congruence.
    + destruct (sameId (RecordId r) (Some id)) eqn:Hs; [|reflexivity].
      apply sameId_eq in Hs. contradiction.
Qed.

(** X14.  Against the same provider, on a domain that has records, let
    the first 500 of them have the pointers set that [CreateAliDNSRecord]
    reads ([usable]).  When none of these 500 is a root TXT record of
    [commonName], [CreateAliDNSRecord] adds one, whatever the records
    beyond the first 500 are: a root TXT record there stays among the
    records of the domain, beside the new one. *)
Theorem CreateAliDNSRecord_beyond_first_page fuel commonName token w :
  Forall (usable commonName)
    (firstn 500 (recordsOf commonName (held newId zone w))) ->
  recordsOf commonName (held newId zone w) <> [] ->
  find (isRootTXT commonName)
    (firstn 500 (recordsOf commonName (held newId zone w))) = None ->
  exists w',
    CreateAliDNSRecord IsPermanentCommonError nextBackOff (S fuel)
      (keeping newId zone delay) commonName token w
    = Returned (newId (held newId zone w), None) w'
    /\ held newId zone w'
       = (held newId zone w
          ++ [txtRecord commonName (newId (held newId zone w)) token])%list
    /\ forall old,
         In old (skipn 500 (recordsOf commonName (held newId zone w))) ->
         isRootTXT commonName old = true ->
         In old (recordsOf commonName (held newId zone w'))
         /\ In (txtRecord commonName (newId (held newId zone w)) token)
              (recordsOf commonName (held newId zone w')).
Proof.
  intros Hpop Hne Hfind. eexists.
  split; [now apply keeper_create_add|].
  assert (Hheld : held newId zone
            (served (keeper newId zone delay)
               (CallAddDomainRecord (addRequest commonName token))
               (served (keeper newId zone delay)
                  (CallDescribeDomainRecords (describeRequest commonName)) w))
          = (held newId zone w
             ++ [txtRecord commonName (newId (held newId zone w)) token])%list)
    by (now rewrite held_served, held_listing).
  split; [exact Hheld|].
  intros old Hold _. rewrite Hheld. unfold recordsOf in *.
  rewrite filter_app.
  cbn [filter txtRecord DomainName holds]. rewrite String.eqb_refl.
  split; apply in_or_app.
  - left.
    rewrite <- (firstn_skipn 500
                  (filter (fun r => holds (DomainName r) commonName)
                     (held newId zone w))).
    apply in_or_app. now right.
  - right. now left.
Qed.

End KeeperFacts.

(* ================================================================== *)
(** ** More on client.go *)

(** X15.  [NewClient] looks at the access key first: without it the error
    reads that the access key is missing, whatever the secret key; with it
    and without the secret key the error reads that the secret key is
    missing.  The [Alidns] it returns is [nil] exactly when a key is
    missing: with both keys an [Alidns] is returned also when the SDK's
    constructor fails. *)
Theorem NewClient_missing_key
    (alidns_NewClient : Config -> option AlidnsClient * option error)
    (accessKey secretKey : string) (constructed : list Config) :
  (accessKey = "" ->
   fst (NewClient alidns_NewClient accessKey secretKey constructed)
   = (None, Some (errorString "dns.newClient(): missing access_key")))
  /\ (accessKey <> "" -> secretKey = "" ->
      fst (NewClient alidns_NewClient accessKey secretKey constructed)
      = (None, Some (errorString "dns.newClient(): missing secret_key")))
  /\ (fst (fst (NewClient alidns_NewClient accessKey secretKey constructed)) = None
      <-> accessKey = "" \/ secretKey = "").
Proof.
  unfold NewClient. split; [|split].
  - intros ->. reflexivity.
  - intros Ha ->. apply String.eqb_neq in Ha. now rewrite Ha.
  - destruct (accessKey =? "")%string eqn:Ha.
    + apply String.eqb_eq in Ha. cbn. tauto.
    + destruct (secretKey =? "")%string eqn:Hs.
      * apply String.eqb_eq in Hs. cbn. tauto.
      * apply String.eqb_neq in Ha, Hs.
        destruct (alidns_NewClient _) as [c e]. cbn.
        split; [discriminate|tauto].
Qed.

(* ================================================================== *)
(** ** The requests of [CreateAliDNSRecord] *)

Lemma isVerificationRecord_returned commonName r w found w' :
  isVerificationRecord commonName r w = Returned found w' ->
  w' = w /\ found = verification commonName (Some r).
Proof.
  unfold isVerificationRecord, verification, holds, bind.
  destruct (DomainName r) as [d|]; [|discriminate]. cbn [deref ret].
  destruct (d =? commonName)%string; cbn [negb andb];
    [|now intros [= <- <-]].
  destruct (RR r) as [rr|]; [|discriminate]. cbn [deref ret].
  destruct (rr =? "@")%string; cbn [negb andb]; [|now intros [= <- <-]].
  destruct (Type_ r) as [t|]; [|discriminate]. cbn [deref ret].
  now intros [= <- <-].
Qed.

(** Whenever the search loop returns, it has changed nothing, and what it
    found is a root TXT record of [commonName]. *)
Lemma findDnsRecord_returned commonName records : forall w r w',
  findDnsRecord commonName records w = Returned r w' ->
  w' = w /\ match r with
            | Some found => verification commonName (Some found) = true
            | None => True
            end.
Proof.
  induction records as [|p records IH]; intros w r w'; cbn [findDnsRecord].
  - now intros [= <- <-].
  - unfold bind. destruct p as [dnsRecord|]; [|discriminate]. cbn [deref ret].
    destruct (isVerificationRecord commonName dnsRecord w) as [found v| |] eqn:Hv;
      try discriminate.
    apply isVerificationRecord_returned in Hv as [-> ->].
    destruct (verification commonName (Some dnsRecord)) eqn:Hfound; [|apply IH].
    now intros [= <- <-].
Qed.

Section DnsrrRequests.

Variable IsPermanentCommonError : string -> bool.
Variable nextBackOff : nat -> Duration.
Variable a : Alidns.
Variable client : AlidnsClient.
Hypothesis receiver : Client a = Some client.

(** X19.  Whenever [CreateAliDNSRecord] returns, what it sent is the
    request for the first 500 records of [commonName], followed by one
    request repeated zero or more times: the addition of a root TXT record
    of [commonName] with value [token], or the update of one root TXT
    record to [token].  It never sends a deletion and lists once.  When it
    returns without an error it has sent at least one addition or
    update. *)
Theorem CreateAliDNSRecord_requests fuel commonName token w result w' :
  CreateAliDNSRecord IsPermanentCommonError nextBackOff fuel a commonName token w
    = Returned result w' ->
  exists k call,
    calls w' =
    (calls w ++ CallDescribeDomainRecords (describeRequest commonName)
             :: repeat call k)%list
    /\ (call = CallAddDomainRecord (addRequest commonName token)
        \/ exists id, call = CallUpdateDomainRecord (updateRequest id token))
    /\ (snd result = None -> (1 <= k)%nat).
Proof.
  unfold CreateAliDNSRecord, bind.
  destruct (GetAllDnsRecords a commonName w) as [[dnsRecords err0] w1| |] eqn:Hget;
    try discriminate.
  apply (GetAllDnsRecords_calls a client receiver) in Hget as Hlisted.
  destruct err0 as [e|].
  { intros [= <- <-]. exists 0%nat, (CallAddDomainRecord (addRequest commonName token)).
    cbn [repeat snd]. split; [exact Hlisted|]. split; [now left | discriminate]. }
  destruct (List.length dnsRecords =? 0)%nat.
  { intros [= <- <-]. exists 0%nat, (CallAddDomainRecord (addRequest commonName token)).
    cbn [repeat snd]. split; [exact Hlisted|]. split; [now left | discriminate]. }
  destruct (findDnsRecord commonName dnsRecords w1) as [[found|] v| |] eqn:Hfind;
    try discriminate;
    apply findDnsRecord_returned in Hfind as [-> Hfound].
  - apply verification_fields in Hfound as (_ & Hrr & Htype).
    destruct (RetryOperator _ _ _ _ _ _) as [[err1 frame'] w2| |] eqn:Hretry;
      try discriminate.
    rewrite RetryOperator_retry in Hretry.
    destruct (retry_first_attempt nextBackOff _ _ _ _ _ _ _ _ _ Hretry)
      as (r1 & v1 & Hfirst).
    apply updateRecord_returned in Hfirst as [id Hid].
    intros Hresult.
    assert (w2 = w') as ->.
    { destruct err1; [now injection Hresult|].
      rewrite Hid in Hresult. now injection Hresult. }
    assert (Hsend : forall frame v r v',
               updateRecord IsPermanentCommonError a found token frame v
                 = Returned r v' ->
               calls v' =
               (calls v ++ [CallUpdateDomainRecord (updateRequest id token)])%list).
    { intros frame v r v' Hrun.
      rewrite (updateRecord_run IsPermanentCommonError a client receiver
                 _ _ _ _ _ _ _ Hid Htype Hrr) in Hrun.
      cbn zeta in Hrun. fold (updateRequest id token) in Hrun.
      destruct (UpdateDomainRecord client v _); injection Hrun as _ <-; reflexivity. }
    destruct (retry_calls nextBackOff _ _ _ _ Hsend _ _ _ _ _ _ Hretry)
      as (k & Hk & Hcalls).
    exists k, (CallUpdateDomainRecord (updateRequest id token)).
    split; [|split; [right; now exists id | intros _; exact Hk]].
    rewrite Hcalls, Hlisted, <- app_assoc. reflexivity.
  - destruct (RetryOperator _ _ _ _ _ _) as [[err1 frame'] w2| |] eqn:Hretry;
      try discriminate.
    rewrite RetryOperator_retry in Hretry.
    intros Hresult.
    assert (w2 = w') as -> by (destruct err1; now injection Hresult).
    assert (Hsend : forall frame v r v',
               addRecord IsPermanentCommonError a commonName token frame v
                 = Returned r v' ->
               calls v' =
               (calls v ++ [CallAddDomainRecord (addRequest commonName token)])%list).
    { intros frame v [r frame1] v' Hrun.
      exact (proj1 (addRecord_attempt IsPermanentCommonError a client receiver
                      _ _ _ _ _ _ _ Hrun)). }
    destruct (retry_calls nextBackOff _ _ _ _ Hsend _ _ _ _ _ _ Hretry)
      as (k & Hk & Hcalls).
    exists k, (CallAddDomainRecord (addRequest commonName token)).
    split; [|split; [now left | intros _; exact Hk]].
    rewrite Hcalls, Hlisted, <- app_assoc. reflexivity.
Qed.

End DnsrrRequests.

(* ================================================================== *)
(** ** The properties at work *)

(** An empty body: both revocations succeed, whatever the decoder, and
    the validation returns the decoder's error. *)
Lemma empty_response_body_witness :
  RevokeCert (answering "") (unmarshalErrorMsgList := rejecting) 5 = None
  /\ RevokeAllCert (answering "") (unmarshalErrorMsgList := rejecting) 7 = None
  /\ CheckDomainDCV (answering "") (fun format _ => fmt.Errorf format)
       (unmarshalErrorMsgList := rejecting) 9
     = Some (errorString "unexpected end of JSON input").
Proof.
  destruct (empty_response_body (answering "") (fun format _ => fmt.Errorf format)
              (unmarshalErrorMsgList := rejecting) 5 7 9)
    as (Hcert & Horder & Hdomain).
  split; [exact (Hcert eq_refl)|]. split; [exact (Horder eq_refl)|].
  exact (Hdomain (errorString "unexpected end of JSON input") zeroErrorMsgList
           eq_refl eq_refl).
Defined.

(** The first message of a decoded errors list is what both revocations
    return. *)
Lemma Revoke_first_message_witness :
  RevokeCert (answering (errorsBody "access_denied" "You do not have permission"))
    (unmarshalErrorMsgList := decodesTo {| errors := [accessDenied] |}) 5
  = Some (errorString "You do not have permission")
  /\ RevokeAllCert (answering (errorsBody "access_denied" "You do not have permission"))
       (unmarshalErrorMsgList := decodesTo {| errors := [accessDenied] |}) 7
     = Some (errorString "You do not have permission").
Proof.
  assert (Hbody : errorsBody "access_denied" "You do not have permission" <> "")
    by (vm_compute; discriminate).
  assert (Herrors : errors {| errors := [accessDenied] |} <> [])
    by (cbn; discriminate).
  destruct (Revoke_first_message
              (answering (errorsBody "access_denied" "You do not have permission"))
              (unmarshalErrorMsgList := decodesTo {| errors := [accessDenied] |})
              5 7) as (Hcert & Hall).
  split.
  - exact (proj2 (Hcert _ _ eq_refl Hbody eq_refl Herrors) eq_refl).
  - exact (proj2 (Hall _ _ eq_refl Hbody eq_refl Herrors) eq_refl).
Defined.

(** A provider that refuses the listing. *)
Lemma CreateAliDNSRecord_listing_error_witness :
  CreateAliDNSRecord twoWords doubling 0
    {| Client := Some (refusing "ServiceUnavailable") |}
    "example.com" "new-token" boot
  = Returned ("", Some (errorString "ServiceUnavailable"))
      (listedBy (refusing "ServiceUnavailable") boot).
Proof.
  exact (CreateAliDNSRecord_listing_error twoWords doubling
           {| Client := Some (refusing "ServiceUnavailable") |}
           (refusing "ServiceUnavailable") eq_refl
           0 "example.com" "new-token" boot None
           (errorString "ServiceUnavailable") eq_refl).
Defined.

(** The search loop on a list that starts with a record of another domain,
    of which only the domain name is set. *)
Lemma findDnsRecord_reads_what_it_needs_witness :
  findDnsRecord "example.com"
    (Some {| DomainName := Some "example.org"; RR := None; RecordId := None;
             Type_ := None; Value := None |} :: exampleZone) boot
  = Returned (Some (txtRecord "example.com" "77" "old-token")) boot.
Proof.
  apply (findDnsRecord_reads_what_it_needs "example.com"
           (Some {| DomainName := Some "example.org"; RR := None; RecordId := None;
                    Type_ := None; Value := None |} :: exampleZone) boot).
  repeat constructor; vm_compute; try discriminate; trivial.
Defined.

(** A [nil] entry before the root TXT record: the search loop panics
    right after the listing, and so does the call, also without fuel. *)
Lemma CreateAliDNSRecord_nil_pointer_witness :
  calls (listedBy (scriptedClient holedZone 0 "ServiceUnavailable" "9001") boot)
  = [CallDescribeDomainRecords (describeRequest "example.com")]
  /\ findDnsRecord "example.com" holedZone
       (listedBy (scriptedClient holedZone 0 "ServiceUnavailable" "9001") boot)
     = Panicked nilDereference
  /\ CreateAliDNSRecord twoWords doubling 0
       (scripted holedZone 0 "ServiceUnavailable" "9001")
       "example.com" "new-token" boot
     = Panicked nilDereference.
Proof.
  destruct (CreateAliDNSRecord_nil_pointer twoWords doubling
              (scripted holedZone 0 "ServiceUnavailable" "9001")
              (scriptedClient holedZone 0 "ServiceUnavailable" "9001") eq_refl
              "example.com" "new-token" boot
              (listedBy (scriptedClient holedZone 0 "ServiceUnavailable" "9001") boot)
              [Some (wwwRecord "example.com" "12")] None
              [Some (txtRecord "example.com" "77" "old-token")]
              eq_refl)
    as (Hcalls & Hloop & Hcreate).
  - repeat constructor.
  - reflexivity.
  - intros H. exact H.
  - split; [exact Hcalls|]. split; [exact Hloop|]. exact (Hcreate 0%nat).
Defined.

(** A deletion refused once and then accepted: two deletion requests of
    record 77, and [nil]. *)
Lemma DeleteDnsRecord_requests_witness :
  DeleteDnsRecord twoWords doubling 3
    (scripted [] 1 "ServiceUnavailable" "") "77" boot
  = Returned None
      (deleted 1 "ServiceUnavailable"
         (slept (doubling 0) (deleted 1 "ServiceUnavailable" boot)))
  /\ (exists k, (1 <= k)%nat /\
        calls (deleted 1 "ServiceUnavailable"
                 (slept (doubling 0) (deleted 1 "ServiceUnavailable" boot)))
        = (calls boot ++ repeat (CallDeleteDomainRecord delete77) k)%list)
  /\ exists result w',
       DeleteDnsRecord twoWords doubling (Z.to_nat MAX_ELAPSED_TIME + 2)
         (scripted [] 1 "ServiceUnavailable" "") "77" boot
       = Returned result w'.
Proof.
  destruct (DeleteDnsRecord_requests twoWords doubling
              (scripted [] 1 "ServiceUnavailable" "")
              (scriptedClient [] 1 "ServiceUnavailable" "") eq_refl
              3 "77" boot) as [Hsent _].
  destruct (DeleteDnsRecord_requests twoWords doubling
              (scripted [] 1 "ServiceUnavailable" "")
              (scriptedClient [] 1 "ServiceUnavailable" "") eq_refl
              (Z.to_nat MAX_ELAPSED_TIME + 2) "77" boot) as [_ Hreturns].
  split; [reflexivity|]. split.
  - exact (proj1 (Hsent None _ eq_refl)).
  - exact (Hreturns doubling_positive (le_n _)).
Defined.

(** A deletion accepted at once, and one refused for good. *)
Lemma DeleteDnsRecord_single_attempt_witness :
  DeleteDnsRecord twoWords doubling 1
    (scripted [] 0 "InvalidParameter" "") "77" boot
  = Returned None (deleted 0 "InvalidParameter" boot)
  /\ DeleteDnsRecord twoWords doubling 1
       (scripted [] 9 "InvalidParameter" "") "77" boot
     = Returned
         (Some (errorString
            "Alidns delete dns record. Failed to Delete dns record: InvalidParameter"))
         (deleted 9 "InvalidParameter" boot).
Proof.
  split.
  - exact (proj1 (DeleteDnsRecord_single_attempt twoWords doubling
                    (scripted [] 0 "InvalidParameter" "")
                    (scriptedClient [] 0 "InvalidParameter" "") eq_refl
                    0 "77" boot) eq_refl).
  - exact (proj2 (DeleteDnsRecord_single_attempt twoWords doubling
                    (scripted [] 9 "InvalidParameter" "")
                    (scriptedClient [] 9 "InvalidParameter" "") eq_refl
                    0 "77" boot) (errorString "InvalidParameter") eq_refl eq_refl).
Defined.

(** An update accepted at once, and an addition refused for good. *)
Lemma CreateAliDNSRecord_single_attempt_witness :
  CreateAliDNSRecord twoWords doubling 1
    (scripted exampleZone 0 "InvalidParameter" "9001")
    "example.com" "new-token" boot
  = Returned ("77", None)
      (served (scriptedClient exampleZone 0 "InvalidParameter" "9001")
         (CallUpdateDomainRecord (updateRequest "77" "new-token"))
         (listedBy (scriptedClient exampleZone 0 "InvalidParameter" "9001") boot))
  /\ CreateAliDNSRecord twoWords doubling 1
       (scripted [Some (wwwRecord "example.com" "12")] 9 "InvalidParameter" "9001")
       "example.com" "new-token" boot
     = Returned
         ("", Some (errorString
            "Alidns create dns record. Failed to create verification TXT record: InvalidParameter"))
         (served
               (scriptedClient [Some (wwwRecord "example.com" "12")] 9
                  "InvalidParameter" "9001")
               (CallAddDomainRecord (addRequest "example.com" "new-token"))
               (listedBy
                  (scriptedClient [Some (wwwRecord "example.com" "12")] 9
                     "InvalidParameter" "9001") boot)).
Proof.
  split.
  - assert (Hreadable : Forall (readable "example.com") exampleZone)
      by (repeat constructor; discriminate).
    destruct (CreateAliDNSRecord_single_attempt twoWords doubling
                (scripted exampleZone 0 "InvalidParameter" "9001")
                (scriptedClient exampleZone 0 "InvalidParameter" "9001") eq_refl
                0 "example.com" "new-token" boot exampleZone _ eq_refl Hreadable)
      as [Hupdate _].
    exact (proj1 (Hupdate (txtRecord "example.com" "77" "old-token") "77"
                    eq_refl eq_refl) eq_refl).
  - assert (Hreadable : Forall (readable "example.com")
                          [Some (wwwRecord "example.com" "12")])
      by (repeat constructor; discriminate).
    destruct (CreateAliDNSRecord_single_attempt twoWords doubling
                (scripted [Some (wwwRecord "example.com" "12")] 9
                   "InvalidParameter" "9001")
                (scriptedClient [Some (wwwRecord "example.com" "12")] 9
                   "InvalidParameter" "9001") eq_refl
                0 "example.com" "new-token" boot
                [Some (wwwRecord "example.com" "12")] _ eq_refl Hreadable)
      as [_ Hadd].
    assert (Hsome : [Some (wwwRecord "example.com" "12")] <> [])
      by discriminate.
    exact (proj2 (Hadd Hsome eq_refl) None (errorString "InvalidParameter")
             eq_refl eq_refl).
Defined.

Lemma exampleRecords_usable :
  Forall (usable "example.com")
    (firstn 500 (recordsOf "example.com" (held ninetyOhOne exampleRecords boot))).
Proof.
  change (firstn 500 (recordsOf "example.com" (held ninetyOhOne exampleRecords boot)))
    with exampleRecords.
  repeat constructor; discriminate.
Qed.

(** The provider of example.com after a call with a new token: the root
    TXT record 77 has it. *)
Lemma CreateAliDNSRecord_then_held_witness :
  exists id w',
    CreateAliDNSRecord twoWords doubling 1 exampleKeeping
      "example.com" "new-token" boot
    = Returned (id, None) w'
    /\ In (txtRecord "example.com" id "new-token") (held ninetyOhOne exampleRecords w')
    /\ List.length (calls w') = (List.length (calls boot) + 2)%nat
    /\ now w' = now boot + 2 * Z.of_N 50000000.
Proof.
  apply (CreateAliDNSRecord_then_held ninetyOhOne exampleRecords 50000000
           twoWords doubling 0 "example.com" "new-token" boot
           exampleRecords_usable).
  discriminate.
Defined.

(** A second call with another token returns record 77 again. *)
Lemma CreateAliDNSRecord_twice_witness :
  exists w'',
    CreateAliDNSRecord twoWords doubling 1 exampleKeeping
      "example.com" "newer-token"
      (served exampleKeeper
         (CallUpdateDomainRecord (updateRequest "77" "new-token"))
         (listedBy exampleKeeper boot))
    = Returned ("77", None) w''
    /\ In (txtRecord "example.com" "77" "newer-token")
         (held ninetyOhOne exampleRecords w'')
    /\ List.length (held ninetyOhOne exampleRecords w'')
       = List.length
           (held ninetyOhOne exampleRecords
              (served exampleKeeper
                 (CallUpdateDomainRecord (updateRequest "77" "new-token"))
                 (listedBy exampleKeeper boot))).
Proof.
  apply (CreateAliDNSRecord_twice ninetyOhOne exampleRecords 50000000
           twoWords doubling 0 0 "example.com" "new-token" "newer-token" boot
           "77" _ exampleRecords_usable).
  - vm_compute. lia.
  - reflexivity.
Defined.

Lemma crowdedRecords_usable :
  Forall (usable "example.com")
    (firstn 500 (recordsOf "example.com" (held ninetyOhOne crowdedRecords boot))).
Proof.
  assert (Hfirst :
    firstn 500 (recordsOf "example.com" (held ninetyOhOne crowdedRecords boot))
    = repeat (wwwRecord "example.com" "1") 500) by (vm_compute; reflexivity).
  rewrite Hfirst. apply Forall_forall. intros r Hr.
  apply repeat_spec in Hr. subst r. repeat constructor; discriminate.
Qed.

(** A root TXT record beyond the first page: a second one is added. *)
Lemma CreateAliDNSRecord_beyond_first_page_witness :
  exists w',
    CreateAliDNSRecord twoWords doubling 1
      (keeping ninetyOhOne crowdedRecords 50000000)
      "example.com" "new-token" boot
    = Returned ("9001", None) w'
    /\ held ninetyOhOne crowdedRecords w'
       = (crowdedRecords ++ [txtRecord "example.com" "9001" "new-token"])%list
    /\ In (txtRecord "example.com" "77" "old-token")
         (recordsOf "example.com" (held ninetyOhOne crowdedRecords w'))
    /\ In (txtRecord "example.com" "9001" "new-token")
         (recordsOf "example.com" (held ninetyOhOne crowdedRecords w')).
Proof.
  destruct (CreateAliDNSRecord_beyond_first_page ninetyOhOne crowdedRecords
              50000000 twoWords doubling 0 "example.com" "new-token" boot
              crowdedRecords_usable)
    as (w' & Hcreate & Hheld & Hstays).
  - vm_compute. discriminate.
  - vm_compute. reflexivity.
  - exists w'. split; [exact Hcreate|]. split; [exact Hheld|].
    apply (Hstays (txtRecord "example.com" "77" "old-token")).
    + vm_compute. left. reflexivity.
    + reflexivity.
Defined.

(** An update refused once and then accepted: the listing, then the same
    update twice. *)
Lemma CreateAliDNSRecord_requests_witness :
  CreateAliDNSRecord twoWords doubling 3
    (scripted exampleZone 2 "ServiceUnavailable" "9001")
    "example.com" "new-token" boot
  = Returned ("77", None)
      (served (scriptedClient exampleZone 2 "ServiceUnavailable" "9001")
         (CallUpdateDomainRecord (updateRequest "77" "new-token"))
         (slept (doubling 0)
            (served (scriptedClient exampleZone 2 "ServiceUnavailable" "9001")
                  (CallUpdateDomainRecord (updateRequest "77" "new-token"))
                  (listedBy (scriptedClient exampleZone 2 "ServiceUnavailable" "9001")
                     boot))))
  /\ exists k call,
       calls
         (served (scriptedClient exampleZone 2 "ServiceUnavailable" "9001")
            (CallUpdateDomainRecord (updateRequest "77" "new-token"))
            (slept (doubling 0)
               (served (scriptedClient exampleZone 2 "ServiceUnavailable" "9001")
                     (CallUpdateDomainRecord (updateRequest "77" "new-token"))
                     (listedBy
                        (scriptedClient exampleZone 2 "ServiceUnavailable" "9001")
                        boot))))
       = (calls boot
          ++ CallDescribeDomainRecords (describeRequest "example.com")
             :: repeat call k)%list
       /\ (call = CallAddDomainRecord (addRequest "example.com" "new-token")
           \/ exists id, call = CallUpdateDomainRecord (updateRequest id "new-token"))
       /\ (snd ("77", @None error) = None -> (1 <= k)%nat).
Proof.
  split; [reflexivity|].
  exact (CreateAliDNSRecord_requests twoWords doubling
           (scripted exampleZone 2 "ServiceUnavailable" "9001")
           (scriptedClient exampleZone 2 "ServiceUnavailable" "9001") eq_refl
           3 "example.com" "new-token" boot ("77", None) _ eq_refl).
Defined.
